(** * OBD2-PYTHON: a shallow embedding of the sampling, logging and
      log-analysis code, and the properties of its specification.

    The development follows the three classes of the repository:
    [OBDDiagnosticTool] (src/obd_reader.py), [OBDDataLogger]
    (src/data_logger.py) and [DiagnosticReportGenerator]
    (src/report_generator.py), and the scripts of src/data_logger.py,
    src/obd_reader.py and examples/basic_usage.py.

    Conventions.
    - A Python [float] is an IEEE binary64 number: Rocq's primitive [float].
    - Python's [str()] on a float and [float()] on a string are the
      interpreter's; they are taken through the class [PyFloatIO].
    - A dict is a [gmap]; where the order of iteration matters it is an
      association list.
    - The adapter library ([obd.OBD]) is an external collaborator: it is a
      record of answers, and the calls made on it are recorded in the
      [trace] of the [World]. A query answers a response, possibly an absent
      one; it does not raise, so the except branches that only an exception
      of the library or of the file system can reach are left out.
    - Time is counted in microseconds, as an integer; only queries and
      sleeps take time. *)

From Stdlib Require Import ZArith Floats Uint63 String Ascii List Lia.
From stdpp Require Import gmap strings list fin_maps pretty.

Set Warnings "-register-all".

Open Scope string_scope.
Open Scope Z_scope.

(* ===================================================================== *)
(** * Part I. Definitions                                                 *)
(* ===================================================================== *)

(** ** Python built-ins *)

(** [str(x)] for a float and [float(s)] for a string. [py_float s = None]
    stands for the [ValueError] that [float] raises on a string that is not
    a number. *)
Class PyFloatIO := {
  py_repr : float -> string;
  py_float : string -> option float
}.

(** [min(a, b)]: the first argument is kept unless the second is strictly
    smaller; [max(a, b)] likewise. Comparisons with NaN are false. *)
Definition py_min (a b : float) : float := if (b <? a)%float then b else a.
Definition py_max (a b : float) : float := if (a <? b)%float then b else a.

(** [sum(values)]: left to right, starting from 0. (CPython 3.12 and later add
    a compensation term to the sum of floats; the running sum of an
    accumulator and [sum] are here the same plain sum.) *)
Definition py_sum (values : list float) : float :=
  fold_left PrimFloat.add values PrimFloat.zero.

(** The conversion of [len(values)] in [sum(values) / len(values)]. *)
Definition float_of_nat (n : nat) : float := of_uint63 (Uint63.of_Z (Z.of_nat n)).

(** [s.endswith(suffix)] *)
Fixpoint endswith (s suffix : string) : bool :=
  String.eqb s suffix ||
  match s with
  | EmptyString => false
  | String _ s' => endswith s' suffix
  end.

(** [d[k] = v], and [dict(pairs)]: a later pair overrides an earlier one with
    the same key. *)
Definition dict_set {A} (d : gmap string A) (kv : string * A) : gmap string A :=
  <[kv.1 := kv.2]> d.

Definition py_dict {A} (pairs : list (string * A)) : gmap string A :=
  fold_left dict_set pairs ∅.

(** [d[k] = v] on a dict taken in its order of insertion: the value of a key
    that is there is replaced where it stands, a new key goes to the end. *)
Fixpoint dict_setitem {A} (d : list (string * A)) (k : string) (v : A)
    : list (string * A) :=
  match d with
  | [] => [(k, v)]
  | (k', v') :: rest =>
      if String.eqb k' k then (k, v) :: rest else (k', v') :: dict_setitem rest k v
  end.

(** ** Values returned by the adapter *)

(** [response.value]: a number, a text, or the list of (code, description)
    pairs that GET_DTC answers. [response.is_null()] is an absent value:
    a response is an [option Value]. *)
Inductive Value :=
| Numeric (x : float)
| Text (s : string)
| Codes (l : list (string * string)).

Definition str_tuple (cd : string * string) : string :=
  "('" ++ cd.1 ++ "', '" ++ cd.2 ++ "')".

(** [str(response.value)]. The list of codes is printed as Python prints a
    list of tuples of plain strings (no quote or escape inside them). *)
Definition py_str `{PyFloatIO} (v : Value) : string :=
  match v with
  | Numeric x => py_repr x
  | Text s => s
  | Codes l => "[" ++ String.concat ", " (map str_tuple l) ++ "]"
  end.

(** ** Dates *)

(** The civil date of a day number counted from 1970-01-01. *)
Definition civil_from_days (days : Z) : Z * Z * Z :=
  let z := days + 719468 in
  let era := z / 146097 in
  let doe := z mod 146097 in
  let yoe := (doe - doe / 1460 + doe / 36524 - doe / 146096) / 365 in
  let doy := doe - (365 * yoe + yoe / 4 - yoe / 100) in
  let mp := (5 * doy + 2) / 153 in
  let d := doy - (153 * mp + 2) / 5 + 1 in
  let m := if mp <? 10 then mp + 3 else mp - 9 in
  let y := yoe + era * 400 + (if m <=? 2 then 1 else 0) in
  (y, m, d).

Fixpoint zeros (n : nat) : string :=
  match n with O => "" | S n' => "0" ++ zeros n' end.

(** A number written on at least [width] digits. *)
Definition pad (width : nat) (z : Z) : string :=
  let s := pretty z in zeros (width - String.length s) ++ s.

(** A clock reading [t] (microseconds) as the fields of [datetime.now()]. *)
Record datetime := {
  year : Z; month : Z; day : Z; hour : Z; minute : Z; second : Z; microsecond : Z
}.

Definition datetime_of (t : Z) : datetime :=
  let secs := t / 1000000 in
  let '(y, m, d) := civil_from_days (secs / 86400) in
  let sod := secs mod 86400 in
  {| year := y; month := m; day := d;
     hour := sod / 3600; minute := (sod mod 3600) / 60; second := sod mod 60;
     microsecond := t mod 1000000 |}.

(** [dt.isoformat()] *)
Definition isoformat (dt : datetime) : string :=
  pad 4 (year dt) ++ "-" ++ pad 2 (month dt) ++ "-" ++ pad 2 (day dt) ++ "T" ++
  pad 2 (hour dt) ++ ":" ++ pad 2 (minute dt) ++ ":" ++ pad 2 (second dt) ++
  (if microsecond dt =? 0 then "" else "." ++ pad 6 (microsecond dt)).

(** [dt.strftime("%Y%m%d_%H%M%S")] *)
Definition strftime_file (dt : datetime) : string :=
  pad 4 (year dt) ++ pad 2 (month dt) ++ pad 2 (day dt) ++ "_" ++
  pad 2 (hour dt) ++ pad 2 (minute dt) ++ pad 2 (second dt).

(** [dt.strftime("%Y-%m-%d %H:%M:%S")] *)
Definition strftime_human (dt : datetime) : string :=
  pad 4 (year dt) ++ "-" ++ pad 2 (month dt) ++ "-" ++ pad 2 (day dt) ++ " " ++
  pad 2 (hour dt) ++ ":" ++ pad 2 (minute dt) ++ ":" ++ pad 2 (second dt).

(** ** JSON documents, as [json.load] returns them *)

(** A number is a float (an integer of the file is taken at its float
    value); an object is the list of the items of the dict, whose keys are
    distinct. *)
Inductive json :=
| JNull
| JBool (b : bool)
| JNum (x : float)
| JStr (s : string)
| JArr (l : list json)
| JObj (l : list (string * json)).

(** [json.dump(data, f, indent=2)] writes a text that [json.load] reads back
    as [data]; [json_text_rows data] stands for the rows that [csv.reader]
    yields on that text. *)
Class PyJsonText := {
  json_text_rows : json -> list (list string)
}.

(** ** The adapter library and the world around the program *)

Module obd.

(** A command of [obd.commands], identified with its printed name
    ([str(cmd)]). *)
Definition Cmd := string.

Module commands.
Definition RPM : Cmd := "RPM".
Definition SPEED : Cmd := "SPEED".
Definition THROTTLE_POS : Cmd := "THROTTLE_POS".
Definition ENGINE_LOAD : Cmd := "ENGINE_LOAD".
Definition COOLANT_TEMP : Cmd := "COOLANT_TEMP".
Definition INTAKE_TEMP : Cmd := "INTAKE_TEMP".
Definition MAF : Cmd := "MAF".
Definition O2_B1S1 : Cmd := "O2_B1S1".
Definition FUEL_LEVEL : Cmd := "FUEL_LEVEL".
Definition TIMING_ADVANCE : Cmd := "TIMING_ADVANCE".
Definition VIN : Cmd := "VIN".
Definition ELM_VERSION : Cmd := "ELM_VERSION".
Definition ELM_VOLTAGE : Cmd := "ELM_VOLTAGE".
Definition FUEL_TYPE : Cmd := "FUEL_TYPE".
Definition DISTANCE_W_MIL : Cmd := "DISTANCE_W_MIL".
Definition GET_DTC : Cmd := "GET_DTC".
Definition CLEAR_DTC : Cmd := "CLEAR_DTC".
End commands.

(** An [obd.OBD] connection object: whether the link came up, the commands
    the vehicle supports, and, for the [n]-th query issued on the link,
    the value of its response ([None] when [is_null()]) and the time the
    round trip takes. *)
Record OBD := {
  is_connected : bool;
  supported_commands : list Cmd;
  respond : nat -> Cmd -> option Value;
  latency : nat -> Cmd -> Z
}.

End obd.
Import obd.

(** What the program does to the outside, in order. *)
Inductive Event :=
| Query (at_time : Z) (c : Cmd)                (* connection.query(c) *)
| Sleep (at_time : Z) (d : Z)                  (* time.sleep(d) *)
| Close (at_time : Z)                          (* connection.close() *)
| Log (level : string) (message : string).     (* logging.info / error / warning *)

(** A file of the log directory, as its two readers see it: the rows that
    [csv.reader] yields, and the document that [json.load] returns ([None]
    when it raises). *)
Record LogFile := {
  csv_rows : list (list string);
  json_doc : option json
}.

(** The arguments of [template.render]: the content of a report. *)
Record Html := {
  html_timestamp : string;
  html_vehicle_info : gmap string string;
  html_dtc_codes : list (string * string);
  html_sensor_data : gmap string string;
  html_graphs : gmap string string
}.

Record World := {
  now : Z;                          (* time.time(), in microseconds *)
  sent : nat;                       (* queries issued on the link so far *)
  trace : list Event;
  logs : gmap string LogFile;       (* the files of the log directory *)
  reports : gmap string Html;       (* the files of the report directory *)
  graphs_dir : gset string          (* the .png files written *)
}.

Definition set_logs (f : gmap string LogFile) (w : World) : World :=
  {| now := now w; sent := sent w; trace := trace w; logs := f;
     reports := reports w; graphs_dir := graphs_dir w |}.

Definition set_reports (f : gmap string Html) (w : World) : World :=
  {| now := now w; sent := sent w; trace := trace w; logs := logs w;
     reports := f; graphs_dir := graphs_dir w |}.

Definition set_graphs (g : gset string) (w : World) : World :=
  {| now := now w; sent := sent w; trace := trace w; logs := logs w;
     reports := reports w; graphs_dir := g |}.

(** Computations that act on the world. *)
Definition M (A : Type) : Type := World -> A * World.

#[global] Instance M_ret : MRet M := fun A a w => (a, w).
#[global] Instance M_bind : MBind M := fun A B k m w => let (a, w') := m w in k a w'.

Definition emit (e : Event) : M unit := fun w =>
  (tt, {| now := now w; sent := sent w; trace := trace w ++ [e]; logs := logs w;
          reports := reports w; graphs_dir := graphs_dir w |}).

Definition advance (d : Z) : M unit := fun w =>
  (tt, {| now := now w + d; sent := sent w; trace := trace w; logs := logs w;
          reports := reports w; graphs_dir := graphs_dir w |}).

(** [time.time()] *)
Definition time_time : M Z := fun w => (now w, w).

(** [time.sleep(d)], for a non-negative [d]. *)
Definition time_sleep (d : Z) : M unit :=
  t ← time_time; emit (Sleep t d);; advance d.

(** [connection.query(c)]: the request is handed to the adapter library,
    which answers the response of the [n]-th query after its latency. *)
Definition query (conn : OBD) (c : Cmd) : M (option Value) := fun w =>
  (respond conn (sent w) c,
   {| now := now w + latency conn (sent w) c; sent := S (sent w);
      trace := trace w ++ [Query (now w) c]; logs := logs w;
      reports := reports w; graphs_dir := graphs_dir w |}).

(** [connection.close()] *)
Definition connection_close : M unit :=
  t ← time_time; emit (Close t).

Definition logging_info (msg : string) : M unit := emit (Log "INFO" msg).
Definition logging_warning (msg : string) : M unit := emit (Log "WARNING" msg).
Definition logging_error (msg : string) : M unit := emit (Log "ERROR" msg).

(** [str(directory / name)] *)
Definition path_join (directory name : string) : string := directory ++ "/" ++ name.

Definition read_logs : M (gmap string LogFile) := fun w => (logs w, w).
Definition write_logs (f : gmap string LogFile -> gmap string LogFile) : M unit :=
  fun w => (tt, set_logs (f (logs w)) w).

Definition write_report (path : string) (content : Html) : M unit :=
  fun w => (tt, set_reports (<[path := content]> (reports w)) w).

(** [datetime.now()] *)
Definition datetime_now : M datetime := t ← time_time; mret (datetime_of t).

(** ** src/obd_reader.py *)

Module OBDDiagnosticTool.

Record t := {
  connection : option OBD;
  supported_commands : list Cmd
}.

Definition __init__ : t := {| connection := None; supported_commands := [] |}.

(** [port] is what [obd.OBD()] gives: a connection object, or [None] when
    the constructor raises. *)
Definition connect (port : option OBD) (self : t) : bool * t :=
  match port with
  | None => (false, self)
  | Some conn =>
      if is_connected conn
      then (true, {| connection := Some conn;
                     supported_commands := obd.supported_commands conn |})
      else (false, {| connection := Some conn;
                      supported_commands := supported_commands self |})
  end.

Definition get_fault_codes (self : t) : M Value :=
  match connection self with
  | None => mret (Codes [])
  | Some conn =>
      response ← query conn commands.GET_DTC;
      match response with
      | None => mret (Codes [])
      | Some value => mret value
      end
  end.

Definition clear_fault_codes (self : t) : M bool :=
  match connection self with
  | None => mret false
  | Some conn =>
      response ← query conn commands.CLEAR_DTC;
      mret (bool_decide (response ≠ None))
  end.

Section WithPython.
Context `{PyFloatIO}.

Definition info_commands : list (Cmd * string) :=
  [(commands.VIN, "VIN"); (commands.ELM_VERSION, "ELM Version");
   (commands.ELM_VOLTAGE, "Battery Voltage")].

(** The loop [for command, key in commands] of [get_vehicle_info]. *)
Fixpoint info_loop (self : t) (conn : OBD) (cmds : list (Cmd * string))
    (info : gmap string string) : M (gmap string string) :=
  match cmds with
  | [] => mret info
  | (command, key) :: rest =>
      if bool_decide (command ∈ supported_commands self) then
        response ← query conn command;
        match response with
        | Some value => info_loop self conn rest (<[key := py_str value]> info)
        | None => info_loop self conn rest info
        end
      else info_loop self conn rest info
  end.

Definition get_vehicle_info (self : t) : M (gmap string string) :=
  match connection self with
  | None => mret ∅
  | Some conn => info_loop self conn info_commands ∅
  end.
End WithPython.

Definition live_commands : list (string * Cmd) :=
  [("RPM", commands.RPM); ("Speed", commands.SPEED);
   ("Throttle Position", commands.THROTTLE_POS);
   ("Engine Load", commands.ENGINE_LOAD)].

Definition live_data : gmap string (list Value) :=
  py_dict [("RPM", []); ("Speed", []); ("Throttle Position", []); ("Engine Load", [])].

(** The loop [for key, command in commands.items()] of one tick. *)
Fixpoint live_tick (self : t) (conn : OBD) (cmds : list (string * Cmd))
    (data : gmap string (list Value)) : M (gmap string (list Value)) :=
  match cmds with
  | [] => mret data
  | (key, command) :: rest =>
      if bool_decide (command ∈ supported_commands self) then
        response ← query conn command;
        match response with
        | Some value => live_tick self conn rest (alter (fun l => (l ++ [value])%list) key data)
        | None => live_tick self conn rest data
        end
      else live_tick self conn rest data
  end.

(** The loop [while time.time() - start_time < duration], run for at most
    [fuel] ticks; [duration] is given in microseconds, and [time.sleep(0.5)]
    is a sleep of 500000. [None] when the fuel runs out first. *)
Fixpoint live_loop (fuel : nat) (self : t) (conn : OBD) (start_time duration : Z)
    (data : gmap string (list Value)) : M (option (gmap string (list Value))) :=
  match fuel with
  | O => mret None
  | S fuel' =>
      t ← time_time;
      if t - start_time <? duration then
        data' ← live_tick self conn live_commands data;
        time_sleep 500000;;
        live_loop fuel' self conn start_time duration data'
      else mret (Some data)
  end.

Definition monitor_live_data (fuel : nat) (self : t) (duration : Z)
    : M (option (gmap string (list Value))) :=
  match connection self with
  | None => mret (Some ∅)
  | Some conn =>
      start_time ← time_time;
      live_loop fuel self conn start_time duration live_data
  end.

Definition close (self : t) : M unit :=
  match connection self with
  | None => mret tt
  | Some _ => connection_close
  end.

End OBDDiagnosticTool.

(** ** src/data_logger.py *)

(** The entry of one parameter while a log is analysed: the dict with the
    keys "min", "max" and "values". *)
Record Param := {
  param_min : float;
  param_max : float;
  param_values : list float
}.

(** The entry that is returned: "values" is deleted, and "avg" is present
    only when there were values. *)
Record Stats := {
  stat_min : float;
  stat_max : float;
  stat_avg : option float
}.

Definition new_param : Param :=
  {| param_min := infinity; param_max := neg_infinity; param_values := [] |}.

(** [values.append(value)], then "min" and "max" are updated. *)
Definition add_value (value : float) (p : Param) : Param :=
  {| param_min := py_min (param_min p) value;
     param_max := py_max (param_max p) value;
     param_values := param_values p ++ [value] |}.

(** The closing loop: [if param["values"]: param["avg"] = sum / len], then
    [del param["values"]]. *)
Definition finish (p : Param) : Stats :=
  {| stat_min := param_min p;
     stat_max := param_max p;
     stat_avg := match param_values p with
                 | [] => None
                 | _ => Some (py_sum (param_values p) /
                              float_of_nat (length (param_values p)))%float
                 end |}.

Module OBDDataLogger.

Record t := {
  log_dir : string;
  connection : option OBD;
  logging : bool
}.

Definition __init__ (log_dir : string) : t :=
  {| log_dir := log_dir; connection := None; logging := false |}.

Definition connect (port : option OBD) (self : t) : bool * t :=
  match port with
  | None => (false, self)
  | Some conn =>
      (is_connected conn,
       {| log_dir := log_dir self; connection := Some conn; logging := logging self |})
  end.

Definition get_supported_commands (self : t) : list string :=
  match connection self with
  | None => []
  | Some conn => obd.supported_commands conn
  end.

(** [open(path, 'w')] and [writer.writerow(row)] *)
Definition open_w (path : string) : M unit :=
  write_logs (insert path {| csv_rows := []; json_doc := None |}).

Definition writerow (path : string) (row : list string) : M unit :=
  write_logs (alter (fun f => {| csv_rows := csv_rows f ++ [row];
                                 json_doc := json_doc f |}) path).

Section WithPython.
Context `{PyFloatIO}.

(** [str(response.value) if not response.is_null() else "NULL"] *)
Definition csv_cell (response : option Value) : string :=
  match response with
  | Some value => py_str value
  | None => "NULL"
  end.

(** The loop [for cmd in commands: row.append(...)]. *)
Fixpoint query_row (conn : OBD) (cmds : list Cmd) (row : list string)
    : M (list string) :=
  match cmds with
  | [] => mret row
  | cmd :: rest =>
      response ← query conn cmd;
      query_row conn rest (row ++ [csv_cell response])
  end.

(** The loop [while time.time() - start_time < duration], run for at most
    [fuel] ticks; [duration] and [interval] are given in microseconds.
    [Some true]: the loop ended; [Some false]: [time.sleep] raised on a
    negative interval; [None]: the fuel ran out first. *)
Fixpoint log_loop (fuel : nat) (conn : OBD) (csv_file : string)
    (cmds : list Cmd) (start_time duration interval : Z) : M (option bool) :=
  match fuel with
  | O => mret None
  | S fuel' =>
      t ← time_time;
      if t - start_time <? duration then
        stamp ← datetime_now;
        row ← query_row conn cmds [isoformat stamp];
        writerow csv_file row;;
        if interval <? 0 then mret (Some false)
        else
          time_sleep interval;;
          log_loop fuel' conn csv_file cmds start_time duration interval
      else mret (Some true)
  end.

Definition log_to_csv (fuel : nat) (self : t) (cmds : list Cmd)
    (duration interval : Z) : M (option string) :=
  match connection self with
  | None => logging_error "No connection established";; mret (Some "")
  | Some conn =>
      stamp ← datetime_now;
      let csv_file :=
        path_join (log_dir self) ("obd_log_" ++ strftime_file stamp ++ ".csv") in
      let headers := "Timestamp" :: cmds in
      open_w csv_file;;
      writerow csv_file headers;;
      start_time ← time_time;
      r ← log_loop fuel conn csv_file cmds start_time duration interval;
      match r with
      | None => mret None
      | Some true =>
          logging_info ("Data logged to " ++ csv_file);; mret (Some csv_file)
      | Some false =>
          logging_error "Error logging data: sleep length must be non-negative";;
          mret (Some "")
      end
  end.

(** One row of [csv.DictReader]: [dict(zip(fieldnames, row))], the missing
    fields of a short row being [None]. *)
Definition dict_row (fieldnames row : list string) : gmap string (option string) :=
  py_dict (zip fieldnames
               (map Some row ++ replicate (length fieldnames - length row) None)).

(** The body of [for header in headers]: [float(row[header])] raises
    TypeError on [None] and ValueError on a string that is not a number;
    both are caught and the cell is passed over. Every field name is a key
    of the row, so the lookup itself never fails. *)
Definition csv_cell_step (row : gmap string (option string))
    (params : gmap string Param) (header : string) : gmap string Param :=
  match row !! header with
  | Some (Some cell) =>
      match py_float cell with
      | Some value => alter (add_value value) header params
      | None => params
      end
  | _ => params
  end.

Definition csv_row_step (fieldnames headers : list string)
    (params : gmap string Param) (row : list string) : gmap string Param :=
  fold_left (csv_cell_step (dict_row fieldnames row)) headers params.

Definition init_params (headers : list string) : gmap string Param :=
  fold_left (fun params header => <[header := new_param]> params) headers ∅.

(** The first loops of [_analyze_csv] on the rows of the file: the entries
    before the averages are computed. [None] when the file has no header
    row ([reader.fieldnames] is [None] and slicing it raises). The reader
    passes over empty rows. *)
Definition accumulate_rows (rows : list (list string)) : option (gmap string Param) :=
  match rows with
  | [] => None
  | fieldnames :: data =>
      let headers := tail fieldnames in
      Some (fold_left (csv_row_step fieldnames headers)
                      (filter (fun row => row ≠ []) data) (init_params headers))
  end.

Definition analyze_rows (rows : list (list string)) : option (gmap string Stats) :=
  match accumulate_rows rows with
  | Some params => Some (finish <$> params)
  | None => None
  end.

(** [float(value) if value is not None else None], then the update; a
    value that is not a number is passed over. *)
Definition json_value_step (params : gmap string Param) (item : string * json)
    : gmap string Param :=
  let '(param, value) := item in
  let params :=
    match params !! param with
    | None => <[param := new_param]> params
    | Some _ => params
    end in
  match value with
  | JNull => params
  | JNum x => alter (add_value x) param params
  | JBool b => alter (add_value (if b then 1 else 0)%float) param params
  | JStr s =>
      match py_float s with
      | Some x => alter (add_value x) param params
      | None => params
      end
  | JArr _ | JObj _ => params
  end.

(** [entry["data"].items()]; [None] when it raises: the entry is not an
    object, has no "data" key, or its "data" is not an object. *)
Definition entry_items (entry : json) : option (list (string * json)) :=
  match entry with
  | JObj fields =>
      match py_dict fields !! "data" with
      | Some (JObj items) => Some items
      | _ => None
      end
  | _ => None
  end.

(** The elements that [for entry in data] goes through; [None] when [data]
    is not iterable. *)
Definition entries (data : json) : option (list json) :=
  match data with
  | JArr l => Some l
  | JObj fields => Some (map (fun kv => JStr kv.1) fields)
  | JStr s => Some (map (fun c => JStr (String c "")) (list_ascii_of_string s))
  | _ => None
  end.

Fixpoint json_entries_loop (l : list json) (params : gmap string Param)
    : option (gmap string Param) :=
  match l with
  | [] => Some params
  | entry :: rest =>
      match entry_items entry with
      | None => None
      | Some items => json_entries_loop rest (fold_left json_value_step items params)
      end
  end.

(** The first loops of [_analyze_json]; [None] when an exception leaves
    them. *)
Definition accumulate_doc (data : json) : option (gmap string Param) :=
  match entries data with
  | Some l => json_entries_loop l ∅
  | None => None
  end.

Definition analyze_doc (data : json) : option (gmap string Stats) :=
  match accumulate_doc data with
  | Some params => Some (finish <$> params)
  | None => None
  end.

(** [_analyze_csv] and [_analyze_json] on a file that exists; [None] when
    an exception leaves the function. *)
Definition _analyze_csv (csv_file : string) : M (option (gmap string Stats)) :=
  files ← read_logs;
  mret (match files !! csv_file with
        | Some f => analyze_rows (csv_rows f)
        | None => None
        end).

Definition _analyze_json (json_file : string) : M (option (gmap string Stats)) :=
  files ← read_logs;
  mret (match files !! json_file with
        | Some f => match json_doc f with
                    | Some data => analyze_doc data
                    | None => None
                    end
        | None => None
        end).

(** [analyze_log_file]: [None] is the empty dict [{}], [Some params] the
    dict [{"parameters": params}]. *)
Definition analyze_log_file (log_file : string) : M (option (gmap string Stats)) :=
  files ← read_logs;
  if bool_decide (files !! log_file = None) then
    logging_error ("Log file not found: " ++ log_file);; mret None
  else if endswith log_file ".csv" then
    r ← _analyze_csv log_file;
    match r with
    | Some analysis => mret (Some analysis)
    | None => logging_error "Error analyzing log file";; mret None
    end
  else if endswith log_file ".json" then
    r ← _analyze_json log_file;
    match r with
    | Some analysis => mret (Some analysis)
    | None => logging_error "Error analyzing log file";; mret None
    end
  else logging_error "Unsupported file format";; mret None.
End WithPython.

(** [log_to_json] *)

(** [with open(path, 'w') as f: json.dump(data, f, indent=2)] *)
Definition json_dump `{PyJsonText} (path : string) (data : json) : M unit :=
  write_logs (insert path {| csv_rows := json_text_rows data; json_doc := Some data |}).

Section WithJson.
Context `{PyFloatIO}.

(** [str(response.value) if not response.is_null() else None] *)
Definition json_cell (response : option Value) : json :=
  match response with
  | Some value => JStr (py_str value)
  | None => JNull
  end.

(** The loop [for cmd in commands: entry["data"][str(cmd)] = ...]. *)
Fixpoint query_entry (conn : OBD) (cmds : list Cmd) (data : list (string * json))
    : M (list (string * json)) :=
  match cmds with
  | [] => mret data
  | cmd :: rest =>
      response ← query conn cmd;
      query_entry conn rest (dict_setitem data cmd (json_cell response))
  end.

(** The loop [while time.time() - start_time < duration] of [log_to_json],
    run for at most [fuel] ticks, with the list [data] of the entries taken
    so far. [Some (true, data)]: the loop ended; [Some (false, data)]:
    [time.sleep] raised on a negative interval; [None]: the fuel ran out
    first. *)
Fixpoint json_loop (fuel : nat) (conn : OBD) (cmds : list Cmd)
    (start_time duration interval : Z) (data : list json)
    : M (option (bool * list json)) :=
  match fuel with
  | O => mret None
  | S fuel' =>
      t ← time_time;
      if t - start_time <? duration then
        stamp ← datetime_now;
        items ← query_entry conn cmds [];
        let entry := JObj [("timestamp", JStr (isoformat stamp)); ("data", JObj items)] in
        if interval <? 0 then mret (Some (false, data ++ [entry])%list)
        else
          time_sleep interval;;
          json_loop fuel' conn cmds start_time duration interval (data ++ [entry])%list
      else mret (Some (true, data))
  end.

Definition log_to_json `{PyJsonText} (fuel : nat) (self : t) (cmds : list Cmd)
    (duration interval : Z) : M (option string) :=
  match connection self with
  | None => logging_error "No connection established";; mret (Some "")
  | Some conn =>
      stamp ← datetime_now;
      let json_file :=
        path_join (log_dir self) ("obd_log_" ++ strftime_file stamp ++ ".json") in
      start_time ← time_time;
      r ← json_loop fuel conn cmds start_time duration interval [];
      match r with
      | None => mret None
      | Some (true, data) =>
          json_dump json_file (JArr data);;
          logging_info ("Data logged to " ++ json_file);; mret (Some json_file)
      | Some (false, _) =>
          logging_error "Error logging data: sleep length must be non-negative";;
          mret (Some "")
      end
  end.

End WithJson.

Definition close (self : t) : M unit :=
  match connection self with
  | None => mret tt
  | Some _ => connection_close;; logging_info "OBD connection closed"
  end.

End OBDDataLogger.

(** ** src/report_generator.py *)

(** The dict [data] that [generate_html_report] receives: each of its four
    keys may be missing. *)
Record ReportData := {
  vehicle_info : option (gmap string string);
  dtc_codes : option (list (string * string));
  sensor_data : option (gmap string string);
  graphs : option (gmap string string)
}.

Module DiagnosticReportGenerator.

Record t := {
  output_dir : string;
  connection : option OBD
}.

Definition __init__ (output_dir : string) : t :=
  {| output_dir := output_dir; connection := None |}.

Definition connect (port : option OBD) (self : t) : bool * t :=
  match port with
  | None => (false, self)
  | Some conn =>
      (is_connected conn, {| output_dir := output_dir self; connection := Some conn |})
  end.

Definition prefix_meanings (c : ascii) : string :=
  if Ascii.eqb c "P" then "Powertrain"
  else if Ascii.eqb c "C" then "Chassis"
  else if Ascii.eqb c "B" then "Body"
  else if Ascii.eqb c "U" then "Network"
  else "Unknown".

(** [code[0]] raises on the empty string: the except branch answers. *)
Definition get_dtc_description (code : string) : string :=
  match code with
  | EmptyString => "Unknown issue"
  | String c _ => prefix_meanings c ++ " related issue (Code: " ++ code ++ ")"
  end.

Definition dtc_entry (code : string) : string * string :=
  (code, get_dtc_description code).

Section WithPython.
Context `{PyFloatIO}.

(** The loops [for command, key in commands] and
    [for name, command in sensors.items()]: every command is queried. *)
Fixpoint query_all (conn : OBD) (cmds : list (Cmd * string))
    (info : gmap string string) : M (gmap string string) :=
  match cmds with
  | [] => mret info
  | (command, key) :: rest =>
      response ← query conn command;
      match response with
      | Some value => query_all conn rest (<[key := py_str value]> info)
      | None => query_all conn rest info
      end
  end.

Definition info_commands : list (Cmd * string) :=
  [(commands.VIN, "VIN"); (commands.ELM_VERSION, "ELM Version");
   (commands.ELM_VOLTAGE, "Battery Voltage"); (commands.FUEL_TYPE, "Fuel Type");
   (commands.DISTANCE_W_MIL, "Distance with MIL")].

Definition get_vehicle_info (self : t) : M (gmap string string) :=
  match connection self with
  | None => mret ∅
  | Some conn => query_all conn info_commands ∅
  end.

(** [for code in response.value]: a list gives its tuples, whose first
    component is the code; a text gives its characters; a number is not
    iterable, the except branch logs and answers the empty list. *)
Definition get_dtc_codes (self : t) : M (list (string * string)) :=
  match connection self with
  | None => mret []
  | Some conn =>
      response ← query conn commands.GET_DTC;
      match response with
      | None => mret []
      | Some (Codes l) => mret (map (fun code => dtc_entry code.1) l)
      | Some (Text s) =>
          mret (map (fun c => dtc_entry (String c "")) (list_ascii_of_string s))
      | Some (Numeric _) =>
          logging_error "Error getting DTC codes";; mret []
      end
  end.

Definition sensors : list (Cmd * string) :=
  [(commands.RPM, "RPM"); (commands.SPEED, "Speed");
   (commands.THROTTLE_POS, "Throttle Position");
   (commands.ENGINE_LOAD, "Engine Load"); (commands.COOLANT_TEMP, "Coolant Temp");
   (commands.INTAKE_TEMP, "Intake Temp"); (commands.MAF, "MAF");
   (commands.O2_B1S1, "O2 Voltage"); (commands.FUEL_LEVEL, "Fuel Level");
   (commands.TIMING_ADVANCE, "Timing Advance")].

Definition collect_sensor_data (self : t) : M (gmap string string) :=
  match connection self with
  | None => mret ∅
  | Some conn => query_all conn sensors ∅
  end.

Definition graph_path (self : t) (column : string) : string :=
  path_join (output_dir self) ("graph_" ++ column ++ ".png").

(** A graph is saved for every column whose reading converts to a number
    ([pd.to_numeric], taken here as [float]). *)
Definition generate_graphs (self : t) (data : gmap string string)
    : M (gmap string string) :=
  let graph_files :=
    map_imap (fun column reading =>
                match py_float reading with
                | Some _ => Some (graph_path self column)
                | None => None
                end) data in
  fun w =>
    (graph_files,
     set_graphs (graphs_dir w ∪ list_to_set (map snd (map_to_list graph_files))) w).

Definition render (timestamp : string) (data : ReportData) : Html :=
  {| html_timestamp := timestamp;
     html_vehicle_info := default ∅ (vehicle_info data);
     html_dtc_codes := default [] (dtc_codes data);
     html_sensor_data := default ∅ (sensor_data data);
     html_graphs := default ∅ (graphs data) |}.

Definition generate_html_report (self : t) (data : ReportData) : M string :=
  stamp ← datetime_now;
  let report_file :=
    path_join (output_dir self)
              ("diagnostic_report_" ++ strftime_file stamp ++ ".html") in
  stamp' ← datetime_now;
  let html_content := render (strftime_human stamp') data in
  write_report report_file html_content;;
  mret report_file.

Definition generate_report (self : t) : M string :=
  match connection self with
  | None => logging_error "No connection established";; mret ""
  | Some _ =>
      info ← get_vehicle_info self;
      codes ← get_dtc_codes self;
      readings ← collect_sensor_data self;
      graph_files ← generate_graphs self readings;
      report_file ← generate_html_report self
        {| vehicle_info := Some info; dtc_codes := Some codes;
           sensor_data := Some readings; graphs := Some graph_files |};
      if String.eqb report_file "" then mret ""
      else logging_info ("Report generated: " ++ report_file);; mret report_file
  end.
End WithPython.

Definition close (self : t) : M unit :=
  match connection self with
  | None => mret tt
  | Some _ => connection_close;; logging_info "OBD connection closed"
  end.

End DiagnosticReportGenerator.

(** ** The Aggregator of the specification *)

(** These definitions follow the words of the specification (sections 3 and
    4.3), not the source; they are the online side of the comparison with
    the analysis of a log. *)
Module Spec.

(** A Record: a timestamp and, per requested parameter, a value or its
    absence. *)
Record Record_ := {
  timestamp : Z;
  samples : list (string * option Value)
}.

Record RunningStat := {
  rs_min : float;
  rs_max : float;
  rs_sum : float;
  rs_count : nat
}.

(** With no observation, min and max are undefined: they hold the neutral
    elements of [min(min, value)] and [max(max, value)], which are not
    finite values. *)
Definition empty_stat : RunningStat :=
  {| rs_min := infinity; rs_max := neg_infinity; rs_sum := 0; rs_count := 0 |}.

(** [count += 1; sum += value; min = min(min, value); max = max(max, value)] *)
Definition update (value : float) (s : RunningStat) : RunningStat :=
  {| rs_min := py_min (rs_min s) value;
     rs_max := py_max (rs_max s) value;
     rs_sum := (rs_sum s + value)%float;
     rs_count := S (rs_count s) |}.

Definition observe_sample (agg : gmap string RunningStat)
    (sample : string * option Value) : gmap string RunningStat :=
  match sample.2 with
  | Some (Numeric x) => <[sample.1 := update x (default empty_stat (agg !! sample.1))]> agg
  | _ => agg
  end.

(** [observe(record)]: only numeric, non-absent values are aggregated. *)
Definition observe (agg : gmap string RunningStat) (record : Record_)
    : gmap string RunningStat :=
  fold_left observe_sample (samples record) agg.

(** The snapshot entry of a parameter: the average is absent when the
    count is 0. *)
Definition snapshot_entry (s : RunningStat) : Stats :=
  {| stat_min := rs_min s;
     stat_max := rs_max s;
     stat_avg := match rs_count s with
                 | O => None
                 | _ => Some (rs_sum s / float_of_nat (rs_count s))%float
                 end |}.

Definition snapshot (agg : gmap string RunningStat) (name : string) : Stats :=
  snapshot_entry (default empty_stat (agg !! name)).

(** Online aggregation: every record is observed as it is produced. *)
Definition online (records : list Record_) : gmap string RunningStat :=
  fold_left observe records ∅.

End Spec.

(** ** Notions used in the statements *)

(** The number that a sample gives to the aggregation. *)
Definition numeric (v : option Value) : option float :=
  match v with
  | Some (Numeric x) => Some x
  | _ => None
  end.

(** The numbers recorded under a name in the samples of a record. *)
Definition numbers_of (name : string) (samples : list (string * option Value))
    : list float :=
  omap (fun sample => if decide (sample.1 = name) then numeric sample.2 else None)
       samples.

(** The statistics of a list of values taken in order. *)
Definition stats_of (values : list float) : Param :=
  fold_left (fun p value => add_value value p) values new_param.

(** An entry holds the statistics of its own values. *)
Definition consistent (p : Param) : Prop := p = stats_of (param_values p).

(** What one cell does to the entry of its parameter. *)
Definition feed (x : option float) (p : Param) : Param :=
  match x with
  | Some value => add_value value p
  | None => p
  end.

Section Notions.
Context `{PyFloatIO}.

(** The number that [float(row[header])] gives for a row of the reader,
    [None] when it raises. *)
Definition read_cell (fieldnames : list string) (header : string)
    (row : list string) : option float :=
  match OBDDataLogger.dict_row fieldnames row !! header with
  | Some (Some cell) => py_float cell
  | _ => None
  end.

(** The rows that the reader yields: it passes over the empty ones. *)
Definition reader_rows (data : list (list string)) : list (list string) :=
  filter (fun row => row ≠ []) data.

(** The values of a column that enter the analysis. *)
Definition observed (fieldnames : list string) (header : string)
    (data : list (list string)) : list float :=
  omap (read_cell fieldnames header) (reader_rows data).

(** The values of the entry of a parameter, none when there is no entry. *)
Definition values_at (params : gmap string Param) (h : string) : list float :=
  from_option param_values [] (params !! h).


(** The row that [log_to_csv] writes for a record, and the file it writes
    for a sequence of records. *)
Definition csv_row (r : Spec.Record_) : list string :=
  isoformat (datetime_of (Spec.timestamp r)) ::
  map (fun sample => OBDDataLogger.csv_cell sample.2) (Spec.samples r).

Definition csv_log (names : list string) (records : list Spec.Record_)
    : list (list string) :=
  ("Timestamp" :: names) :: map csv_row records.

(** A record holds one sample per requested parameter, in order. *)
Definition well_formed (names : list string) (r : Spec.Record_) : Prop :=
  map fst (Spec.samples r) = names.

(** [str] then [float] gives a number back, and a text is not a number. *)
Definition round_trips (v : Value) : Prop :=
  match v with
  | Numeric x => py_float (py_str v) = Some x
  | _ => py_float (py_str v) = None
  end.

(** Every value of the record round-trips. *)
Definition faithful (r : Spec.Record_) : Prop :=
  Forall (fun sample => from_option round_trips True sample.2) (Spec.samples r).

(** The number that a JSON value gives to the analysis. *)
Definition json_number (value : json) : option float :=
  match value with
  | JNum x => Some x
  | JBool b => Some (if b then 1 else 0)%float
  | JStr s => py_float s
  | _ => None
  end.

(** The values recorded for a parameter in the items of an entry, and in
    the entries of a document. *)
Definition json_values (param : string) (items : list (string * json)) : list json :=
  map snd (filter (fun item => item.1 = param) items).

Definition json_column (param : string) (doc : list (list (string * json)))
    : list json :=
  concat (map (json_values param) doc).

(** The items of the entries of a document, when every entry has them. *)
Definition doc_items (data : json) : option (list (list (string * json))) :=
  match OBDDataLogger.entries data with
  | Some l => mapM OBDDataLogger.entry_items l
  | None => None
  end.


End Notions.

(** The samples of the tick whose first query is the [n]-th of the link, and
    the time its queries take. *)
Fixpoint responses (conn : OBD) (cmds : list Cmd) (n : nat)
    : list (string * option Value) :=
  match cmds with
  | [] => []
  | cmd :: rest => (cmd, respond conn n cmd) :: responses conn rest (S n)
  end.

Fixpoint tick_work (conn : OBD) (cmds : list Cmd) (n : nat) : Z :=
  match cmds with
  | [] => 0
  | cmd :: rest => latency conn n cmd + tick_work conn rest (S n)
  end.

(** The time that the ticks [0 .. k] take to query, when the first one
    starts at the [n]-th query of the link. *)
Fixpoint total_work (conn : OBD) (cmds : list Cmd) (n : nat) (k : nat) : Z :=
  match k with
  | O => tick_work conn cmds n
  | S k' => tick_work conn cmds n + total_work conn cmds (n + length cmds) k'
  end.

(** The events of the queries of a tick that starts at time [t]. *)
Fixpoint query_events (conn : OBD) (cmds : list Cmd) (t : Z) (n : nat) : list Event :=
  match cmds with
  | [] => []
  | cmd :: rest => Query t cmd :: query_events conn rest (t + latency conn n cmd) (S n)
  end.

(** The record that a tick of the logger takes in the world [w]. *)
Definition tick_record (conn : OBD) (cmds : list Cmd) (w : World) : Spec.Record_ :=
  {| Spec.timestamp := now w; Spec.samples := responses conn cmds (sent w) |}.

(** Every round trip takes some time, possibly none. *)
Definition causal (conn : OBD) : Prop := forall n c, 0 <= latency conn n c.

(** [m] run [n] times in a row. *)
Fixpoint times (n : nat) (m : M unit) : M unit :=
  match n with
  | O => mret tt
  | S n' => m;; times n' m
  end.

(** The queries of a trace, the clock readings at which the program went to
    sleep, and the number of closes. *)
Definition queries (tr : list Event) : list Cmd :=
  omap (fun e => match e with Query _ c => Some c | _ => None end) tr.

Definition sleeps (tr : list Event) : list (Z * Z) :=
  omap (fun e => match e with Sleep t d => Some (t, d) | _ => None end) tr.

Definition closes (tr : list Event) : nat :=
  length (omap (fun e => match e with Close t => Some t | _ => None end) tr).

Definition messages (tr : list Event) : list string :=
  omap (fun e => match e with Log _ m => Some m | _ => None end) tr.

(** ** CPython's conversions on plain literals *)

(** The examples need [str] and [float] on concrete arguments. [cpython_float]
    reads the plain decimal literals, "inf" and "nan", with an optional sign;
    [cpython_repr] prints a float whose decimal expansion is short (an
    integral value below 1e16, or such a value plus a short binary fraction).
    On these arguments they agree with CPython; CPython's [float] also accepts
    exponents, surrounding blanks, underscores and other capitalisations, and
    its [repr] shortens long expansions: none of that occurs below. *)
Module CPython.

Definition digit_of (c : ascii) : option Z :=
  let n := Z.of_nat (nat_of_ascii c) in
  if (48 <=? n) && (n <=? 57) then Some (n - 48) else None.

(** The value of a string of digits after [acc], and how many there are. *)
Fixpoint digits (s : string) (acc : Z) (count : Z) : option (Z * Z) :=
  match s with
  | EmptyString => Some (acc, count)
  | String c s' =>
      match digit_of c with
      | Some d => digits s' (10 * acc + d) (count + 1)
      | None => None
      end
  end.

(** The text before and after the first dot. *)
Fixpoint split_dot (s : string) : string * option string :=
  match s with
  | EmptyString => (EmptyString, None)
  | String c s' =>
      if Ascii.eqb c "." then (EmptyString, Some s')
      else let (a, b) := split_dot s' in (String c a, b)
  end.

Definition float_of_Z (z : Z) : float := of_uint63 (Uint63.of_Z z).

Definition unsigned_float (s : string) : option float :=
  if String.eqb s "inf" then Some infinity
  else if String.eqb s "nan" then Some nan
  else
    let (int_part, frac) := split_dot s in
    let frac_part := default EmptyString frac in
    if String.eqb int_part "" && String.eqb frac_part "" then None
    else
      match digits int_part 0 0 with
      | None => None
      | Some (i, _) =>
          match digits frac_part i 0 with
          | None => None
          | Some (n, k) => Some (float_of_Z n / float_of_Z (10 ^ k))%float
          end
      end.

Definition cpython_float (s : string) : option float :=
  match s with
  | String "-" s' => PrimFloat.opp <$> unsigned_float s'
  | String "+" s' => unsigned_float s'
  | _ => unsigned_float s
  end.

(** A string without its trailing zeros. *)
Fixpoint rstrip_zeros (s : string) : string :=
  match s with
  | EmptyString => EmptyString
  | String c s' =>
      let r := rstrip_zeros s' in
      if String.eqb r "" && Ascii.eqb c "0" then EmptyString else String c r
  end.

(** The digits after the dot of [m / 2^k]. *)
Definition fraction_digits (m : Z) (k : Z) : string :=
  let r := m mod 2 ^ k in
  let s := pretty (r * 5 ^ k) in
  let padded := zeros (Z.to_nat k - String.length s) ++ s in
  let t := rstrip_zeros padded in
  if String.eqb t "" then "0" else t.

Definition cpython_repr (x : float) : string :=
  match Prim2SF x with
  | S754_nan => "nan"
  | S754_infinity s => if s then "-inf" else "inf"
  | S754_zero s => if s then "-0.0" else "0.0"
  | S754_finite s m e =>
      (if s then "-" else "") ++
      (if 0 <=? e then pretty (Z.pos m * 2 ^ e) ++ ".0"
       else pretty (Z.pos m / 2 ^ (- e)) ++ "." ++ fraction_digits (Z.pos m) (- e))
  end.

#[export] Instance io : PyFloatIO :=
  {| py_repr := cpython_repr; py_float := cpython_float |}.

End CPython.

(** ** Steps of the loops *)

Section Steps.
Context `{PyFloatIO}.

(** The world after one tick of [log_to_csv]: the queries, the row, the
    sleep. *)
Definition after_tick (conn : OBD) (csv_file : string) (cmds : list Cmd)
    (interval : Z) (w : World) : World :=
  {| now := now w + tick_work conn cmds (sent w) + interval;
     sent := sent w + length cmds;
     trace := trace w ++ query_events conn cmds (now w) (sent w) ++
              [Sleep (now w + tick_work conn cmds (sent w)) interval];
     logs := alter (fun f => {| csv_rows := csv_rows f ++
                                            [csv_row (tick_record conn cmds w)];
                                json_doc := json_doc f |}) csv_file (logs w);
     reports := reports w; graphs_dir := graphs_dir w |}.

End Steps.

(** The path of the file of a run of [log_to_csv] started in the world [w]. *)
Definition log_path (self : OBDDataLogger.t) (w : World) : string :=
  path_join (OBDDataLogger.log_dir self)
            ("obd_log_" ++ strftime_file (datetime_of (now w)) ++ ".csv").

(** The world in which the loop of [log_to_csv] starts: the file holds the
    header row. *)
Definition log_start (self : OBDDataLogger.t) (cmds : list Cmd) (w : World) : World :=
  set_logs (<[log_path self w := {| csv_rows := ["Timestamp" :: cmds]; json_doc := None |}]>
              (logs w)) w.

(** What a loop of the tool adds to the trace: queries of supported
    commands, and sleeps of half a second. *)
Definition guarded (self : OBDDiagnosticTool.t) (evs : list Event) : Prop :=
  Forall (fun c => c ∈ OBDDiagnosticTool.supported_commands self) (queries evs) /\
  Forall (fun td : Z * Z => td.2 = 500000) (sleeps evs).

(** The world after [time.sleep(d)]. *)
Definition asleep (d : Z) (w : World) : World :=
  {| now := now w + d; sent := sent w; trace := trace w ++ [Sleep (now w) d];
     logs := logs w; reports := reports w; graphs_dir := graphs_dir w |}.

(** The world [w'] comes after [w] and the queries made in between are [qs]. *)
Definition extends (qs : list Cmd) (w w' : World) : Prop :=
  exists evs, trace w' = (trace w ++ evs)%list /\ queries evs = qs.

(** ** The data of the examples *)

Import CPython.

Definition demo_names : list string := ["RPM"; "SPEED"].

(** The scenario of the specification: RPM = 800, 820, absent and
    SPEED = 0, 5, 7 over three ticks one second apart. *)
Definition demo_records : list Spec.Record_ :=
  [ {| Spec.timestamp := 1700000000000000;
       Spec.samples := [("RPM", Some (Numeric 800)); ("SPEED", Some (Numeric 0))] |};
    {| Spec.timestamp := 1700000001000000;
       Spec.samples := [("RPM", Some (Numeric 820)); ("SPEED", Some (Numeric 5))] |};
    {| Spec.timestamp := 1700000002000000;
       Spec.samples := [("RPM", None); ("SPEED", Some (Numeric 7))] |} ].

Definition demo_file : LogFile :=
  {| csv_rows := csv_log demo_names demo_records; json_doc := None |}.

Definition demo_world : World :=
  {| now := 1700000100000000; sent := 0; trace := [];
     logs := {[ "logs/obd_log_20231114_221320.csv" := demo_file ]};
     reports := ∅; graphs_dir := ∅ |}.

(** A log with one numeric column and one textual column, as CSV and as JSON. *)
Definition mixed_rows : list (list string) :=
  [ ["2023-11-14T22:13:20"; "800.0"; "Gasoline"];
    ["2023-11-14T22:13:21"; "NULL"; "Gasoline"];
    ["2023-11-14T22:13:22"; "820.0"; "NULL"] ].






(** An adapter that supports RPM and SPEED only. RPM answers 800; SPEED is
    absent on the second query of the link and answers 42 otherwise; any other
    command answers a text. Each round trip takes a tenth of a second. *)
Definition demo_conn : OBD :=
  {| is_connected := true;
     obd.supported_commands := [commands.RPM; commands.SPEED];
     respond := fun n c =>
       if String.eqb c commands.RPM then Some (Numeric 800)
       else if String.eqb c commands.SPEED
            then (if Nat.eqb n 1 then None else Some (Numeric 42))
            else Some (Text "n/a");
     latency := fun _ _ => 100000 |}.

Definition empty_world : World :=
  {| now := 1700000000000000; sent := 0; trace := []; logs := ∅;
     reports := ∅; graphs_dir := ∅ |}.

Definition demo_logger : OBDDataLogger.t :=
  (OBDDataLogger.connect (Some demo_conn) (OBDDataLogger.__init__ "logs")).2.

Definition demo_tool : OBDDiagnosticTool.t :=
  (OBDDiagnosticTool.connect (Some demo_conn) OBDDiagnosticTool.__init__).2.

Definition demo_cmds : list Cmd := [commands.RPM; commands.SPEED].


Definition demo_generator : DiagnosticReportGenerator.t :=
  (DiagnosticReportGenerator.connect (Some demo_conn)
     (DiagnosticReportGenerator.__init__ "reports")).2.

Definition demo_data : ReportData :=
  {| vehicle_info := Some {[ "VIN" := "WVWZZZ1JZXW000001" ]};
     dtc_codes := Some [("P0104", "Powertrain related issue (Code: P0104)")];
     sensor_data := Some {[ "RPM" := "800.0" ]};
     graphs := None |}.

Definition later_world : World :=
  {| now := 1700000001000000; sent := 0; trace := []; logs := ∅;
     reports := ∅; graphs_dir := ∅ |}.


(** ** The script of src/data_logger.py *)

(** The script of src/data_logger.py, when [obd.OBD()] returns the
    connection object [conn]. What it prints is not part of the world; the
    analysis that it prints is its result. *)
Module data_logger.

Inductive Outcome :=
| Failed                                           (* "Failed to connect to OBD adapter!" *)
| Closed (printed : option (gmap string Stats))    (* the analysis printed, if any; then close() *)
| KeyError.                                        (* analysis["parameters"] on the empty dict *)

Section WithPython.
Context `{PyFloatIO}.

(** [None] when the fuel of the logging loop runs out. *)
Definition main (fuel : nat) (conn : OBD) : M (option Outcome) :=
  let (connected, logger) :=
    OBDDataLogger.connect (Some conn) (OBDDataLogger.__init__ "logs") in
  if connected then
    let cmds := [commands.RPM; commands.SPEED; commands.THROTTLE_POS;
                 commands.ENGINE_LOAD] in
    r ← OBDDataLogger.log_to_csv fuel logger cmds 10000000 500000;
    match r with
    | None => mret None
    | Some csv_file =>
        if String.eqb csv_file "" then
          OBDDataLogger.close logger;; mret (Some (Closed None))
        else
          analysis ← OBDDataLogger.analyze_log_file csv_file;
          match analysis with
          | None => mret (Some KeyError)
          | Some parameters =>
              OBDDataLogger.close logger;; mret (Some (Closed (Some parameters)))
          end
    end
  else mret (Some Failed).

End WithPython.
End data_logger.

(** ** Further notions *)

(** The time that the queries of the first [n] ticks take, when the first
    one starts at the [first]-th query of the link. *)
Fixpoint work_of (conn : OBD) (cmds : list Cmd) (first n : nat) : Z :=
  match n with
  | O => 0
  | S n' => tick_work conn cmds first + work_of conn cmds (first + length cmds) n'
  end.

(** The responses to the [i]-th command [c] of [cmds] in the first [n]
    ticks of a loop that queries all of [cmds] at every tick. *)
Definition answers (conn : OBD) (cmds : list Cmd) (first n i : nat) (c : Cmd)
    : list (option Value) :=
  map (fun k => respond conn (first + k * length cmds + i)%nat c) (seq 0 n).

Section ReadBack.
Context `{PyFloatIO}.

(** What [float] makes of the text written for a response: the number that
    the analysis of a JSON log reads back, if any. *)
Definition read_back (response : option Value) : option float :=
  match response with
  | Some value => py_float (py_str value)
  | None => None
  end.

End ReadBack.

(** The world after the queries of a tick and a sleep of [interval], when
    the tick writes nothing. *)
Definition after_poll (conn : OBD) (cmds : list Cmd) (interval : Z) (w : World) : World :=
  {| now := now w + tick_work conn cmds (sent w) + interval;
     sent := sent w + length cmds;
     trace := trace w ++ query_events conn cmds (now w) (sent w) ++
              [Sleep (now w + tick_work conn cmds (sent w)) interval];
     logs := logs w; reports := reports w; graphs_dir := graphs_dir w |}.

(** The path of the file of a run of [log_to_json] started in the world [w]. *)
Definition json_path (self : OBDDataLogger.t) (w : World) : string :=
  path_join (OBDDataLogger.log_dir self)
            ("obd_log_" ++ strftime_file (datetime_of (now w)) ++ ".json").

Section JsonEntry.
Context `{PyFloatIO}.

(** The dict under "data" of the entry of a tick whose first query is the
    [first]-th of the link, and the entry that a tick of [log_to_json] takes
    in the world [w]. *)
Definition entry_data (conn : OBD) (cmds : list Cmd) (first : nat) : list (string * json) :=
  fold_left (fun d s => dict_setitem d s.1 (OBDDataLogger.json_cell s.2))
            (responses conn cmds first) [].

Definition json_entry (conn : OBD) (cmds : list Cmd) (w : World) : json :=
  JObj [("timestamp", JStr (isoformat (datetime_of (now w))));
        ("data", JObj (entry_data conn cmds (sent w)))].

End JsonEntry.

(** The pairs of a loop of the tool whose command is queried: those whose
    command is supported. [live_asked] is for the pairs (key, command) of
    [monitor_live_data], [info_asked] for the pairs (command, key) of
    [get_vehicle_info]. *)
Definition live_asked (self : OBDDiagnosticTool.t) (cmds : list (string * Cmd))
    : list (string * Cmd) :=
  filter (fun kc => kc.2 ∈ OBDDiagnosticTool.supported_commands self) cmds.

Definition info_asked (self : OBDDiagnosticTool.t) (cmds : list (Cmd * string))
    : list (Cmd * string) :=
  filter (fun ck => ck.1 ∈ OBDDiagnosticTool.supported_commands self) cmds.

(** The values, among a list of responses, that are not absent. *)
Definition present (l : list (option Value)) : list Value := omap id l.

(** The values that a tick of [monitor_live_data] appends under [key], when
    it asks the pairs [qs] and its first query is the [first]-th of the link. *)
Fixpoint tick_values (conn : OBD) (qs : list (string * Cmd)) (first : nat) (key : string)
    : list Value :=
  match qs with
  | [] => []
  | (k, c) :: rest =>
      ((if decide (k = key) then option_list (respond conn first c) else []) ++
       tick_values conn rest (S first) key)%list
  end.



(** ** The values of the adapter, as the scripts use them *)

(** [bool(value)] in [if codes:]. *)
Definition truthy (value : Value) : bool :=
  match value with
  | Numeric x => negb (x =? 0)%float
  | Text s => negb (String.eqb s "")
  | Codes l => match l with [] => false | _ => true end
  end.

(** Whether [for code in codes] iterates: a number is not iterable. *)
Definition iterable (value : Value) : bool :=
  match value with
  | Numeric _ => false
  | _ => true
  end.

(** Whether [sum(values)] adds up: it raises on a text and on a list. *)
Definition summable (values : list Value) : bool :=
  forallb (fun value => match value with Numeric _ => true | _ => false end) values.

(** ** The script of src/obd_reader.py *)

(** What it prints is not part of the world. *)
Module obd_reader.

Inductive Outcome :=
| Failed                 (* "Failed to connect to OBD-II adapter!" *)
| TypeError              (* an exception leaves the script; close() is not reached *)
| Complete.              (* the averages are printed and the connection is closed *)

Section WithPython.
Context `{PyFloatIO}.

(** [None] when the fuel of the monitoring loop runs out. *)
Definition main (fuel : nat) (port : option OBD) : M (option Outcome) :=
  let (connected, tool) := OBDDiagnosticTool.connect port OBDDiagnosticTool.__init__ in
  if connected then
    info ← OBDDiagnosticTool.get_vehicle_info tool;
    codes ← OBDDiagnosticTool.get_fault_codes tool;
    if negb (truthy codes) || iterable codes then
      live ← OBDDiagnosticTool.monitor_live_data fuel tool 10000000;
      match live with
      | None => mret None
      | Some live_data =>
          if forallb summable (map snd (map_to_list live_data)) then
            OBDDiagnosticTool.close tool;; mret (Some Complete)
          else mret (Some TypeError)
      end
    else mret (Some TypeError)
  else mret (Some Failed).

End WithPython.
End obd_reader.

(** ** examples/basic_usage.py *)

(** The script of examples/basic_usage.py. What it prints is not part of the
    world; [answer] is the line that the user types when asked whether the
    codes are to be cleared. *)
Module basic_usage.

Inductive Outcome :=
| Failed                 (* "Failed to connect!": the script returns *)
| TypeError              (* an exception leaves the script; close() is not reached *)
| Complete.              (* "Connection closed. Demo complete!" *)

(** [c.lower()] on the letters A to Z; no other character becomes a letter of
    a to z. *)
Definition lower_ascii (c : ascii) : ascii :=
  let n := nat_of_ascii c in
  if (65 <=? n)%nat && (n <=? 90)%nat then ascii_of_nat (n + 32) else c.

Fixpoint lower (s : string) : string :=
  match s with
  | EmptyString => EmptyString
  | String c s' => String (lower_ascii c) (lower s')
  end.

Section WithPython.
Context `{PyFloatIO}.

(** [None] when the fuel of the monitoring loop runs out. *)
Definition demonstrate_basic_usage (fuel : nat) (port : option OBD) (answer : string)
    : M (option Outcome) :=
  let (connected, tool) := OBDDiagnosticTool.connect port OBDDiagnosticTool.__init__ in
  if negb connected then mret (Some Failed)
  else
    info ← OBDDiagnosticTool.get_vehicle_info tool;
    codes ← OBDDiagnosticTool.get_fault_codes tool;
    listed ← (if truthy codes then
                if iterable codes then
                  if String.eqb (lower answer) "y" then
                    cleared ← OBDDiagnosticTool.clear_fault_codes tool; mret true
                  else mret true
                else mret false
              else mret true);
    if listed : bool then
      live ← OBDDiagnosticTool.monitor_live_data fuel tool 5000000;
      match live with
      | None => mret None
      | Some live_data =>
          if forallb summable (map snd (map_to_list live_data)) then
            OBDDiagnosticTool.close tool;; mret (Some Complete)
          else mret (Some TypeError)
      end
    else mret (Some TypeError).

End WithPython.
End basic_usage.

(** ** The text of a JSON document, for the examples *)

(** The lines that [json.dumps(data, indent=2)] writes, and the rows that
    [csv.reader] yields on them: every line split at its commas. This is what
    CPython does on a list or a dict in which no string ends with a comma (a
    field that starts with a double quote would be read as a quoted field)
    and whose numbers are floats. *)
Module CPythonJson.

Definition dquote : string := String (ascii_of_nat 34) "".

Definition hex (n : nat) : string :=
  let digits := list_ascii_of_string "0123456789abcdef" in
  String (nth (n / 16) digits "0"%char) (String (nth (n mod 16) digits "0"%char) "").

Definition backslash : string := String (ascii_of_nat 92) "".

(** One character of a string (a code point below 256), escaped as
    [ensure_ascii] has it. *)
Definition escape (c : ascii) : string :=
  let n := nat_of_ascii c in
  if (n =? 34)%nat then backslash ++ dquote
  else if (n =? 92)%nat then backslash ++ backslash
  else if (n =? 10)%nat then backslash ++ "n"
  else if (n =? 13)%nat then backslash ++ "r"
  else if (n =? 9)%nat then backslash ++ "t"
  else if (n =? 8)%nat then backslash ++ "b"
  else if (n =? 12)%nat then backslash ++ "f"
  else if (n <? 32)%nat || (127 <? n)%nat then backslash ++ "u00" ++ hex n
  else String c "".

Fixpoint encode (s : string) : string :=
  match s with
  | EmptyString => EmptyString
  | String c s' => escape c ++ encode s'
  end.

Definition json_string (s : string) : string := dquote ++ encode s ++ dquote.

Definition json_float (x : float) : string :=
  match Prim2SF x with
  | S754_nan => "NaN"
  | S754_infinity s => if s then "-Infinity" else "Infinity"
  | _ => CPython.cpython_repr x
  end.

(** [prefix] put before the first line, and a comma after the last one. *)
Definition attach (prefix : string) (lines : list string) : list string :=
  match lines with
  | [] => [prefix]
  | line :: rest => (prefix ++ line) :: rest
  end.

Fixpoint with_comma (lines : list string) : list string :=
  match lines with
  | [] => []
  | [line] => [line ++ ","]
  | line :: rest => line :: with_comma rest
  end.

(** The lines of a value that starts on the current line, inside a
    container indented by [pad]. *)
Fixpoint render (pad : string) (v : json) {struct v} : list string :=
  match v with
  | JNull => ["null"]
  | JBool b => [if b then "true" else "false"]
  | JNum x => [json_float x]
  | JStr s => [json_string s]
  | JArr [] => ["[]"]
  | JArr items =>
      "[" ::
       app ((fix go (l : list json) : list string :=
               match l with
               | [] => []
               | [x] => attach (pad ++ "  ") (render (pad ++ "  ") x)
               | x :: rest =>
                   app (with_comma (attach (pad ++ "  ") (render (pad ++ "  ") x)))
                       (go rest)
               end) items)
           [pad ++ "]"]
  | JObj [] => ["{}"]
  | JObj fields =>
      "{" ::
       app ((fix go (l : list (string * json)) : list string :=
               match l with
               | [] => []
               | [(k, x)] =>
                   attach (pad ++ "  " ++ json_string k ++ ": ") (render (pad ++ "  ") x)
               | (k, x) :: rest =>
                   app (with_comma (attach (pad ++ "  " ++ json_string k ++ ": ")
                                           (render (pad ++ "  ") x)))
                       (go rest)
               end) fields)
           [pad ++ "}"]
  end.

(** The fields of a line without quoted field. *)
Fixpoint split_commas (s : string) : list string :=
  match s with
  | EmptyString => [EmptyString]
  | String c s' =>
      if Ascii.eqb c "," then EmptyString :: split_commas s'
      else match split_commas s' with
           | [] => [String c EmptyString]
           | field :: fields => String c field :: fields
           end
  end.

#[global] Instance text : PyJsonText :=
  {| json_text_rows := fun data => map split_commas (render "" data) |}.

End CPythonJson.

(** ** Further data of the examples *)

(** An adapter object whose link did not come up: the library answers every
    query with an absent response, at once. *)
Definition silent_conn : OBD :=
  {| is_connected := false; obd.supported_commands := [];
     respond := fun _ _ => None; latency := fun _ _ => 0 |}.

(** A log directory that holds an empty file and an empty JSON list. *)
Definition blank_world : World :=
  {| now := 1700000100000000; sent := 0; trace := [];
     logs := {[ "logs/empty.csv" := {| csv_rows := []; json_doc := None |};
                "logs/empty.json" := {| csv_rows := [["[]"]]; json_doc := Some (JArr []) |} ]};
     reports := ∅; graphs_dir := ∅ |}.

(** A report without any section. *)
Definition bare_data : ReportData :=
  {| vehicle_info := None; dtc_codes := None; sensor_data := None; graphs := None |}.

(** Half a second after a first report has been written. *)
Definition soon_after : World :=
  (advance 500000
     (DiagnosticReportGenerator.generate_html_report demo_generator demo_data empty_world).2).2.

(* ===================================================================== *)
(** * Part II. Properties                                                 *)
(* ===================================================================== *)

(** ** The order of floats *)

Ltac sf_cases :=
  repeat match goal with
  | |- context [Z.compare ?a ?b] => destruct (Z.compare_spec a b); subst
  | H : context [Z.compare ?a ?b] |- _ => destruct (Z.compare_spec a b); subst
  | |- context [Pos.compare_cont Eq ?a ?b] =>
      change (Pos.compare_cont Eq a b) with (Pos.compare a b);
      destruct (Pos.compare_spec a b); subst
  | H : context [Pos.compare_cont Eq ?a ?b] |- _ =>
      change (Pos.compare_cont Eq a b) with (Pos.compare a b) in H;
      destruct (Pos.compare_spec a b); subst
  end; simpl in *; try congruence; try lia.

Lemma SFleb_trans a b c :
  SFleb a b = true -> SFleb b c = true -> SFleb a c = true.
Proof.
  unfold SFleb, SFcompare.
  destruct a as [[]|[]| |[] ma ea], b as [[]|[]| |[] mb eb],
           c as [[]|[]| |[] mc ec];
    try (intros; congruence); try reflexivity; intros Hab Hbc; sf_cases.
Qed.

Lemma SFleb_refl a : a <> S754_nan -> SFleb a a = true.
Proof.
  unfold SFleb, SFcompare.
  destruct a as [[]|[]| |[] ma ea]; try congruence; intros _; sf_cases.
Qed.

Lemma SFleb_total a b :
  a <> S754_nan -> b <> S754_nan -> SFltb b a = false -> SFleb a b = true.
Proof.
  unfold SFleb, SFltb, SFcompare.
  destruct a as [[]|[]| |[] ma ea], b as [[]|[]| |[] mb eb];
    try congruence; intros _ _; sf_cases.
Qed.

Lemma SFltb_leb a b : SFltb a b = true -> SFleb a b = true.
Proof. unfold SFleb, SFltb. destruct (SFcompare a b) as [[]|]; congruence. Qed.

Lemma SFltb_not_nan a b : SFltb a b = true -> a <> S754_nan.
Proof. unfold SFltb, SFcompare. destruct a; congruence. Qed.

Lemma is_nan_false x : is_nan x = false <-> Prim2SF x <> S754_nan.
Proof.
  unfold is_nan. rewrite FloatAxioms.eqb_spec. unfold SFeqb. split.
  - intros Hx E. rewrite E in Hx. discriminate.
  - intros Hx. pose proof (SFleb_refl _ Hx) as R. unfold SFleb in R.
    destruct (Prim2SF x) as [[]|[]| |[] ma ea];
      try congruence; try reflexivity; simpl in *; sf_cases.
Qed.

Lemma leb_trans (x y z : float) :
  (x <=? y)%float = true -> (y <=? z)%float = true -> (x <=? z)%float = true.
Proof. rewrite !FloatAxioms.leb_spec. apply SFleb_trans. Qed.

Lemma leb_refl (x : float) : is_nan x = false -> (x <=? x)%float = true.
Proof. rewrite FloatAxioms.leb_spec, is_nan_false. apply SFleb_refl. Qed.

Lemma leb_total (x y : float) :
  is_nan x = false -> is_nan y = false ->
  (y <? x)%float = false -> (x <=? y)%float = true.
Proof. rewrite FloatAxioms.leb_spec, FloatAxioms.ltb_spec, !is_nan_false. apply SFleb_total. Qed.

Lemma ltb_leb (x y : float) : (x <? y)%float = true -> (x <=? y)%float = true.
Proof. rewrite FloatAxioms.leb_spec, FloatAxioms.ltb_spec. apply SFltb_leb. Qed.

Lemma ltb_not_nan_l (x y : float) : (x <? y)%float = true -> is_nan x = false.
Proof. rewrite FloatAxioms.ltb_spec, is_nan_false. apply SFltb_not_nan. Qed.

Lemma ltb_not_nan_r (x y : float) : (x <? y)%float = true -> is_nan y = false.
Proof.
  rewrite FloatAxioms.ltb_spec, is_nan_false. unfold SFltb, SFcompare.
  destruct (Prim2SF x), (Prim2SF y); congruence.
Qed.

(** ** The statistics of a list of values *)

Lemma stats_of_snoc values x :
  stats_of (values ++ [x]) = add_value x (stats_of values).
Proof. unfold stats_of. by rewrite fold_left_app. Qed.

Lemma stats_of_values values : param_values (stats_of values) = values.
Proof.
  induction values as [|x values IH] using rev_ind; [done|].
  rewrite stats_of_snoc. simpl. by rewrite IH.
Qed.

(** The running minimum is a number, below every number met so far, and the
    running maximum is above. *)
Lemma stats_of_min_le values :
  is_nan (param_min (stats_of values)) = false /\
  forall v, v ∈ values -> is_nan v = false ->
            (param_min (stats_of values) <=? v)%float = true.
Proof.
  induction values as [|x values [IHn IH]] using rev_ind.
  - split; [reflexivity|]. intros v Hv. by apply elem_of_nil in Hv.
  - rewrite stats_of_snoc. simpl. unfold py_min.
    destruct (x <? param_min (stats_of values))%float eqn:Hlt.
    + pose proof (ltb_not_nan_l _ _ Hlt) as Hx. split; [done|].
      intros v Hv Hnan. apply elem_of_app in Hv as [Hv|Hv].
      * eapply leb_trans; [by apply ltb_leb|by apply IH].
      * apply list_elem_of_singleton in Hv as ->. by apply leb_refl.
    + split; [done|]. intros v Hv Hnan. apply elem_of_app in Hv as [Hv|Hv].
      * by apply IH.
      * apply list_elem_of_singleton in Hv as ->. by apply leb_total.
Qed.

Lemma stats_of_max_ge values :
  is_nan (param_max (stats_of values)) = false /\
  forall v, v ∈ values -> is_nan v = false ->
            (v <=? param_max (stats_of values))%float = true.
Proof.
  induction values as [|x values [IHn IH]] using rev_ind.
  - split; [reflexivity|]. intros v Hv. by apply elem_of_nil in Hv.
  - rewrite stats_of_snoc. simpl. unfold py_max.
    destruct (param_max (stats_of values) <? x)%float eqn:Hlt.
    + pose proof (ltb_not_nan_r _ _ Hlt) as Hx. split; [done|].
      intros v Hv Hnan. apply elem_of_app in Hv as [Hv|Hv].
      * eapply leb_trans; [by apply IH|by apply ltb_leb].
      * apply list_elem_of_singleton in Hv as ->. by apply leb_refl.
    + split; [done|]. intros v Hv Hnan. apply elem_of_app in Hv as [Hv|Hv].
      * by apply IH.
      * apply list_elem_of_singleton in Hv as ->. by apply leb_total.
Qed.

(** ** The analysis of a CSV log, column by column *)

Section Csv.
Context `{PyFloatIO}.
Import OBDDataLogger.

Lemma fold_insert_lookup (headers : list string) (m : gmap string Param) h :
  fold_left (fun params header => <[header := new_param]> params) headers m !! h =
  if decide (h ∈ headers) then Some new_param else m !! h.
Proof.
  revert m. induction headers as [|h' hs IH]; intros m; simpl.
  - destruct (decide (h ∈ [])) as [Hin|]; [by apply elem_of_nil in Hin|done].
  - rewrite IH. destruct (decide (h ∈ hs)) as [Hin|Hin].
    + rewrite decide_True; [done|by right].
    + rewrite lookup_insert. destruct (decide (h' = h)) as [->|Hne].
      * rewrite decide_True; [done|by left].
      * rewrite decide_False; [done|].
        intros [->|?]%elem_of_cons; contradiction.
Qed.

Lemma init_params_lookup headers h :
  init_params headers !! h = if decide (h ∈ headers) then Some new_param else None.
Proof. unfold init_params. by rewrite fold_insert_lookup, lookup_empty. Qed.

Lemma csv_cell_step_lookup fieldnames row params h' h :
  csv_cell_step (dict_row fieldnames row) params h' !! h =
  if decide (h' = h) then feed (read_cell fieldnames h row) <$> params !! h
  else params !! h.
Proof.
  unfold csv_cell_step, read_cell.
  destruct (decide (h' = h)) as [->|Hne].
  - destruct (dict_row fieldnames row !! h) as [[cell|]|]; simpl;
      try by destruct (params !! h).
    destruct (py_float cell); simpl; [by rewrite lookup_alter_eq|].
    by destruct (params !! h).
  - destruct (dict_row fieldnames row !! h') as [[cell|]|]; try done.
    destruct (py_float cell); [by rewrite lookup_alter_ne|done].
Qed.

Lemma csv_row_step_other fieldnames headers params row h :
  h ∉ headers -> csv_row_step fieldnames headers params row !! h = params !! h.
Proof.
  unfold csv_row_step. revert params.
  induction headers as [|h' hs IH]; intros params Hin; simpl; [done|].
  apply not_elem_of_cons in Hin as [Hne Hin].
  rewrite IH by done. rewrite csv_cell_step_lookup.
  by rewrite decide_False.
Qed.

Lemma csv_row_step_lookup fieldnames headers params row h :
  NoDup headers -> h ∈ headers ->
  csv_row_step fieldnames headers params row !! h =
  feed (read_cell fieldnames h row) <$> params !! h.
Proof.
  unfold csv_row_step. revert params.
  induction headers as [|h' hs IH]; intros params Hnd Hin; simpl.
  - by apply elem_of_nil in Hin.
  - apply NoDup_cons in Hnd as [Hfresh Hnd].
    destruct (decide (h' = h)) as [->|Hne].
    + pose proof (csv_row_step_other fieldnames hs
                    (csv_cell_step (dict_row fieldnames row) params h) row h Hfresh) as E.
      unfold csv_row_step in E. rewrite E, csv_cell_step_lookup.
      by rewrite decide_True.
    + apply elem_of_cons in Hin as [->|Hin]; [done|].
      rewrite IH by done. rewrite csv_cell_step_lookup.
      by rewrite decide_False.
Qed.

Lemma feed_rows fieldnames h (data : list (list string)) p :
  fold_left (fun p row => feed (read_cell fieldnames h row) p) data p =
  fold_left (fun p value => add_value value p) (omap (read_cell fieldnames h) data) p.
Proof.
  revert p. induction data as [|row data IH]; intros p; simpl; [done|].
  rewrite IH. by destruct (read_cell fieldnames h row).
Qed.

Lemma csv_rows_lookup fieldnames headers (data : list (list string)) params h :
  NoDup headers -> h ∈ headers ->
  fold_left (csv_row_step fieldnames headers) data params !! h =
  (fun p => fold_left (fun p value => add_value value p)
                      (omap (read_cell fieldnames h) data) p) <$> params !! h.
Proof.
  intros Hnd Hin. revert params.
  induction data as [|row data IH]; intros params; simpl.
  - by destruct (params !! h).
  - rewrite IH, csv_row_step_lookup by done.
    destruct (params !! h) as [p|]; simpl; [|done].
    by destruct (read_cell fieldnames h row).
Qed.

(** The entry of a header after the first loops: the statistics of the
    numbers read in its column, in the order of the rows. *)
Lemma accumulate_rows_lookup fieldnames data h :
  NoDup (tail fieldnames) -> h ∈ tail fieldnames ->
  exists params,
    accumulate_rows (fieldnames :: data) = Some params /\
    params !! h = Some (stats_of (observed fieldnames h data)).
Proof.
  intros Hnd Hin. eexists. split; [reflexivity|].
  rewrite csv_rows_lookup, init_params_lookup by done.
  by rewrite decide_True.
Qed.

Lemma accumulate_rows_dom fieldnames data params h :
  accumulate_rows (fieldnames :: data) = Some params ->
  h ∉ tail fieldnames -> params !! h = None.
Proof.
  intros [= <-] Hin.
  induction (filter (λ row, row ≠ []) data) as [|row rows IH] using rev_ind; simpl.
  - rewrite init_params_lookup. by rewrite decide_False.
  - by rewrite fold_left_app; simpl; rewrite csv_row_step_other.
Qed.
End Csv.

(** ** Rows of the reader *)

Section DictRow.
Context {A : Type}.
Implicit Types (acc : gmap string A) (ks : list string) (vs : list A).

Lemma fold_ins_other ks vs acc k :
  k ∉ ks -> fold_left dict_set (zip ks vs) acc !! k = acc !! k.
Proof.
  revert vs acc. induction ks as [|k' ks IH]; intros vs acc Hk; [done|].
  destruct vs as [|v vs]; [done|]. simpl.
  apply not_elem_of_cons in Hk as [Hne Hk].
  rewrite IH by done. unfold dict_set. simpl. by rewrite lookup_insert_ne.
Qed.

Lemma fold_ins_nth ks vs acc j k v :
  NoDup ks -> ks !! j = Some k -> vs !! j = Some v ->
  fold_left dict_set (zip ks vs) acc !! k = Some v.
Proof.
  revert vs acc j. induction ks as [|k' ks IH]; intros vs acc j Hnd Hk Hv; [done|].
  destruct vs as [|v' vs]; [by destruct j|].
  apply NoDup_cons in Hnd as [Hfresh Hnd]. destruct j as [|j]; simpl in *.
  - injection Hk as ->. injection Hv as ->.
    rewrite fold_ins_other by done. unfold dict_set. simpl. by rewrite lookup_insert_eq.
  - by eapply IH.
Qed.

(** In a row with as many cells as field names, the cell under the [j]-th
    header (the field names after the first) is the [j]-th cell after the
    first. *)
Lemma py_dict_row f0 c0 ks vs j k v :
  NoDup ks -> ks !! j = Some k -> vs !! j = Some v ->
  py_dict (zip (f0 :: ks) (c0 :: vs)) !! k = Some v.
Proof. intros. unfold py_dict. simpl. by eapply (fold_ins_nth ks vs). Qed.
End DictRow.

(** ** Online aggregation, name by name *)

Lemma py_sum_snoc values x : py_sum (values ++ [x]) = (py_sum values + x)%float.
Proof. unfold py_sum. by rewrite fold_left_app. Qed.

(** The snapshot entry of the running statistics of a list of numbers is the
    entry that the analysis computes from the same list. *)
Lemma snapshot_entry_stats_of values :
  Spec.snapshot_entry (fold_left (fun s x => Spec.update x s) values Spec.empty_stat) =
  finish (stats_of values).
Proof.
  assert (Hinv : let s := fold_left (fun s x => Spec.update x s) values Spec.empty_stat in
          Spec.rs_min s = param_min (stats_of values) /\
          Spec.rs_max s = param_max (stats_of values) /\
          Spec.rs_sum s = py_sum values /\
          Spec.rs_count s = length values).
  { induction values as [|x values IH] using rev_ind; [done|].
    simpl in *. rewrite fold_left_app, stats_of_snoc, py_sum_snoc, length_app. simpl.
    destruct IH as (-> & -> & -> & ->). repeat split; lia. }
  simpl in Hinv. destruct Hinv as (Hmin & Hmax & Hsum & Hcount).
  unfold Spec.snapshot_entry, finish.
  rewrite Hmin, Hmax, Hsum, Hcount, stats_of_values.
  by destruct values.
Qed.

Lemma observe_samples_lookup samples agg h :
  default Spec.empty_stat (fold_left Spec.observe_sample samples agg !! h) =
  fold_left (fun s x => Spec.update x s) (numbers_of h samples)
            (default Spec.empty_stat (agg !! h)).
Proof.
  revert agg. induction samples as [|[name v] samples IH]; intros agg; [done|].
  simpl. rewrite IH. unfold Spec.observe_sample, numbers_of. simpl.
  destruct (decide (name = h)) as [->|Hne].
  - destruct v as [[x| |]|]; simpl; try done. by rewrite lookup_insert_eq.
  - destruct v as [[x| |]|]; simpl; try done. by rewrite lookup_insert_ne.
Qed.

Lemma online_lookup records agg h :
  default Spec.empty_stat (fold_left Spec.observe records agg !! h) =
  fold_left (fun s x => Spec.update x s)
            (concat (map (fun r => numbers_of h (Spec.samples r)) records))
            (default Spec.empty_stat (agg !! h)).
Proof.
  revert agg. induction records as [|r records IH]; intros agg; [done|].
  simpl. rewrite IH. unfold Spec.observe at 1.
  by rewrite observe_samples_lookup, fold_left_app.
Qed.

Lemma numbers_of_cons h name v samples :
  numbers_of h ((name, v) :: samples) =
  ((if decide (name = h) then option_list (numeric v) else []) ++
   numbers_of h samples)%list.
Proof.
  unfold numbers_of. simpl. destruct (decide (name = h)); [|done].
  by destruct (numeric v).
Qed.

Lemma numbers_of_fresh h samples :
  h ∉ map fst samples -> numbers_of h samples = [].
Proof.
  induction samples as [|[n w] samples IH]; [done|].
  intros Hfresh. simpl in Hfresh. apply not_elem_of_cons in Hfresh as [Hne Hfresh].
  rewrite numbers_of_cons, decide_False by done. by apply IH.
Qed.

(** Under a name that occurs once, a record holds at most one number. *)
Lemma numbers_of_nth samples j h v :
  NoDup (map fst samples) -> samples !! j = Some (h, v) ->
  numbers_of h samples = option_list (numeric v).
Proof.
  revert j. induction samples as [|[name v'] samples IH]; intros j Hnd Hj; [done|].
  simpl in Hnd. apply NoDup_cons in Hnd as [Hfresh Hnd].
  rewrite numbers_of_cons. destruct j as [|j]; simpl in Hj.
  - injection Hj as -> ->. rewrite decide_True by done.
    rewrite numbers_of_fresh by done. by rewrite app_nil_r.
  - rewrite decide_False.
    + by eapply IH.
    + intros ->. apply Hfresh. apply list_elem_of_fmap.
      exists (h, v). split; [done|]. by eapply list_elem_of_lookup_2.
Qed.

Section Equivalence.
Context `{PyFloatIO}.
Import OBDDataLogger.

Lemma csv_cell_number v :
  from_option round_trips True v -> py_float "NULL" = None ->
  py_float (csv_cell v) = numeric v.
Proof. destruct v as [[x|s|l]|]; simpl; done. Qed.

(** What the analysis reads in the row of a record is the number that the
    record holds under that name. *)
Lemma read_cell_csv_row names r h :
  NoDup names -> well_formed names r -> faithful r -> py_float "NULL" = None ->
  h ∈ names ->
  option_list (read_cell ("Timestamp" :: names) h (csv_row r)) =
  numbers_of h (Spec.samples r).
Proof.
  intros Hnd Hwf Hf Hnull Hin.
  apply list_elem_of_lookup in Hin as [j Hj].
  unfold well_formed in Hwf.
  assert (Hs : exists v, Spec.samples r !! j = Some (h, v)).
  { rewrite <- Hwf in Hj. rewrite list_lookup_fmap in Hj.
    destruct (Spec.samples r !! j) as [[n v]|] eqn:E; [|done].
    injection Hj as ->. by exists v. }
  destruct Hs as [v Hs].
  rewrite (numbers_of_nth _ j h v); [|by rewrite Hwf|done].
  f_equal. unfold read_cell, dict_row, csv_row.
  assert (Hlen : length (map (fun s : string * option Value => csv_cell s.2)
                             (Spec.samples r)) = length names).
  { by rewrite length_map, <- Hwf, length_map. }
  simpl length. rewrite Hlen, Nat.sub_diag. simpl replicate. rewrite app_nil_r.
  simpl map at 1.
  erewrite (py_dict_row _ _ names _ j h); [| done | done |].
  2:{ rewrite list_lookup_fmap, list_lookup_fmap, Hs. reflexivity. }
  simpl. apply csv_cell_number; [|done].
  unfold faithful in Hf. rewrite Forall_forall in Hf.
  apply (Hf (h, v)). by eapply list_elem_of_lookup_2.
Qed.

Lemma omap_option_list {A B} (f : A -> option B) (l : list A) :
  omap f l = concat (map (fun a => option_list (f a)) l).
Proof.
  induction l as [|a l IH]; [done|].
  change (omap f (a :: l)) with (match f a with Some b => b :: omap f l | None => omap f l end).
  simpl. rewrite IH. by destruct (f a).
Qed.

Lemma csv_rows_nonempty records :
  filter (fun row : list string => row ≠ []) (map csv_row records) = map csv_row records.
Proof.
  induction records as [|r records IH]; [done|].
  simpl. rewrite filter_cons, decide_True by done. by rewrite IH.
Qed.

Lemma observed_csv_log names records h :
  NoDup names -> Forall (well_formed names) records -> Forall faithful records ->
  py_float "NULL" = None -> h ∈ names ->
  observed ("Timestamp" :: names) h (map csv_row records) =
  concat (map (fun r => numbers_of h (Spec.samples r)) records).
Proof.
  intros Hnd Hwf Hf Hnull Hin. unfold observed.
  rewrite csv_rows_nonempty, omap_option_list, map_map. f_equal.
  induction records as [|r records IH]; [done|].
  apply Forall_cons in Hwf as [Hwf1 Hwf]. apply Forall_cons in Hf as [Hf1 Hf].
  simpl. rewrite IH by done. f_equal. by apply read_cell_csv_row.
Qed.

Lemma analyze_rows_online names records h :
  NoDup names -> Forall (well_formed names) records -> Forall faithful records ->
  py_float "NULL" = None -> h ∈ names ->
  exists analysis,
    analyze_rows (csv_log names records) = Some analysis /\
    analysis !! h = Some (Spec.snapshot (Spec.online records) h).
Proof.
  intros Hnd Hwf Hf Hnull Hin. unfold analyze_rows, csv_log.
  destruct (accumulate_rows_lookup ("Timestamp" :: names) (map csv_row records) h)
    as (params & -> & Hp); [done..|].
  eexists. split; [reflexivity|].
  rewrite lookup_fmap, Hp. simpl. f_equal.
  rewrite observed_csv_log by done.
  unfold Spec.snapshot, Spec.online.
  rewrite online_lookup, lookup_empty. simpl.
  by rewrite snapshot_entry_stats_of.
Qed.
End Equivalence.

(** ** Every entry holds the statistics of its own values *)

Lemma consistent_new : consistent new_param.
Proof. reflexivity. Qed.

Lemma consistent_add x p : consistent p -> consistent (add_value x p).
Proof.
  unfold consistent. intros Hp. simpl. rewrite stats_of_snoc. by rewrite <- Hp.
Qed.

Lemma consistent_insert_new (params : gmap string Param) h :
  map_Forall (fun _ p => consistent p) params ->
  map_Forall (fun _ p => consistent p) (<[h := new_param]> params).
Proof. intros Hall. apply map_Forall_insert_2; [apply consistent_new|done]. Qed.

Lemma consistent_alter (params : gmap string Param) h x :
  map_Forall (fun _ p => consistent p) params ->
  map_Forall (fun _ p => consistent p) (alter (add_value x) h params).
Proof.
  intros Hall k p. rewrite lookup_alter. destruct (decide (h = k)) as [->|Hne].
  - destruct (params !! k) as [q|] eqn:E; [|done]. simpl. intros [= <-].
    apply consistent_add. by apply (Hall k).
  - apply Hall.
Qed.

Section Consistent.
Context `{PyFloatIO}.
Import OBDDataLogger.

Lemma accumulate_rows_consistent rows params :
  accumulate_rows rows = Some params ->
  map_Forall (fun _ p => consistent p) params.
Proof.
  destruct rows as [|fieldnames data]; [done|]. intros [= <-].
  assert (Hinit : map_Forall (fun _ p => consistent p) (init_params (tail fieldnames))).
  { unfold init_params. generalize (∅ : gmap string Param) (map_Forall_empty
      (fun (_ : string) p => consistent p)).
    induction (tail fieldnames) as [|h hs IH]; intros m Hm; [done|].
    simpl. apply IH. by apply consistent_insert_new. }
  revert Hinit. generalize (init_params (tail fieldnames)).
  induction (filter (λ row, row ≠ []) data) as [|row rows IH]; intros m Hm; [done|].
  simpl. apply IH. unfold csv_row_step. clear IH. revert m Hm.
  induction (tail fieldnames) as [|h hs IH]; intros m Hm; [done|].
  simpl. apply IH. unfold csv_cell_step.
  destruct (dict_row fieldnames row !! h) as [[cell|]|]; try done.
  destruct (py_float cell); [by apply consistent_alter|done].
Qed.

Lemma json_value_step_consistent params item :
  map_Forall (fun _ p => consistent p) params ->
  map_Forall (fun _ p => consistent p) (json_value_step params item).
Proof.
  intros Hm. destruct item as [param value]. unfold json_value_step.
  set (params' := match params !! param with
                  | Some _ => params
                  | None => <[param:=new_param]> params
                  end).
  assert (Hm' : map_Forall (fun _ p => consistent p) params').
  { unfold params'. destruct (params !! param); [done|by apply consistent_insert_new]. }
  destruct value as [|b|x|s|l|l]; try done; try by apply consistent_alter.
  destruct (py_float s); [by apply consistent_alter|done].
Qed.

Lemma accumulate_doc_consistent data params :
  accumulate_doc data = Some params ->
  map_Forall (fun _ p => consistent p) params.
Proof.
  unfold accumulate_doc. destruct (entries data) as [l|]; [|done].
  generalize (∅ : gmap string Param) (map_Forall_empty
      (fun (_ : string) p => consistent p)).
  induction l as [|entry l IH]; intros m Hm; simpl.
  - by intros [= <-].
  - destruct (entry_items entry) as [items|]; [|done].
    apply IH. clear IH. revert m Hm.
    induction items as [|item items IH]; intros m Hm; [done|].
    simpl. apply IH. by apply json_value_step_consistent.
Qed.
End Consistent.

(** The invariant of an entry: the bounds with no value, the bounds around
    every value that is a number, and the average. *)
Lemma consistent_invariant p :
  consistent p ->
  (param_values p = [] ->
     param_min p = infinity /\ param_max p = neg_infinity /\ stat_avg (finish p) = None) /\
  (forall v, v ∈ param_values p -> is_nan v = false ->
     (param_min p <=? v)%float = true /\ (v <=? param_max p)%float = true) /\
  (param_values p <> [] ->
     stat_avg (finish p) =
     Some (py_sum (param_values p) / float_of_nat (length (param_values p)))%float).
Proof.
  intros Hp. split; [|split].
  - intros E. rewrite Hp, E. done.
  - intros v Hv Hnan. rewrite Hp. split.
    + by apply stats_of_min_le.
    + by apply stats_of_max_ge.
  - intros Hne. unfold finish. simpl. by destruct (param_values p).
Qed.

(** ** The analysis of a JSON log, parameter by parameter *)

Section Json.
Context `{PyFloatIO}.
Import OBDDataLogger.

Lemma json_value_step_values params k v h :
  values_at (json_value_step params (k, v)) h =
  (values_at params h ++
   (if decide (k = h) then option_list (json_number v) else []))%list.
Proof.
  unfold values_at, json_value_step.
  set (params' := match params !! k with
                  | Some _ => params
                  | None => <[k:=new_param]> params
                  end).
  assert (E : from_option param_values [] (params' !! h) =
              from_option param_values [] (params !! h)).
  { unfold params'. destruct (params !! k) eqn:Ek; [done|].
    rewrite lookup_insert. destruct (decide (k = h)) as [->|]; [by rewrite Ek|done]. }
  assert (Hk : is_Some (params' !! k)).
  { unfold params'. destruct (params !! k) eqn:Ek; [by rewrite Ek|].
    by rewrite lookup_insert_eq. }
  assert (Halter : forall x,
    from_option param_values [] (alter (add_value x) k params' !! h) =
    (from_option param_values [] (params' !! h) ++
     (if decide (k = h) then [x] else []))%list).
  { intros x. rewrite lookup_alter. destruct (decide (k = h)) as [->|].
    - destruct Hk as [p ->]. done.
    - by rewrite app_nil_r. }
  assert (Hskip : from_option param_values [] (params' !! h) =
    (from_option param_values [] (params !! h) ++
     (if decide (k = h) then [] else []))%list).
  { rewrite E. destruct (decide (k = h)); by rewrite app_nil_r. }
  destruct v as [|b|x|s|l|l]; simpl.
  - exact Hskip.
  - by rewrite Halter, E.
  - by rewrite Halter, E.
  - destruct (py_float s) as [x|]; simpl; [by rewrite Halter, E|exact Hskip].
  - exact Hskip.
  - exact Hskip.
Qed.

Lemma json_items_values items params h :
  values_at (fold_left json_value_step items params) h =
  (values_at params h ++ omap json_number (json_values h items))%list.
Proof.
  revert params. induction items as [|[k v] items IH]; intros params.
  - by rewrite app_nil_r.
  - change (fold_left json_value_step ((k, v) :: items) params)
      with (fold_left json_value_step items (json_value_step params (k, v))).
    rewrite IH, json_value_step_values, <- app_assoc. f_equal.
    unfold json_values. rewrite filter_cons. simpl.
    destruct (decide (k = h)) as [->|]; [|done]. simpl.
    by destruct (json_number v).
Qed.

Lemma json_entries_loop_values l doc params params' h :
  mapM entry_items l = Some doc ->
  json_entries_loop l params = Some params' ->
  values_at params' h =
  (values_at params h ++ omap json_number (json_column h doc))%list.
Proof.
  revert doc params. induction l as [|entry l IH]; intros doc params Hdoc Hloop.
  - injection Hdoc as <-. injection Hloop as <-. by rewrite app_nil_r.
  - rewrite mapM_Some in Hdoc. destruct doc as [|items doc]; [by inversion Hdoc|].
    apply Forall2_cons in Hdoc as [Hitems Hdoc]. rewrite <- mapM_Some in Hdoc.
    simpl in Hloop. rewrite Hitems in Hloop.
    rewrite (IH _ _ Hdoc Hloop), json_items_values, <- app_assoc. f_equal.
    unfold json_column. simpl. by rewrite omap_app.
Qed.

Lemma json_entries_loop_total l doc params :
  mapM entry_items l = Some doc -> is_Some (json_entries_loop l params).
Proof.
  revert doc params. induction l as [|entry l IH]; intros doc params Hdoc; [done|].
  rewrite mapM_Some in Hdoc. destruct doc as [|items doc]; [by inversion Hdoc|].
  apply Forall2_cons in Hdoc as [Hitems Hdoc]. rewrite <- mapM_Some in Hdoc.
  simpl. rewrite Hitems. by eapply IH.
Qed.

(** A document whose entries all have their items is analysed, and the
    values of an entry are the numbers recorded for its parameter, in the
    order of the document. *)
Lemma accumulate_doc_values data doc :
  doc_items data = Some doc ->
  exists params,
    accumulate_doc data = Some params /\
    forall h p, params !! h = Some p ->
                param_values p = omap json_number (json_column h doc).
Proof.
  unfold doc_items, accumulate_doc. destruct (entries data) as [l|]; [|done].
  intros Hdoc. destruct (json_entries_loop_total l doc ∅ Hdoc) as [params Hp].
  exists params. split; [done|]. intros h p Hh.
  pose proof (json_entries_loop_values l doc ∅ params h Hdoc Hp) as E.
  unfold values_at in E. by rewrite Hh, lookup_empty in E.
Qed.

End Json.

(** ** Online and offline aggregation (C1) *)

(** C1, as amended. For every finite sequence of records over distinct
    parameter names in which every number is printed by [str] so that [float]
    reads it back, and no text (nor the marker "NULL") reads as a number,
    writing the records in the row format of [log_to_csv] and analysing the
    file with [analyze_log_file] gives, for every requested parameter, the min,
    max and average of the online aggregation of the same records. *)
Theorem online_offline_equivalence {py : PyFloatIO}
    (names : list string) (records : list Spec.Record_)
    (log_file : string) (f : LogFile) (w : World) :
  NoDup names ->
  Forall (well_formed names) records ->
  Forall faithful records ->
  py_float "NULL" = None ->
  endswith log_file ".csv" = true ->
  logs w !! log_file = Some f ->
  csv_rows f = csv_log names records ->
  exists analysis,
    (OBDDataLogger.analyze_log_file log_file w).1 = Some analysis /\
    forall h, h ∈ names ->
      analysis !! h = Some (Spec.snapshot (Spec.online records) h).
Proof.
  intros Hnd Hwf Hf Hnull Hcsv Hfile Hrows.
  unfold OBDDataLogger.analyze_log_file, OBDDataLogger._analyze_csv, read_logs.
  unfold mbind, M_bind, mret, M_ret. simpl.
  rewrite bool_decide_false by (by rewrite Hfile).
  rewrite Hcsv, Hfile, Hrows. simpl.
  eexists. split; [reflexivity|]. intros h Hin.
  destruct (analyze_rows_online names records h) as (analysis & Ha & Hh); [done..|].
  unfold OBDDataLogger.analyze_rows, csv_log in Ha. simpl in Ha.
  injection Ha as <-. exact Hh.
Qed.


Example demo_rows :
  csv_log demo_names demo_records =
  [ ["Timestamp"; "RPM"; "SPEED"];
    ["2023-11-14T22:13:20"; "800.0"; "0.0"];
    ["2023-11-14T22:13:21"; "820.0"; "5.0"];
    ["2023-11-14T22:13:22"; "NULL"; "7.0"] ].
Proof. vm_compute. reflexivity. Qed.

Example demo_online :
  Spec.snapshot (Spec.online demo_records) "RPM" =
    {| stat_min := 800; stat_max := 820; stat_avg := Some 810%float |} /\
  Spec.snapshot (Spec.online demo_records) "SPEED" =
    {| stat_min := 0; stat_max := 7; stat_avg := Some 4%float |}.
Proof. split; vm_compute; reflexivity. Qed.

Lemma online_offline_equivalence_witness :
  NoDup demo_names /\
  Forall (well_formed demo_names) demo_records /\
  Forall faithful demo_records /\
  py_float "NULL" = None /\
  endswith "logs/obd_log_20231114_221320.csv" ".csv" = true /\
  logs demo_world !! "logs/obd_log_20231114_221320.csv" = Some demo_file /\
  csv_rows demo_file = csv_log demo_names demo_records /\
  exists analysis,
    (OBDDataLogger.analyze_log_file "logs/obd_log_20231114_221320.csv" demo_world).1
      = Some analysis /\
    forall h, h ∈ demo_names ->
      analysis !! h = Some (Spec.snapshot (Spec.online demo_records) h).
Proof.
  assert (Hnd : NoDup demo_names) by compute_done.
  assert (Hwf : Forall (well_formed demo_names) demo_records)
    by (repeat constructor).
  assert (Hf : Forall faithful demo_records)
    by (repeat constructor; vm_compute; reflexivity).
  repeat split; try done.
  exact (online_offline_equivalence (py := CPython.io) demo_names demo_records
           "logs/obd_log_20231114_221320.csv" demo_file demo_world
           Hnd Hwf Hf eq_refl eq_refl eq_refl eq_refl).
Defined.

(** C1 as stated fails: a text that reads as a number is aggregated from the
    log, while the online aggregation passes over texts. *)
Lemma online_offline_text_counterexample :
  let names := ["ELM_VERSION"] in
  let records := [ {| Spec.timestamp := 1700000000000000;
                      Spec.samples := [("ELM_VERSION", Some (Text "1.5"))] |} ] in
  NoDup names /\ Forall (well_formed names) records /\
  csv_log names records = [ ["Timestamp"; "ELM_VERSION"]; ["2023-11-14T22:13:20"; "1.5"] ] /\
  (exists analysis,
     OBDDataLogger.analyze_rows (csv_log names records) = Some analysis /\
     analysis !! "ELM_VERSION" =
       Some {| stat_min := 1.5; stat_max := 1.5; stat_avg := Some 1.5%float |}) /\
  Spec.snapshot (Spec.online records) "ELM_VERSION" =
    {| stat_min := infinity; stat_max := neg_infinity; stat_avg := None |} /\
  ~ (exists analysis,
       OBDDataLogger.analyze_rows (csv_log names records) = Some analysis /\
       forall h, h ∈ names ->
         analysis !! h = Some (Spec.snapshot (Spec.online records) h)).
Proof.
  intros names records. split; [|split; [|split; [|split; [|split]]]].
  - compute_done.
  - repeat constructor.
  - vm_compute. reflexivity.
  - eexists. split; [reflexivity|]. vm_compute. reflexivity.
  - vm_compute. reflexivity.
  - intros (analysis & Ha & Hall).
    specialize (Hall "ELM_VERSION" ltac:(by left)).
    injection Ha as <-. vm_compute in Hall. discriminate.
Qed.

(** ** The count of an entry (C2) *)

Section Count.
Context `{PyFloatIO}.


End Count.




(** ** Values that cannot be read (C6) *)

Section Replay.
Context `{PyFloatIO}.
Import OBDDataLogger.



Lemma analyze_log_file_csv log_file f fieldnames data w :
  endswith log_file ".csv" = true ->
  logs w !! log_file = Some f -> csv_rows f = fieldnames :: data ->
  analyze_log_file log_file w = (analyze_rows (fieldnames :: data), w).
Proof.
  intros Hcsv Hfile Hrows.
  unfold analyze_log_file, _analyze_csv, read_logs, mbind, M_bind, mret, M_ret.
  simpl. rewrite bool_decide_false by (by rewrite Hfile).
  by rewrite Hcsv, Hfile, Hrows.
Qed.

Lemma analyze_log_file_json log_file f document w :
  endswith log_file ".csv" = false -> endswith log_file ".json" = true ->
  logs w !! log_file = Some f -> json_doc f = Some document ->
  analyze_log_file log_file w =
  match analyze_doc document with
  | Some analysis => (Some analysis, w)
  | None => (None, (logging_error "Error analyzing log file" w).2)
  end.
Proof.
  intros Hcsv Hjson Hfile Hdoc.
  unfold analyze_log_file, _analyze_json, read_logs, mbind, M_bind, mret, M_ret.
  simpl. rewrite bool_decide_false by (by rewrite Hfile).
  rewrite Hcsv, Hjson, Hfile, Hdoc.
  by destruct (analyze_doc document).
Qed.
End Replay.




(** ** The invariant of an entry (C7) *)

(** C7, as amended. For every entry of the analysis of a CSV or JSON log: with
    no value, the reported min and max are +inf and -inf (not finite values)
    and there is no average; otherwise the reported min and max bound every
    value that is not NaN, and the reported average is sum / count. *)
Theorem accumulator_invariant {py : PyFloatIO}
    (rows : list (list string)) (document : json)
    (params : gmap string Param) (h : string) (p : Param) :
  OBDDataLogger.accumulate_rows rows = Some params \/
  OBDDataLogger.accumulate_doc document = Some params ->
  params !! h = Some p ->
  (param_values p = [] ->
     stat_min (finish p) = infinity /\ stat_max (finish p) = neg_infinity /\
     stat_avg (finish p) = None) /\
  (forall v, v ∈ param_values p -> is_nan v = false ->
     (stat_min (finish p) <=? v)%float = true /\
     (v <=? stat_max (finish p))%float = true) /\
  (param_values p <> [] ->
     stat_avg (finish p) =
     Some (py_sum (param_values p) / float_of_nat (length (param_values p)))%float).
Proof.
  intros Hacc Hh.
  assert (Hp : consistent p).
  { destruct Hacc as [Hacc|Hacc].
    - by apply (accumulate_rows_consistent rows params Hacc h p).
    - by apply (accumulate_doc_consistent document params Hacc h p). }
  exact (consistent_invariant p Hp).
Qed.

Lemma accumulator_invariant_witness :
  let rows := ["Timestamp"; "RPM"; "FUEL_TYPE"] :: mixed_rows in
  exists params p,
    OBDDataLogger.accumulate_rows rows = Some params /\
    params !! "RPM" = Some p /\
    param_values p = [800; 820]%float /\
    (forall v, v ∈ param_values p -> is_nan v = false ->
       (stat_min (finish p) <=? v)%float = true /\
       (v <=? stat_max (finish p))%float = true) /\
    stat_avg (finish p) = Some 810%float.
Proof.
  intros rows.
  destruct (OBDDataLogger.accumulate_rows rows) as [params|] eqn:Hacc;
    [|vm_compute in Hacc; discriminate].
  destruct (params !! "RPM") as [p|] eqn:Hh;
    [|injection Hacc as <-; vm_compute in Hh; discriminate].
  destruct (accumulator_invariant (py := CPython.io) rows JNull params "RPM" p
              (or_introl Hacc) Hh) as (_ & Hbounds & _).
  exists params, p. split; [done|]. split; [done|].
  injection Hacc as <-. vm_compute in Hh. injection Hh as <-.
  split; [reflexivity|]. split; [exact Hbounds|]. vm_compute. reflexivity.
Defined.

(** C7 as stated fails: "nan" reads as a float; it is counted, and no bound
    holds for it. *)
Lemma nan_counterexample :
  let rows := [ ["Timestamp"; "MAF"]; ["2023-11-14T22:13:20"; "nan"] ] in
  exists params p,
    OBDDataLogger.accumulate_rows rows = Some params /\
    params !! "MAF" = Some p /\
    param_values p = [nan] /\
    stat_min (finish p) = infinity /\ stat_max (finish p) = neg_infinity /\
    (stat_min (finish p) <=? nan)%float = false /\
    (nan <=? stat_max (finish p))%float = false.
Proof.
  intros rows. eexists _, _. split; [reflexivity|].
  split; [vm_compute; reflexivity|]. repeat split.
Qed.

(** ** Runs of the logger *)

Ltac run := unfold mbind, M_bind, mret, M_ret; simpl.

Section Logger.
Context `{PyFloatIO}.
Import OBDDataLogger.

Lemma query_row_run conn cmds row w :
  query_row conn cmds row w =
  ((row ++ map (fun s : string * option Value => csv_cell s.2)
               (responses conn cmds (sent w)))%list,
   {| now := now w + tick_work conn cmds (sent w);
      sent := sent w + length cmds;
      trace := trace w ++ query_events conn cmds (now w) (sent w);
      logs := logs w; reports := reports w; graphs_dir := graphs_dir w |}).
Proof.
  revert row w. induction cmds as [|cmd rest IH]; intros row w; simpl.
  - run. rewrite !app_nil_r, Z.add_0_r, Nat.add_0_r. by destruct w.
  - run. rewrite IH. simpl. f_equal.
    + by rewrite <- app_assoc.
    + f_equal; [lia|lia|by rewrite <- app_assoc].
Qed.

Lemma log_loop_S fuel conn csv_file cmds start_time duration interval w :
  0 <= interval ->
  log_loop (S fuel) conn csv_file cmds start_time duration interval w =
  if now w - start_time <? duration
  then log_loop fuel conn csv_file cmds start_time duration interval
                (after_tick conn csv_file cmds interval w)
  else (Some true, w).
Proof.
  intros Hpos. simpl. unfold time_time at 1. run.
  destruct (now w - start_time <? duration); [|done].
  unfold datetime_now, time_time. run. rewrite query_row_run. simpl.
  unfold writerow, write_logs. run.
  destruct (interval <? 0) eqn:E; [lia|].
  unfold time_sleep, time_time, emit, advance. run.
  unfold set_logs. simpl. f_equal. unfold after_tick. f_equal.
  by rewrite <- app_assoc.
Qed.

Lemma responses_names conn cmds n : map fst (responses conn cmds n) = cmds.
Proof. revert n. induction cmds as [|c cs IH]; intros n; simpl; [done|]. by rewrite IH. Qed.

Lemma sleeps_app tr1 tr2 : sleeps (tr1 ++ tr2) = (sleeps tr1 ++ sleeps tr2)%list.
Proof. apply omap_app. Qed.

Lemma queries_app tr1 tr2 : queries (tr1 ++ tr2) = (queries tr1 ++ queries tr2)%list.
Proof. apply omap_app. Qed.

Lemma query_events_sleeps conn cmds t n : sleeps (query_events conn cmds t n) = [].
Proof. revert t n. induction cmds as [|c cs IH]; intros t n; simpl; [done|]. apply IH. Qed.

Lemma query_events_queries conn cmds t n : queries (query_events conn cmds t n) = cmds.
Proof.
  revert t n. induction cmds as [|c cs IH]; intros t n; [done|].
  simpl. unfold queries in *. simpl. by rewrite IH.
Qed.

Lemma tick_work_nonneg conn cmds n : causal conn -> 0 <= tick_work conn cmds n.
Proof.
  intros Hc. revert n. induction cmds as [|c cs IH]; intros n; simpl; [lia|].
  specialize (Hc n c). specialize (IH (S n)). lia.
Qed.

(** The loop is [after_tick] iterated; it ends only when the duration has
    elapsed. *)
Lemma log_loop_iter fuel conn csv_file cmds start_time duration interval w r w' :
  0 <= interval ->
  log_loop fuel conn csv_file cmds start_time duration interval w = (r, w') ->
  (exists n, w' = Nat.iter n (after_tick conn csv_file cmds interval) w) /\
  (r = None \/ (r = Some true /\ duration <= now w' - start_time)).
Proof.
  intros Hpos. revert w. induction fuel as [|fuel IH]; intros w Hrun.
  - injection Hrun as <- <-. split; [by exists 0%nat|by left].
  - rewrite log_loop_S in Hrun by done.
    destruct (now w - start_time <? duration) eqn:E.
    + destruct (IH _ Hrun) as ((n & ->) & Hr).
      split; [|done]. exists (S n). by rewrite Nat.iter_succ_r.
    + injection Hrun as <- <-. split; [by exists 0%nat|]. right. split; [done|lia].
Qed.

(** With a positive interval the loop ends, whatever the adapter answers. *)
Lemma log_loop_terminates fuel conn csv_file cmds start_time duration interval w :
  causal conn -> 0 < interval ->
  duration - (now w - start_time) <= Z.of_nat fuel * interval ->
  exists w', log_loop (S fuel) conn csv_file cmds start_time duration interval w
             = (Some true, w').
Proof.
  intros Hc Hpos. revert w. induction fuel as [|fuel IH]; intros w Hfuel.
  - rewrite log_loop_S by lia.
    destruct (now w - start_time <? duration) eqn:E; [lia|]. by eexists.
  - rewrite log_loop_S by lia.
    destruct (now w - start_time <? duration) eqn:E; [|by eexists].
    apply IH. simpl. pose proof (tick_work_nonneg conn cmds (sent w) Hc). lia.
Qed.

Lemma iter_file conn csv_file cmds interval n w rows0 doc :
  logs w !! csv_file = Some {| csv_rows := rows0; json_doc := doc |} ->
  exists records,
    logs (Nat.iter n (after_tick conn csv_file cmds interval) w) !! csv_file =
      Some {| csv_rows := rows0 ++ map csv_row records; json_doc := doc |} /\
    length records = n /\
    Forall (well_formed cmds) records /\
    forall k r, records !! k = Some r ->
      Spec.samples r = responses conn cmds (sent w + k * length cmds).
Proof.
  revert w rows0. induction n as [|n IH]; intros w rows0 Hfile.
  - exists []. simpl. rewrite app_nil_r. repeat split; try done.
  - rewrite Nat.iter_succ_r.
    destruct (IH (after_tick conn csv_file cmds interval w)
                 (rows0 ++ [csv_row (tick_record conn cmds w)])%list)
      as (records & Hlogs & Hlen & Hwf & Hsamples).
    { simpl. rewrite lookup_alter_eq, Hfile. done. }
    exists (tick_record conn cmds w :: records). split; [|split; [|split]].
    + rewrite Hlogs. simpl. by rewrite <- app_assoc.
    + simpl. by rewrite Hlen.
    + constructor; [|done]. unfold well_formed. simpl. apply responses_names.
    + intros [|k] r Hr; simpl in Hr.
      * injection Hr as <-. simpl. by rewrite Nat.add_0_r.
      * rewrite (Hsamples k r Hr). simpl. f_equal. lia.
Qed.

Lemma iter_trace conn csv_file cmds interval n w :
  exists evs,
    trace (Nat.iter n (after_tick conn csv_file cmds interval) w) = (trace w ++ evs)%list /\
    queries evs = concat (replicate n cmds) /\
    length (sleeps evs) = n /\
    forall k t d, sleeps evs !! k = Some (t, d) ->
      d = interval /\
      t = now w + Z.of_nat k * interval + total_work conn cmds (sent w) k.
Proof.
  revert w. induction n as [|n IH]; intros w.
  - exists []. simpl. rewrite app_nil_r. repeat split; try done.
  - rewrite Nat.iter_succ_r.
    destruct (IH (after_tick conn csv_file cmds interval w))
      as (evs & Htrace & Hq & Hlen & Hsleeps).
    exists (query_events conn cmds (now w) (sent w) ++
            [Sleep (now w + tick_work conn cmds (sent w)) interval] ++ evs)%list.
    split; [|split; [|split]].
    + rewrite Htrace. simpl. by rewrite <- !app_assoc.
    + rewrite !queries_app, query_events_queries, Hq. done.
    + rewrite !sleeps_app, query_events_sleeps. simpl. by rewrite Hlen.
    + rewrite !sleeps_app, query_events_sleeps. simpl.
      intros [|k] t d Hk; simpl in Hk.
      * injection Hk as <- <-. split; [done|]. simpl. lia.
      * destruct (Hsleeps k t d Hk) as [-> ->]. split; [done|]. simpl. lia.
Qed.
End Logger.

Section LoggerRun.
Context `{PyFloatIO}.
Import OBDDataLogger.

Lemma log_to_csv_run fuel self conn cmds duration interval w :
  connection self = Some conn ->
  log_to_csv fuel self cmds duration interval w =
  let (r, w') := log_loop fuel conn (log_path self w) cmds (now w) duration interval
                          (log_start self cmds w) in
  match r with
  | None => (None, w')
  | Some true => (Some (log_path self w),
                  (logging_info ("Data logged to " ++ log_path self w) w').2)
  | Some false =>
      (Some "", (logging_error "Error logging data: sleep length must be non-negative" w').2)
  end.
Proof.
  intros Hconn. unfold log_to_csv. rewrite Hconn.
  unfold datetime_now, time_time, open_w, writerow, write_logs. run.
  fold (log_path self w). unfold set_logs, log_start, set_logs. simpl.
  rewrite alter_insert_eq. simpl.
  destruct (log_loop fuel conn (log_path self w) cmds (now w) duration interval _)
    as [[[|]|] w'] eqn:Hloop; done.
Qed.
End LoggerRun.

Lemma queries_log tr level message :
  queries (tr ++ [Log level message]) = queries tr.
Proof. unfold queries. rewrite omap_app. apply app_nil_r. Qed.

Lemma sleeps_log tr level message :
  sleeps (tr ++ [Log level message]) = sleeps tr.
Proof. unfold sleeps. rewrite omap_app. apply app_nil_r. Qed.

Lemma responses_lookup conn cmds n i c :
  cmds !! i = Some c -> responses conn cmds n !! i = Some (c, respond conn (n + i) c).
Proof.
  revert n i. induction cmds as [|c' cs IH]; intros n i Hi; [done|].
  destruct i as [|i]; simpl in Hi.
  - injection Hi as ->. simpl. by rewrite Nat.add_0_r.
  - replace (n + S i)%nat with (S n + i)%nat by lia. by apply IH.
Qed.

(** ** Runs of the diagnostic tool *)

Section Tool.
Context `{PyFloatIO}.
Import OBDDiagnosticTool.

Lemma guarded_nil self : guarded self [].
Proof. split; constructor. Qed.

Lemma guarded_app self evs1 evs2 :
  guarded self evs1 -> guarded self evs2 -> guarded self (evs1 ++ evs2).
Proof.
  intros [Hq1 Hs1] [Hq2 Hs2]. split.
  - rewrite queries_app. by apply Forall_app.
  - rewrite sleeps_app. by apply Forall_app.
Qed.

Lemma guarded_query self t c :
  c ∈ supported_commands self -> guarded self [Query t c].
Proof. intros Hc. split; [by repeat constructor|constructor]. Qed.

Lemma live_tick_run self conn cmds data w :
  exists evs, trace (live_tick self conn cmds data w).2 = (trace w ++ evs)%list /\
              guarded self evs.
Proof.
  revert data w. induction cmds as [|[key command] rest IH]; intros data w; simpl.
  - exists []. split; [by rewrite app_nil_r|apply guarded_nil].
  - destruct (bool_decide (command ∈ supported_commands self)) eqn:E.
    + apply bool_decide_eq_true in E. unfold query. run.
      destruct (respond conn (sent w) command) as [value|].
      * match goal with
        | |- context [live_tick self conn rest ?d ?w1] =>
            destruct (IH d w1) as (evs & Htrace & Hg)
        end.
        exists (Query (now w) command :: evs). rewrite Htrace. simpl.
        split; [by rewrite <- app_assoc|].
        apply (guarded_app self [Query (now w) command] evs); [by apply guarded_query|done].
      * match goal with
        | |- context [live_tick self conn rest ?d ?w1] =>
            destruct (IH d w1) as (evs & Htrace & Hg)
        end.
        exists (Query (now w) command :: evs). rewrite Htrace. simpl.
        split; [by rewrite <- app_assoc|].
        apply (guarded_app self [Query (now w) command] evs); [by apply guarded_query|done].
    + apply IH.
Qed.

Lemma live_loop_S fuel self conn start_time duration data w :
  live_loop (S fuel) self conn start_time duration data w =
  if now w - start_time <? duration then
    let (data', w1) := live_tick self conn live_commands data w in
    live_loop fuel self conn start_time duration data' (asleep 500000 w1)
  else (Some data, w).
Proof.
  cbn [live_loop]. unfold time_time at 1. unfold mbind, M_bind.
  destruct (now w - start_time <? duration); [|done].
  by destruct (live_tick self conn live_commands data w) as [data' w1].
Qed.

Lemma live_loop_run fuel self conn start_time duration data w :
  exists evs,
    trace (live_loop fuel self conn start_time duration data w).2 = (trace w ++ evs)%list /\
    guarded self evs.
Proof.
  revert data w. induction fuel as [|fuel IH]; intros data w.
  - exists []. split; [by rewrite app_nil_r|apply guarded_nil].
  - rewrite live_loop_S.
    destruct (now w - start_time <? duration).
    + destruct (live_tick_run self conn live_commands data w) as (evs1 & Ht1 & Hg1).
      destruct (live_tick self conn live_commands data w) as [data' w1]. simpl in Ht1.
      destruct (IH data' (asleep 500000 w1)) as (evs2 & Ht2 & Hg2).
      simpl in Ht2. rewrite Ht1 in Ht2.
      exists (evs1 ++ [Sleep (now w1) 500000] ++ evs2)%list. split.
      * rewrite Ht2. by rewrite <- !app_assoc.
      * apply guarded_app; [done|]. apply guarded_app; [|done].
        split; [constructor|by repeat constructor].
    + exists []. split; [by rewrite app_nil_r|apply guarded_nil].
Qed.

(** When every response is absent, the lists are left as they were. *)
Lemma live_tick_all_absent self conn cmds data w :
  (forall n c, respond conn n c = None) ->
  (live_tick self conn cmds data w).1 = data.
Proof.
  intros Habsent. revert w. induction cmds as [|[key command] rest IH]; intros w; [done|].
  cbn [live_tick]. destruct (bool_decide (command ∈ supported_commands self)); [|apply IH].
  unfold mbind, M_bind, query. rewrite Habsent. apply IH.
Qed.

Lemma live_loop_all_absent fuel self conn start_time duration data w data' :
  (forall n c, respond conn n c = None) ->
  (live_loop fuel self conn start_time duration data w).1 = Some data' ->
  data' = data.
Proof.
  intros Habsent. revert w. induction fuel as [|fuel IH]; intros w; [done|].
  rewrite live_loop_S. destruct (now w - start_time <? duration).
  - pose proof (live_tick_all_absent self conn live_commands data w Habsent) as Htick.
    destruct (live_tick self conn live_commands data w) as [data1 w1].
    simpl in Htick. subst data1. apply IH.
  - simpl. by intros [= <-].
Qed.

Lemma info_loop_run self conn cmds info w :
  exists evs, trace (info_loop self conn cmds info w).2 = (trace w ++ evs)%list /\
              guarded self evs.
Proof.
  revert info w. induction cmds as [|[command key] rest IH]; intros info w; simpl.
  - exists []. split; [by rewrite app_nil_r|apply guarded_nil].
  - destruct (bool_decide (command ∈ supported_commands self)) eqn:E.
    + apply bool_decide_eq_true in E. unfold query. run.
      destruct (respond conn (sent w) command) as [value|].
      * match goal with
        | |- context [info_loop self conn rest ?d ?w1] =>
            destruct (IH d w1) as (evs & Htrace & Hg)
        end.
        exists (Query (now w) command :: evs). rewrite Htrace. simpl.
        split; [by rewrite <- app_assoc|].
        apply (guarded_app self [Query (now w) command] evs); [by apply guarded_query|done].
      * match goal with
        | |- context [info_loop self conn rest ?d ?w1] =>
            destruct (IH d w1) as (evs & Htrace & Hg)
        end.
        exists (Query (now w) command :: evs). rewrite Htrace. simpl.
        split; [by rewrite <- app_assoc|].
        apply (guarded_app self [Query (now w) command] evs); [by apply guarded_query|done].
    + apply IH.
Qed.

(** A key of the vehicle information comes from a supported command. *)
Lemma info_loop_keys self conn cmds info w key :
  (info_loop self conn cmds info w).1 !! key <> None ->
  info !! key <> None \/
  exists command, (command, key) ∈ cmds /\ command ∈ supported_commands self.
Proof.
  revert info w. induction cmds as [|[command k] rest IH]; intros info w; simpl.
  - by left.
  - destruct (bool_decide (command ∈ supported_commands self)) eqn:E.
    + apply bool_decide_eq_true in E. unfold query. run.
      destruct (respond conn (sent w) command) as [value|]; intros Hkey.
      * apply IH in Hkey as [Hkey|(c & Hc & Hs)].
        -- rewrite lookup_insert in Hkey. destruct (decide (k = key)) as [->|].
           ++ right. exists command. split; [by left|done].
           ++ by left.
        -- right. exists c. split; [by right|done].
      * apply IH in Hkey as [Hkey|(c & Hc & Hs)]; [by left|].
        right. exists c. split; [by right|done].
    + intros Hkey. apply IH in Hkey as [Hkey|(c & Hc & Hs)]; [by left|].
      right. exists c. split; [by right|done].
Qed.
End Tool.

(** ** One entry per parameter in every row (C3) *)

(** C3, as amended. A run of [log_to_csv] on a connected logger, with a
    positive interval, returns the path of a file that holds the header row and
    one row per tick, as soon as the fuel covers the ticks that fit in the
    duration: the timestamp and one cell per requested command, in order. The
    cell of a command is the text of the value that its query of that tick
    returned, or the marker "NULL" when the response was absent; the commands
    after an absent one are queried all the same, and the loop goes on until
    the duration has elapsed. [monitor_live_data] keeps no per-tick
    record and leaves absent readings out of its lists: when every response
    is absent it returns the four lists empty. *)
Theorem csv_rows_are_complete {py : PyFloatIO}
    (self : OBDDataLogger.t) (conn : OBD) (cmds : list Cmd)
    (duration interval : Z) (fuel : nat) (w : World) :
  OBDDataLogger.connection self = Some conn ->
  causal conn ->
  0 < interval ->
  (Z.to_nat (duration / interval + 1) < fuel)%nat ->
  exists csv_file w' records,
    OBDDataLogger.log_to_csv fuel self cmds duration interval w = (Some csv_file, w') /\
    logs w' !! csv_file = Some {| csv_rows := csv_log cmds records; json_doc := None |} /\
    Forall (well_formed cmds) records /\
    (forall k r i c, records !! k = Some r -> cmds !! i = Some c ->
       csv_row r !! S i =
       Some (OBDDataLogger.csv_cell (respond conn (sent w + k * length cmds + i) c))) /\
    queries (trace w') = (queries (trace w) ++ concat (replicate (length records) cmds))%list /\
    duration <= now w' - now w /\
    (forall tool silent fuel' duration' v data,
       OBDDiagnosticTool.connection tool = Some silent ->
       (forall n c, respond silent n c = None) ->
       (OBDDiagnosticTool.monitor_live_data fuel' tool duration' v).1 = Some data ->
       data = OBDDiagnosticTool.live_data).
Proof.
  intros Hconn Hc Hpos Hfuel. destruct fuel as [|fuel]; [lia|].
  rewrite (log_to_csv_run _ self conn) by done.
  destruct (log_loop_terminates fuel conn (log_path self w) cmds (now w) duration interval
              (log_start self cmds w) Hc Hpos) as [w1 Hloop].
  { simpl. pose proof (Z.mul_succ_div_gt duration interval Hpos) as Hdiv.
    unfold Z.succ in Hdiv.
    assert (Hq : duration / interval + 1 <= Z.of_nat fuel) by lia.
    apply (Z.mul_le_mono_nonneg_l _ _ interval) in Hq; [|lia].
    clear Hfuel. revert Hdiv Hq. generalize (duration / interval). intros q. lia. }
  rewrite Hloop.
  destruct (log_loop_iter _ _ _ _ _ _ _ _ _ _ (Z.lt_le_incl _ _ Hpos) Hloop)
    as ((n & Hw1) & Hend).
  destruct Hend as [?|[_ Hend]]; [done|].
  destruct (iter_file conn (log_path self w) cmds interval n (log_start self cmds w)
              ["Timestamp" :: cmds] None) as (records & Hlogs & Hlen & Hwf & Hsamples).
  { unfold log_start, set_logs. simpl. by rewrite lookup_insert_eq. }
  destruct (iter_trace conn (log_path self w) cmds interval n (log_start self cmds w))
    as (evs & Htrace & Hq & _).
  exists (log_path self w), (logging_info ("Data logged to " ++ log_path self w) w1).2, records.
  split; [done|]. rewrite <- Hw1 in Hlogs, Htrace. simpl.
  split; [exact Hlogs|]. split; [done|]. split; [|split].
  - intros k r i c Hr Hi. unfold csv_row. simpl.
    rewrite list_lookup_fmap, (Hsamples k r Hr).
    rewrite (responses_lookup conn cmds _ i c Hi). done.
  - by rewrite queries_log, Htrace, queries_app, Hq, Hlen.
  - split; [exact Hend|].
    intros tool silent fuel' duration' v data Htool Habsent.
    unfold OBDDiagnosticTool.monitor_live_data. rewrite Htool.
    unfold time_time, mbind, M_bind.
    apply (live_loop_all_absent fuel' tool silent (now v) duration'
             OBDDiagnosticTool.live_data v data Habsent).
Qed.


Lemma demo_conn_causal : causal demo_conn.
Proof. intros n c. simpl. lia. Defined.

Example demo_log_to_csv :
  exists w',
    OBDDataLogger.log_to_csv 10 demo_logger demo_cmds 2000000 1000000 empty_world =
      (Some "logs/obd_log_20231114_221320.csv", w') /\
    logs w' !! "logs/obd_log_20231114_221320.csv" =
      Some {| csv_rows := [ ["Timestamp"; "RPM"; "SPEED"];
                            ["2023-11-14T22:13:20"; "800.0"; "NULL"];
                            ["2023-11-14T22:13:21.200000"; "800.0"; "42.0"] ];
              json_doc := None |}.
Proof. eexists. split; vm_compute; reflexivity. Qed.

Lemma csv_rows_are_complete_witness :
  OBDDataLogger.connection demo_logger = Some demo_conn /\
  causal demo_conn /\ 0 < 1000000 /\
  (Z.to_nat (2000000 / 1000000 + 1) < 10)%nat /\
  exists csv_file w' records,
    OBDDataLogger.log_to_csv 10 demo_logger demo_cmds 2000000 1000000 empty_world
      = (Some csv_file, w') /\
    logs w' !! csv_file = Some {| csv_rows := csv_log demo_cmds records; json_doc := None |} /\
    Forall (well_formed demo_cmds) records /\
    (forall k r i c, records !! k = Some r -> demo_cmds !! i = Some c ->
       csv_row r !! S i =
       Some (OBDDataLogger.csv_cell
               (respond demo_conn (sent empty_world + k * length demo_cmds + i) c))) /\
    queries (trace w') =
      (queries (trace empty_world) ++ concat (replicate (length records) demo_cmds))%list /\
    2000000 <= now w' - now empty_world /\
    (forall tool silent fuel' duration' v data,
       OBDDiagnosticTool.connection tool = Some silent ->
       (forall n c, respond silent n c = None) ->
       (OBDDiagnosticTool.monitor_live_data fuel' tool duration' v).1 = Some data ->
       data = OBDDiagnosticTool.live_data).
Proof.
  assert (Hpos : 0 < 1000000) by lia.
  assert (Hfuel : (Z.to_nat (2000000 / 1000000 + 1) < 10)%nat) by (vm_compute; lia).
  split; [reflexivity|]. split; [exact demo_conn_causal|].
  split; [exact Hpos|]. split; [exact Hfuel|].
  exact (csv_rows_are_complete (py := CPython.io) demo_logger demo_conn demo_cmds
           2000000 1000000 10 empty_world eq_refl demo_conn_causal Hpos Hfuel).
Defined.

(** C3 as stated fails on [monitor_live_data]: the tick queries the four
    parameters, RPM answers and SPEED is absent, and the absent reading is left
    out (its list stays empty) instead of being recorded as absent. *)
Lemma live_data_omits_absent_counterexample :
  let tool := {| OBDDiagnosticTool.connection := Some demo_conn;
                 OBDDiagnosticTool.supported_commands :=
                   [commands.RPM; commands.SPEED; commands.THROTTLE_POS;
                    commands.ENGINE_LOAD] |} in
  let run := OBDDiagnosticTool.monitor_live_data 5 tool 400000 empty_world in
  queries (trace run.2) =
    [commands.RPM; commands.SPEED; commands.THROTTLE_POS; commands.ENGINE_LOAD] /\
  respond demo_conn 1 commands.SPEED = None /\
  exists data,
    run.1 = Some data /\
    data !! "RPM" = Some [Numeric 800] /\
    data !! "Speed" = Some [] /\
    data !! "Throttle Position" = Some [Text "n/a"].
Proof.
  intros tool run. split; [vm_compute; reflexivity|]. split; [reflexivity|].
  eexists. split; [reflexivity|]. repeat split; vm_compute; reflexivity.
Qed.

(** ** The sleep between ticks (C4) *)

(** C4, as amended. After the work of a tick, the loop sleeps for the fixed
    interval ([interval] in [log_to_csv], half a second in
    [monitor_live_data]), whatever the time the queries took. In [log_to_csv]
    the sleep of tick [k] therefore ends at
    [start + (k+1)*interval + (the time taken by the queries of ticks 0..k)]:
    query latency accumulates as drift. *)
Theorem sleep_is_a_fixed_interval {py : PyFloatIO}
    (logger : OBDDataLogger.t) (conn : OBD) (cmds : list Cmd)
    (duration interval : Z) (fuel : nat) (w : World)
    (tool : OBDDiagnosticTool.t) (duration' : Z) (fuel' : nat) (v : World) :
  OBDDataLogger.connection logger = Some conn ->
  0 <= interval ->
  (exists evs,
     trace (OBDDataLogger.log_to_csv fuel logger cmds duration interval w).2 =
       (trace w ++ evs)%list /\
     forall k t d, sleeps evs !! k = Some (t, d) ->
       d = interval /\
       t + d = now w + (Z.of_nat k + 1) * interval + total_work conn cmds (sent w) k) /\
  (exists evs,
     trace (OBDDiagnosticTool.monitor_live_data fuel' tool duration' v).2 =
       (trace v ++ evs)%list /\
     Forall (fun td : Z * Z => td.2 = 500000) (sleeps evs)).
Proof.
  intros Hconn Hpos. split.
  - rewrite (log_to_csv_run _ logger conn) by done.
    destruct (OBDDataLogger.log_loop fuel conn (log_path logger w) cmds (now w) duration interval
                (log_start logger cmds w)) as [r w1] eqn:Hloop.
    destruct (log_loop_iter _ _ _ _ _ _ _ _ _ _ Hpos Hloop) as ((n & Hw1) & Hr).
    destruct (iter_trace conn (log_path logger w) cmds interval n (log_start logger cmds w))
      as (evs & Htrace & _ & _ & Hsleeps).
    rewrite <- Hw1 in Htrace. simpl in Htrace, Hsleeps.
    assert (Hevs : forall k t d, sleeps evs !! k = Some (t, d) ->
              d = interval /\
              t + d = now w + (Z.of_nat k + 1) * interval + total_work conn cmds (sent w) k).
    { intros k t d Hk. destruct (Hsleeps k t d Hk) as [-> ->]. split; [done|lia]. }
    destruct r as [[|]|]; simpl.
    + exists (evs ++ [Log "INFO" ("Data logged to " ++ log_path logger w)])%list.
      split; [by rewrite Htrace, <- app_assoc|]. by rewrite sleeps_log.
    + exists (evs ++ [Log "ERROR" "Error logging data: sleep length must be non-negative"])%list.
      split; [by rewrite Htrace, <- app_assoc|]. by rewrite sleeps_log.
    + by exists evs.
  - unfold OBDDiagnosticTool.monitor_live_data.
    destruct (OBDDiagnosticTool.connection tool) as [conn'|].
    + unfold time_time, mbind, M_bind.
      destruct (live_loop_run fuel' tool conn' (now v) duration'
                  OBDDiagnosticTool.live_data v) as (evs & Htrace & _ & Hs).
      by exists evs.
    + exists []. split; [by rewrite app_nil_r|constructor].
Qed.

Lemma sleep_is_a_fixed_interval_witness :
  OBDDataLogger.connection demo_logger = Some demo_conn /\
  0 <= 1000000 /\
  exists evs,
    trace (OBDDataLogger.log_to_csv 10 demo_logger demo_cmds 2000000 1000000 empty_world).2
      = (trace empty_world ++ evs)%list /\
    forall k t d, sleeps evs !! k = Some (t, d) ->
      d = 1000000 /\
      t + d = now empty_world + (Z.of_nat k + 1) * 1000000 +
              total_work demo_conn demo_cmds (sent empty_world) k.
Proof.
  assert (Hpos : 0 <= 1000000) by lia.
  split; [reflexivity|]. split; [exact Hpos|].
  exact (proj1 (sleep_is_a_fixed_interval (py := CPython.io) demo_logger demo_conn demo_cmds
                  2000000 1000000 10 empty_world demo_tool 0 0 empty_world eq_refl Hpos)).
Defined.

(** C4 as stated fails: with two queries of a tenth of a second per tick and
    an interval of one second, the sleep of tick 0 ends 1.2 s after the start
    and the sleep of tick 1 ends 2.4 s after it, not at the deadlines
    [start + 1 s] and [start + 2 s]. *)
Lemma clock_drift_counterexample :
  let start := now empty_world in
  let run := OBDDataLogger.log_to_csv 10 demo_logger demo_cmds 2000000 1000000 empty_world in
  sleeps (trace run.2) = [(start + 200000, 1000000); (start + 1400000, 1000000)] /\
  start + 200000 + 1000000 <> start + (0 + 1) * 1000000 /\
  start + 1400000 + 1000000 <> start + (1 + 1) * 1000000.
Proof.
  intros start run. split; [vm_compute; reflexivity|]. unfold start. simpl. lia.
Qed.

(** ** The supported commands (C5) *)

(** C5, as amended. [OBDDiagnosticTool.connect] captures the supported
    commands of the connection, and [get_vehicle_info] and [monitor_live_data]
    issue no query for a command outside that set: such a command is left out
    of the vehicle information. (The other paths, [log_to_csv] among them, query
    every command they are given.) *)
Theorem supported_set_guards_the_tool {py : PyFloatIO}
    (conn : OBD) (tool tool' : OBDDiagnosticTool.t)
    (fuel : nat) (duration : Z) (w : World) :
  OBDDiagnosticTool.connect (Some conn) tool = (true, tool') ->
  OBDDiagnosticTool.connection tool' = Some conn /\
  OBDDiagnosticTool.supported_commands tool' = obd.supported_commands conn /\
  (exists evs,
     trace (OBDDiagnosticTool.get_vehicle_info tool' w).2 = (trace w ++ evs)%list /\
     Forall (fun c => c ∈ obd.supported_commands conn) (queries evs)) /\
  (exists evs,
     trace (OBDDiagnosticTool.monitor_live_data fuel tool' duration w).2 =
       (trace w ++ evs)%list /\
     Forall (fun c => c ∈ obd.supported_commands conn) (queries evs)) /\
  (forall command key,
     (command, key) ∈ OBDDiagnosticTool.info_commands ->
     command ∉ obd.supported_commands conn ->
     (OBDDiagnosticTool.get_vehicle_info tool' w).1 !! key = None).
Proof.
  intros Hconnect.
  assert (Hc : OBDDiagnosticTool.connection tool' = Some conn /\
               OBDDiagnosticTool.supported_commands tool' = obd.supported_commands conn).
  { unfold OBDDiagnosticTool.connect in Hconnect.
    destruct (is_connected conn); [|done]. by injection Hconnect as <-. }
  destruct Hc as [Hc Hs]. split; [done|]. split; [done|].
  unfold OBDDiagnosticTool.get_vehicle_info, OBDDiagnosticTool.monitor_live_data.
  rewrite Hc, <- Hs. split; [|split].
  - destruct (info_loop_run tool' conn OBDDiagnosticTool.info_commands ∅ w)
      as (evs & Htrace & Hq & _).
    by exists evs.
  - unfold time_time, mbind, M_bind.
    destruct (live_loop_run fuel tool' conn (now w) duration OBDDiagnosticTool.live_data w)
      as (evs & Htrace & Hq & _).
    by exists evs.
  - intros command key Hin Hunsupported.
    match goal with
    | |- ?x = None => destruct x eqn:E; [|done]
    end.
    exfalso.
    destruct (info_loop_keys tool' conn OBDDiagnosticTool.info_commands ∅ w key)
      as [Hkey|(c & Hcmd & Hsup)].
    + by rewrite E.
    + by rewrite lookup_empty in Hkey.
    + assert (c = command); [|by subst].
      unfold OBDDiagnosticTool.info_commands in Hin, Hcmd.
      repeat (apply elem_of_cons in Hin as [Hin|Hin]; [injection Hin as -> ->|]);
        try (by apply elem_of_nil in Hin);
        repeat (apply elem_of_cons in Hcmd as [Hcmd|Hcmd]; [by injection Hcmd as ->|]);
        by apply elem_of_nil in Hcmd.
Qed.

Lemma supported_set_guards_the_tool_witness :
  OBDDiagnosticTool.connect (Some demo_conn) OBDDiagnosticTool.__init__ = (true, demo_tool) /\
  OBDDiagnosticTool.supported_commands demo_tool = [commands.RPM; commands.SPEED] /\
  (exists evs,
     trace (OBDDiagnosticTool.monitor_live_data 5 demo_tool 400000 empty_world).2 =
       (trace empty_world ++ evs)%list /\
     Forall (fun c => c ∈ obd.supported_commands demo_conn) (queries evs)) /\
  (OBDDiagnosticTool.get_vehicle_info demo_tool empty_world).1 !! "VIN" = None.
Proof.
  destruct (supported_set_guards_the_tool (py := CPython.io) demo_conn
              OBDDiagnosticTool.__init__ demo_tool 5 400000 empty_world eq_refl)
    as (_ & Hset & _ & Hlive & Hinfo).
  split; [reflexivity|]. split; [exact Hset|]. split; [exact Hlive|].
  apply (Hinfo commands.VIN "VIN"); [by left|].
  simpl. intros Hin. repeat (apply elem_of_cons in Hin as [Hin|Hin]; [discriminate|]).
  by apply elem_of_nil in Hin.
Defined.

(** C5 as stated fails on the logging path: [log_to_csv] sends a query for a
    command that the connection does not support. *)
Lemma logger_queries_unsupported_counterexample :
  let run := OBDDataLogger.log_to_csv 10 demo_logger [commands.RPM; commands.MAF]
                                      500000 1000000 empty_world in
  obd.supported_commands demo_conn = [commands.RPM; commands.SPEED] /\
  (commands.MAF ∉ obd.supported_commands demo_conn) /\
  queries (trace run.2) = [commands.RPM; commands.MAF] /\
  exists csv_file f,
    run.1 = Some csv_file /\ logs run.2 !! csv_file = Some f /\
    csv_rows f = [ ["Timestamp"; "RPM"; "MAF"]; ["2023-11-14T22:13:20"; "800.0"; "n/a"] ].
Proof.
  intros run. split; [reflexivity|]. split.
  - simpl. intros Hin. repeat (apply elem_of_cons in Hin as [Hin|Hin]; [discriminate|]).
    by apply elem_of_nil in Hin.
  - split; [vm_compute; reflexivity|].
    eexists _, _. split; [vm_compute; reflexivity|]. split; vm_compute; reflexivity.
Qed.

(** ** Closing (C8) *)

Lemma times_close_tool n (self : OBDDiagnosticTool.t) conn w :
  OBDDiagnosticTool.connection self = Some conn ->
  closes (trace (times n (OBDDiagnosticTool.close self) w).2) = (closes (trace w) + n)%nat.
Proof.
  intros Hconn. revert w. induction n as [|n IH]; intros w; simpl.
  - unfold mret, M_ret. simpl. lia.
  - unfold mbind, M_bind, OBDDiagnosticTool.close at 1. rewrite Hconn.
    unfold connection_close, time_time, emit, mbind, M_bind. simpl.
    rewrite IH. simpl. unfold closes. rewrite omap_app, length_app. simpl. lia.
Qed.

Lemma times_close_logger n (self : OBDDataLogger.t) conn w :
  OBDDataLogger.connection self = Some conn ->
  closes (trace (times n (OBDDataLogger.close self) w).2) = (closes (trace w) + n)%nat /\
  messages (trace (times n (OBDDataLogger.close self) w).2) =
    (messages (trace w) ++ replicate n "OBD connection closed")%list.
Proof.
  intros Hconn. revert w. induction n as [|n IH]; intros w; simpl.
  - unfold mret, M_ret. simpl. rewrite app_nil_r. split; [lia|done].
  - unfold mbind, M_bind, OBDDataLogger.close at 1 3. rewrite Hconn.
    unfold connection_close, logging_info, time_time, emit, mbind, M_bind. simpl.
    destruct (IH {| now := now w; sent := sent w;
                    trace := (trace w ++ [Close (now w)]) ++ [Log "INFO" "OBD connection closed"];
                    logs := logs w; reports := reports w; graphs_dir := graphs_dir w |})
      as [-> ->]. simpl.
    unfold closes, messages. rewrite !omap_app, !length_app. simpl.
    rewrite app_nil_r, <- app_assoc. split; [lia|done].
Qed.

(** C8, as amended. [close()] on an object that never got a connection does
    nothing, however often it is called. Once a connection object is held,
    every call of [close()], the first one and each further one alike, forwards
    a [close()] to the connection (the handle is never cleared), and the logger
    writes its log line every time: [n] calls give [n] closes. *)
Theorem close_forwards_every_call
    (idle tool : OBDDiagnosticTool.t) (logger : OBDDataLogger.t)
    (conn conn' : OBD) (n : nat) (w : World) :
  OBDDiagnosticTool.connection idle = None ->
  OBDDiagnosticTool.connection tool = Some conn ->
  OBDDataLogger.connection logger = Some conn' ->
  times n (OBDDiagnosticTool.close idle) w = (tt, w) /\
  closes (trace (times n (OBDDiagnosticTool.close tool) w).2) = (closes (trace w) + n)%nat /\
  closes (trace (times n (OBDDataLogger.close logger) w).2) = (closes (trace w) + n)%nat /\
  messages (trace (times n (OBDDataLogger.close logger) w).2) =
    (messages (trace w) ++ replicate n "OBD connection closed")%list.
Proof.
  intros Hidle Htool Hlogger. split; [|split].
  - revert w. induction n as [|n IH]; intros w; simpl; [done|].
    unfold mbind, M_bind, OBDDiagnosticTool.close at 1. rewrite Hidle.
    unfold mret, M_ret. apply IH.
  - by apply (times_close_tool n tool conn).
  - by apply (times_close_logger n logger conn').
Qed.

Lemma close_forwards_every_call_witness :
  OBDDiagnosticTool.connection OBDDiagnosticTool.__init__ = None /\
  OBDDiagnosticTool.connection demo_tool = Some demo_conn /\
  OBDDataLogger.connection demo_logger = Some demo_conn /\
  times 2 (OBDDiagnosticTool.close OBDDiagnosticTool.__init__) empty_world = (tt, empty_world) /\
  closes (trace (times 2 (OBDDiagnosticTool.close demo_tool) empty_world).2) =
    (closes (trace empty_world) + 2)%nat /\
  closes (trace (times 2 (OBDDataLogger.close demo_logger) empty_world).2) =
    (closes (trace empty_world) + 2)%nat /\
  messages (trace (times 2 (OBDDataLogger.close demo_logger) empty_world).2) =
    (messages (trace empty_world) ++ replicate 2 "OBD connection closed")%list.
Proof.
  split; [reflexivity|]. split; [reflexivity|]. split; [reflexivity|].
  exact (close_forwards_every_call OBDDiagnosticTool.__init__ demo_tool demo_logger
           demo_conn demo_conn 2 empty_world eq_refl eq_refl eq_refl).
Defined.

(** C8 as stated fails: the second [close()] of a connected session is not a
    no-op. It changes the state of the world: the connection receives a second
    [close()], and the logger logs a second line. *)
Lemma second_close_counterexample :
  let once := (OBDDataLogger.close demo_logger empty_world).2 in
  let twice := (OBDDataLogger.close demo_logger once).2 in
  trace once = [Close 1700000000000000; Log "INFO" "OBD connection closed"] /\
  trace twice = [Close 1700000000000000; Log "INFO" "OBD connection closed";
                 Close 1700000000000000; Log "INFO" "OBD connection closed"] /\
  twice <> once /\
  (OBDDiagnosticTool.close demo_tool (OBDDiagnosticTool.close demo_tool empty_world).2).2
    <> (OBDDiagnosticTool.close demo_tool empty_world).2.
Proof.
  intros once twice. split; [reflexivity|]. split; [reflexivity|]. split.
  - intros E. apply (f_equal (fun w => length (trace w))) in E. discriminate.
  - intros E. apply (f_equal (fun w => length (trace w))) in E. discriminate.
Qed.

(** ** The report (C9) *)

Lemma extends_refl w : extends [] w w.
Proof. exists []. by rewrite app_nil_r. Qed.

Lemma extends_trans q1 q2 w w1 w2 :
  extends q1 w w1 -> extends q2 w1 w2 -> extends (q1 ++ q2) w w2.
Proof.
  intros (e1 & H1 & <-) (e2 & H2 & <-). exists (e1 ++ e2)%list.
  rewrite H2, H1, <- app_assoc. by rewrite queries_app.
Qed.

Lemma extends_same_trace q w w1 w2 :
  extends q w w1 -> trace w2 = trace w1 -> extends q w w2.
Proof. intros (e & H1 & Hq) E. exists e. by rewrite E. Qed.

Section Report.
Context `{PyFloatIO}.
Import DiagnosticReportGenerator.

Lemma query_all_run conn cmds info w :
  extends (map fst cmds) w (query_all conn cmds info w).2.
Proof.
  revert info w. induction cmds as [|[command key] rest IH]; intros info w.
  - apply extends_refl.
  - cbn [query_all]. unfold mbind, M_bind, query.
    assert (Hstep : forall info',
      extends (map fst ((command, key) :: rest)) w
        (query_all conn rest info'
           {| now := now w + latency conn (sent w) command; sent := S (sent w);
              trace := trace w ++ [Query (now w) command]; logs := logs w;
              reports := reports w; graphs_dir := graphs_dir w |}).2).
    { intros info'.
      apply (extends_trans [command] (map fst rest) w
               {| now := now w + latency conn (sent w) command; sent := S (sent w);
                  trace := trace w ++ [Query (now w) command]; logs := logs w;
                  reports := reports w; graphs_dir := graphs_dir w |}); [|apply IH].
      by exists [Query (now w) command]. }
    destruct (respond conn (sent w) command); apply Hstep.
Qed.

Lemma get_dtc_codes_run self conn w :
  connection self = Some conn ->
  extends [commands.GET_DTC] w (get_dtc_codes self w).2.
Proof.
  intros Hconn. unfold get_dtc_codes. rewrite Hconn.
  unfold mbind, M_bind, query.
  destruct (respond conn (sent w) commands.GET_DTC) as [[x|s|l]|]; simpl;
    try (by exists [Query (now w) commands.GET_DTC]).
  exists [Query (now w) commands.GET_DTC; Log "ERROR" "Error getting DTC codes"].
  split; [by rewrite <- app_assoc|done].
Qed.

Lemma generate_html_report_run self data w :
  generate_html_report self data w =
  let report_file :=
    path_join (output_dir self)
              ("diagnostic_report_" ++ strftime_file (datetime_of (now w)) ++ ".html") in
  (report_file,
   set_reports (<[report_file := render (strftime_human (datetime_of (now w))) data]>
                  (reports w)) w).
Proof. reflexivity. Qed.

Lemma generate_report_run self conn w :
  connection self = Some conn ->
  extends (map fst info_commands ++ [commands.GET_DTC] ++ map fst sensors)
          w (generate_report self w).2.
Proof.
  intros Hconn. unfold generate_report. rewrite Hconn.
  unfold mbind, M_bind.
  pose proof (query_all_run conn info_commands ∅ w) as H1.
  unfold get_vehicle_info, collect_sensor_data. rewrite Hconn.
  destruct (query_all conn info_commands ∅ w) as [info w1]. simpl in H1.
  pose proof (get_dtc_codes_run self conn w1 Hconn) as H2.
  destruct (get_dtc_codes self w1) as [codes w2]. simpl in H2.
  pose proof (query_all_run conn sensors ∅ w2) as H3.
  destruct (query_all conn sensors ∅ w2) as [readings w3]. simpl in H3.
  unfold generate_graphs.
  rewrite generate_html_report_run. cbv zeta.
  assert (Hall : extends (map fst info_commands ++ [commands.GET_DTC] ++ map fst sensors)
                         w w3).
  { eapply extends_trans; [exact H1|]. eapply extends_trans; [exact H2|exact H3]. }
  cbv beta iota.
  match goal with
  | |- context [if ?b then _ else _] => destruct b
  end.
  - eapply extends_same_trace; [exact Hall|done].
  - destruct Hall as (evs & Htrace & Hq). simpl.
    eexists (evs ++ [Log "INFO" _])%list. simpl. rewrite Htrace, <- app_assoc.
    split; [done|]. by rewrite queries_log.
Qed.
End Report.

(** C9, as amended. [generate_html_report] is a function of its data, of the
    output directory and of the clock: on the same data and the same clock
    reading it returns the same path and writes the same report there, and it
    does write a file. [generate_report] reads its inputs from the adapter: on
    a connected generator it sends sixteen queries before it assembles the
    report. *)
Theorem report_depends_on_data_and_clock {py : PyFloatIO}
    (self : DiagnosticReportGenerator.t) (conn : OBD) (data : ReportData)
    (w1 w2 : World) :
  now w1 = now w2 ->
  DiagnosticReportGenerator.connection self = Some conn ->
  let report_file := (DiagnosticReportGenerator.generate_html_report self data w1).1 in
  (DiagnosticReportGenerator.generate_html_report self data w2).1 = report_file /\
  reports (DiagnosticReportGenerator.generate_html_report self data w1).2 !! report_file =
    Some (DiagnosticReportGenerator.render (strftime_human (datetime_of (now w1))) data) /\
  reports (DiagnosticReportGenerator.generate_html_report self data w2).2 !! report_file =
    reports (DiagnosticReportGenerator.generate_html_report self data w1).2 !! report_file /\
  extends [commands.VIN; commands.ELM_VERSION; commands.ELM_VOLTAGE; commands.FUEL_TYPE;
           commands.DISTANCE_W_MIL; commands.GET_DTC; commands.RPM; commands.SPEED;
           commands.THROTTLE_POS; commands.ENGINE_LOAD; commands.COOLANT_TEMP;
           commands.INTAKE_TEMP; commands.MAF; commands.O2_B1S1; commands.FUEL_LEVEL;
           commands.TIMING_ADVANCE]
          w1 (DiagnosticReportGenerator.generate_report self w1).2.
Proof.
  intros Hnow Hconn report_file. subst report_file.
  rewrite !generate_html_report_run. cbv zeta. simpl. rewrite <- Hnow.
  split; [done|]. rewrite !lookup_insert_eq. split; [done|]. split; [done|].
  exact (generate_report_run self conn w1 Hconn).
Qed.

Lemma report_depends_on_data_and_clock_witness :
  now empty_world = now empty_world /\
  DiagnosticReportGenerator.connection demo_generator = Some demo_conn /\
  (DiagnosticReportGenerator.generate_html_report demo_generator demo_data empty_world).1 =
    "reports/diagnostic_report_20231114_221320.html" /\
  length (queries (trace (DiagnosticReportGenerator.generate_report
                            demo_generator empty_world).2)) = 16%nat.
Proof.
  destruct (report_depends_on_data_and_clock (py := CPython.io) demo_generator demo_conn
              demo_data empty_world empty_world eq_refl eq_refl)
    as (_ & _ & _ & evs & Htrace & Hq).
  split; [reflexivity|]. split; [reflexivity|]. split; [vm_compute; reflexivity|].
  rewrite Htrace, queries_app, Hq. reflexivity.
Defined.

(** C9 as stated fails: two invocations on identical data, one second apart,
    return different paths and different reports; each of them writes a file. *)
Lemma report_clock_counterexample :
  let first := DiagnosticReportGenerator.generate_html_report
                 demo_generator demo_data empty_world in
  let second := DiagnosticReportGenerator.generate_html_report
                  demo_generator demo_data later_world in
  first.1 = "reports/diagnostic_report_20231114_221320.html" /\
  second.1 = "reports/diagnostic_report_20231114_221321.html" /\
  first.1 <> second.1 /\
  html_timestamp <$> (reports first.2 !! first.1) = Some "2023-11-14 22:13:20" /\
  html_timestamp <$> (reports second.2 !! second.1) = Some "2023-11-14 22:13:21" /\
  reports first.2 <> reports empty_world.
Proof.
  intros first second.
  split; [vm_compute; reflexivity|]. split; [vm_compute; reflexivity|]. split.
  - vm_compute. discriminate.
  - split; [vm_compute; reflexivity|]. split; [vm_compute; reflexivity|].
    intros E. apply (f_equal (fun m => m !! first.1)) in E.
    unfold first in E. rewrite generate_html_report_run in E. cbv zeta in E. simpl in E.
    rewrite lookup_insert_eq, lookup_empty in E. discriminate.
Qed.

(** ** Before the connection (C10) *)

(** C10. While the connection handle is [None], every public operation
    returns its empty or failure value and leaves the world as it is (no
    exception, no query): [get_fault_codes] the empty list, [clear_fault_codes]
    [False], [get_vehicle_info] and [monitor_live_data] the empty dict, and
    [collect_sensor_data] the empty dict. *)
Theorem not_connected_returns_empty {py : PyFloatIO}
    (tool : OBDDiagnosticTool.t) (generator : DiagnosticReportGenerator.t)
    (fuel : nat) (duration : Z) (w : World) :
  OBDDiagnosticTool.connection tool = None ->
  DiagnosticReportGenerator.connection generator = None ->
  OBDDiagnosticTool.get_fault_codes tool w = (Codes [], w) /\
  OBDDiagnosticTool.clear_fault_codes tool w = (false, w) /\
  OBDDiagnosticTool.get_vehicle_info tool w = (∅, w) /\
  OBDDiagnosticTool.monitor_live_data fuel tool duration w = (Some ∅, w) /\
  DiagnosticReportGenerator.collect_sensor_data generator w = (∅, w).
Proof.
  intros Htool Hgen.
  unfold OBDDiagnosticTool.get_fault_codes, OBDDiagnosticTool.clear_fault_codes,
    OBDDiagnosticTool.get_vehicle_info, OBDDiagnosticTool.monitor_live_data,
    DiagnosticReportGenerator.collect_sensor_data.
  rewrite Htool, Hgen. repeat split.
Qed.

Lemma not_connected_returns_empty_witness :
  OBDDiagnosticTool.connection OBDDiagnosticTool.__init__ = None /\
  DiagnosticReportGenerator.connection (DiagnosticReportGenerator.__init__ "reports") = None /\
  OBDDiagnosticTool.get_fault_codes OBDDiagnosticTool.__init__ empty_world
    = (Codes [], empty_world) /\
  OBDDiagnosticTool.clear_fault_codes OBDDiagnosticTool.__init__ empty_world
    = (false, empty_world) /\
  OBDDiagnosticTool.get_vehicle_info OBDDiagnosticTool.__init__ empty_world
    = (∅, empty_world) /\
  OBDDiagnosticTool.monitor_live_data 3 OBDDiagnosticTool.__init__ 10000000 empty_world
    = (Some ∅, empty_world) /\
  DiagnosticReportGenerator.collect_sensor_data
    (DiagnosticReportGenerator.__init__ "reports") empty_world = (∅, empty_world).
Proof.
  split; [reflexivity|]. split; [reflexivity|].
  exact (not_connected_returns_empty (py := CPython.io) OBDDiagnosticTool.__init__
           (DiagnosticReportGenerator.__init__ "reports") 3 10000000 empty_world
           eq_refl eq_refl).
Defined.

(* ===================================================================== *)
(** * Part III. Further properties of the code                         *)
(* ===================================================================== *)

(** ** Paths *)

Lemma endswith_refl s : endswith s s = true.
Proof. destruct s; cbn [endswith]; by rewrite String.eqb_refl. Qed.

Lemma endswith_app prefix suffix : endswith (prefix ++ suffix) suffix = true.
Proof.
  induction prefix as [|c prefix IH].
  - apply endswith_refl.
  - change (String c prefix ++ suffix) with (String c (prefix ++ suffix)).
    cbn [endswith]. rewrite IH. apply orb_true_r.
Qed.

Lemma length_append (s1 s2 : string) :
  String.length (s1 ++ s2) = (String.length s1 + String.length s2)%nat.
Proof.
  induction s1 as [|c s1 IH]; [done|].
  change (String c s1 ++ s2) with (String c (s1 ++ s2)). simpl. by rewrite IH.
Qed.

Lemma append_assoc (s1 s2 s3 : string) : (s1 ++ s2) ++ s3 = s1 ++ (s2 ++ s3).
Proof.
  induction s1 as [|c s1 IH]; [done|].
  change ((String c s1 ++ s2) ++ s3) with (String c ((s1 ++ s2) ++ s3)).
  by rewrite IH.
Qed.

Lemma log_path_csv self w : endswith (log_path self w) ".csv" = true.
Proof.
  unfold log_path, path_join.
  rewrite <- !append_assoc. apply endswith_app.
Qed.

Lemma log_path_nonempty self w : String.eqb (log_path self w) "" = false.
Proof.
  apply String.eqb_neq. intros E.
  apply (f_equal String.length) in E. unfold log_path, path_join in E.
  rewrite !length_append in E. simpl in E. lia.
Qed.

(** ** Ticks of the logger *)

Section LoggerTicks.
Context `{PyFloatIO}.
Import OBDDataLogger.

Lemma iter_clock conn csv_file cmds interval n w :
  now (Nat.iter n (after_tick conn csv_file cmds interval) w) =
    now w + Z.of_nat n * interval + work_of conn cmds (sent w) n /\
  sent (Nat.iter n (after_tick conn csv_file cmds interval) w) =
    (sent w + n * length cmds)%nat.
Proof.
  revert w. induction n as [|n IH]; intros w.
  - simpl. split; lia.
  - rewrite Nat.iter_succ_r. destruct (IH (after_tick conn csv_file cmds interval w)) as [-> ->].
    simpl. split; lia.
Qed.

Lemma iter_frame conn csv_file cmds interval n w :
  (forall path, path <> csv_file ->
     logs (Nat.iter n (after_tick conn csv_file cmds interval) w) !! path = logs w !! path) /\
  reports (Nat.iter n (after_tick conn csv_file cmds interval) w) = reports w /\
  graphs_dir (Nat.iter n (after_tick conn csv_file cmds interval) w) = graphs_dir w.
Proof.
  revert w. induction n as [|n IH]; intros w; [done|].
  rewrite Nat.iter_succ_r.
  destruct (IH (after_tick conn csv_file cmds interval w)) as (Hl & -> & ->).
  split; [|done]. intros path Hne. rewrite Hl by done. simpl.
  by rewrite lookup_alter_ne.
Qed.

Lemma work_of_nonneg conn cmds first n : causal conn -> 0 <= work_of conn cmds first n.
Proof.
  intros Hc. revert first. induction n as [|n IH]; intros first; simpl; [lia|].
  pose proof (tick_work_nonneg conn cmds first Hc). specialize (IH (first + length cmds)%nat).
  lia.
Qed.

Lemma work_of_S conn cmds first n :
  work_of conn cmds first (S n) =
  work_of conn cmds first n + tick_work conn cmds (first + n * length cmds).
Proof.
  revert first. induction n as [|n IH]; intros first.
  - simpl. rewrite Nat.add_0_r. lia.
  - change (work_of conn cmds first (S (S n)))
      with (tick_work conn cmds first + work_of conn cmds (first + length cmds) (S n)).
    rewrite IH. simpl. replace (first + length cmds + n * length cmds)%nat
      with (first + (length cmds + n * length cmds))%nat by lia. lia.
Qed.

(** The loop that ends has run [n] ticks, each started before the duration
    had elapsed, and it ends once the duration has elapsed. *)
Lemma log_loop_ticks fuel conn csv_file cmds start_time duration interval w w' :
  0 <= interval ->
  log_loop fuel conn csv_file cmds start_time duration interval w = (Some true, w') ->
  exists n,
    w' = Nat.iter n (after_tick conn csv_file cmds interval) w /\
    duration <= now w' - start_time /\
    forall k, (k < n)%nat ->
      now (Nat.iter k (after_tick conn csv_file cmds interval) w) - start_time < duration.
Proof.
  intros Hpos. revert w. induction fuel as [|fuel IH]; intros w Hrun; [done|].
  rewrite log_loop_S in Hrun by done.
  destruct (now w - start_time <? duration) eqn:E.
  - destruct (IH _ Hrun) as (n & -> & Hend & Hticks).
    exists (S n). rewrite Nat.iter_succ_r. split; [done|]. split; [done|].
    intros [|k] Hk; [simpl; lia|]. rewrite Nat.iter_succ_r. apply Hticks. lia.
  - injection Hrun as <-. exists 0%nat. simpl. split; [done|]. split; [lia|].
    intros k Hk. lia.
Qed.

Lemma fuel_covers duration interval fuel :
  0 < interval -> (Z.to_nat (duration / interval + 1) < S fuel)%nat ->
  duration <= Z.of_nat fuel * interval.
Proof.
  intros Hpos Hfuel. pose proof (Z.mul_succ_div_gt duration interval Hpos) as Hdiv.
  unfold Z.succ in Hdiv.
  assert (Hq : duration / interval + 1 <= Z.of_nat fuel) by lia.
  apply (Z.mul_le_mono_nonneg_l _ _ interval) in Hq; [|lia].
  clear Hfuel. revert Hdiv Hq. generalize (duration / interval). intros q. lia.
Qed.

(** A run of [log_to_csv] with a positive interval and enough fuel. *)
Lemma log_to_csv_ticks fuel self conn cmds duration interval w :
  connection self = Some conn -> causal conn -> 0 < interval ->
  (Z.to_nat (duration / interval + 1) < fuel)%nat ->
  exists n,
    let w1 := Nat.iter n (after_tick conn (log_path self w) cmds interval)
                       (log_start self cmds w) in
    log_to_csv fuel self cmds duration interval w =
      (Some (log_path self w),
       (logging_info ("Data logged to " ++ log_path self w) w1).2) /\
    duration <= now w1 - now w /\
    forall k, (k < n)%nat ->
      now (Nat.iter k (after_tick conn (log_path self w) cmds interval)
                    (log_start self cmds w)) - now w < duration.
Proof.
  intros Hconn Hc Hpos Hfuel. destruct fuel as [|fuel]; [lia|].
  rewrite (log_to_csv_run _ self conn) by done.
  destruct (log_loop_terminates fuel conn (log_path self w) cmds (now w) duration interval
              (log_start self cmds w) Hc Hpos) as [w1 Hloop].
  { simpl. pose proof (fuel_covers duration interval fuel Hpos Hfuel). lia. }
  rewrite Hloop.
  destruct (log_loop_ticks _ _ _ _ _ _ _ _ _ (Z.lt_le_incl _ _ Hpos) Hloop)
    as (n & -> & Hend & Hticks).
  exists n. simpl. by repeat split.
Qed.

(** What the analysis reads in the row of a tick. *)
Lemma read_cell_tick names r j h v :
  NoDup names -> well_formed names r -> Spec.samples r !! j = Some (h, v) ->
  read_cell ("Timestamp" :: names) h (csv_row r) = py_float (csv_cell v).
Proof.
  intros Hnd Hwf Hs. unfold well_formed in Hwf.
  assert (Hj : names !! j = Some h).
  { rewrite <- Hwf, list_lookup_fmap, Hs. done. }
  unfold read_cell, dict_row, csv_row.
  assert (Hlen : length (map (fun s : string * option Value => csv_cell s.2)
                             (Spec.samples r)) = length names).
  { by rewrite length_map, <- Hwf, length_map. }
  simpl length. rewrite Hlen, Nat.sub_diag. simpl replicate. rewrite app_nil_r.
  simpl map at 1.
  erewrite (py_dict_row _ _ names _ j h); [| done | done |].
  2:{ rewrite list_lookup_fmap, list_lookup_fmap, Hs. reflexivity. }
  done.
Qed.

Lemma observed_ticks conn cmds first records i c :
  NoDup cmds -> cmds !! i = Some c ->
  Forall (well_formed cmds) records ->
  (forall k r, records !! k = Some r ->
     Spec.samples r = responses conn cmds (first + k * length cmds)) ->
  observed ("Timestamp" :: cmds) c (map csv_row records) =
  omap (fun response => py_float (csv_cell response))
       (answers conn cmds first (length records) i c).
Proof.
  intros Hnd Hi. unfold observed, reader_rows, answers.
  rewrite csv_rows_nonempty. revert first.
  induction records as [|r records IH]; intros first Hwf Hs; [done|].
  apply Forall_cons in Hwf as [Hwf1 Hwf].
  change (omap ?f (map csv_row (r :: records)))
    with (match f (csv_row r) with
          | Some b => b :: omap f (map csv_row records)
          | None => omap f (map csv_row records)
          end).
  simpl length. rewrite <- cons_seq. rewrite <- fmap_S_seq.
  rewrite (read_cell_tick cmds r i c (respond conn (first + i) c)); [|done|done|].
  2:{ rewrite (Hs 0%nat r eq_refl). simpl. rewrite Nat.add_0_r.
      by apply responses_lookup. }
  rewrite (IH (first + length cmds)%nat); [|done|].
  2:{ intros k r' Hr'. rewrite (Hs (S k) r' Hr'). f_equal. simpl. lia. }
  simpl map. rewrite Nat.add_0_r.
  rewrite <- list_fmap_compose.
  assert (E : forall l, map ((fun k => respond conn (first + k * length cmds + i) c) ∘ S) l =
                   map (fun k => respond conn (first + length cmds + k * length cmds + i) c) l).
  { intros l. apply map_ext. intros k. simpl. f_equal. lia. }
  unfold fmap, list_fmap in *. 
  change (omap ?f (?x :: ?l)) with (match f x with Some b => b :: omap f l | None => omap f l end).
  rewrite E. done.
Qed.

End LoggerTicks.

Section LoggedAnalysis.
Context `{PyFloatIO}.
Import OBDDataLogger.

(** The analysis of the file that [n] ticks of [log_to_csv] have written. *)
Lemma analysis_of_ticks self conn cmds interval n w message :
  NoDup cmds ->
  let w1 := Nat.iter n (after_tick conn (log_path self w) cmds interval)
                     (log_start self cmds w) in
  let w' := (logging_info message w1).2 in
  exists analysis,
    analyze_log_file (log_path self w) w' = (Some analysis, w') /\
    (forall h, is_Some (analysis !! h) <-> h ∈ cmds) /\
    forall i c, cmds !! i = Some c ->
      analysis !! c =
      Some (finish (stats_of (omap (fun response => py_float (csv_cell response))
                                   (answers conn cmds (sent w) n i c)))).
Proof.
  intros Hnd w1 w'.
  destruct (iter_file conn (log_path self w) cmds interval n (log_start self cmds w)
              ["Timestamp" :: cmds] None) as (records & Hlogs & Hlen & Hwf & Hsamples).
  { unfold log_start, set_logs. simpl. by rewrite lookup_insert_eq. }
  fold w1 in Hlogs. simpl in Hsamples.
  pose proof (analyze_log_file_csv (log_path self w) _ ("Timestamp" :: cmds)
                (map csv_row records) w' (log_path_csv self w) Hlogs eq_refl) as Ha.
  unfold analyze_rows in Ha.
  destruct (accumulate_rows (("Timestamp" :: cmds) :: map csv_row records))
    as [params|] eqn:Hacc; [|done].
  exists (finish <$> params). split; [exact Ha|]. split.
  - intros h. rewrite lookup_fmap, fmap_is_Some. split.
    + intros Hsome. destruct (decide (h ∈ cmds)) as [|Hout]; [done|].
      rewrite (accumulate_rows_dom ("Timestamp" :: cmds) (map csv_row records) _ h Hacc Hout)
        in Hsome. by destruct Hsome.
    + intros Hin.
      destruct (accumulate_rows_lookup ("Timestamp" :: cmds) (map csv_row records) h Hnd Hin)
        as (params' & Hacc' & Hp).
      rewrite Hacc in Hacc'. injection Hacc' as <-. by rewrite Hp.
  - intros i c Hi.
    destruct (accumulate_rows_lookup ("Timestamp" :: cmds) (map csv_row records) c Hnd)
      as (params' & Hacc' & Hp); [by eapply list_elem_of_lookup_2|].
    rewrite Hacc in Hacc'. injection Hacc' as <-.
    unfold Cmd in *. rewrite lookup_fmap, Hp. simpl. do 3 f_equal.
    rewrite (observed_ticks conn cmds (sent w) records i c Hnd Hi Hwf Hsamples).
    by rewrite Hlen.
Qed.

(** How many ticks fit in the duration. *)
Lemma ticks_bounds conn cmds first duration interval n :
  causal conn -> 0 < interval ->
  duration <= Z.of_nat n * interval + work_of conn cmds first n ->
  (forall k, (k < n)%nat -> Z.of_nat k * interval + work_of conn cmds first k < duration) ->
  (duration <= 0 -> n = 0%nat) /\
  (0 < duration -> 1 <= Z.of_nat n <= (duration - 1) / interval + 1).
Proof.
  intros Hc Hpos Hend Hstart. split.
  - intros Hd. destruct n as [|n]; [done|]. specialize (Hstart 0%nat ltac:(lia)).
    simpl in Hstart. lia.
  - intros Hd. destruct n as [|n]; [simpl in Hend; lia|]. split; [lia|].
    specialize (Hstart n ltac:(lia)).
    pose proof (work_of_nonneg conn cmds first n Hc).
    assert (Z.of_nat n <= (duration - 1) / interval); [|lia].
    apply Z.div_le_lower_bound; lia.
Qed.

End LoggedAnalysis.

(** X1. Logging and then analysing. When the logger holds a connection whose
    latencies are not negative, the interval is positive, the fuel covers
    the ticks and the commands are distinct, [log_to_csv] returns the path of
    a file whose analysis succeeds and leaves the world as it is; the
    analysis has one entry per command and no other, and the entry of the
    [i]-th command [c] holds the statistics of the responses that the
    adapter gave to [c] in the [n] ticks of the run, each read back by
    [float] from the text of its cell. *)
Theorem log_then_analyze {py : PyFloatIO}
    (self : OBDDataLogger.t) (conn : OBD) (cmds : list Cmd)
    (duration interval : Z) (fuel : nat) (w : World) :
  OBDDataLogger.connection self = Some conn ->
  causal conn ->
  0 < interval ->
  (Z.to_nat (duration / interval + 1) < fuel)%nat ->
  NoDup cmds ->
  exists csv_file w' analysis n,
    OBDDataLogger.log_to_csv fuel self cmds duration interval w = (Some csv_file, w') /\
    sent w' = (sent w + n * length cmds)%nat /\
    OBDDataLogger.analyze_log_file csv_file w' = (Some analysis, w') /\
    (forall h, is_Some (analysis !! h) <-> h ∈ cmds) /\
    forall i c, cmds !! i = Some c ->
      analysis !! c =
      Some (finish (stats_of (omap (fun response => py_float (OBDDataLogger.csv_cell response))
                                   (answers conn cmds (sent w) n i c)))).
Proof.
  intros Hconn Hc Hpos Hfuel Hnd.
  destruct (log_to_csv_ticks fuel self conn cmds duration interval w Hconn Hc Hpos Hfuel)
    as (n & Hrun & _ & _). cbv zeta in Hrun.
  destruct (analysis_of_ticks self conn cmds interval n w
              ("Data logged to " ++ log_path self w) Hnd) as (analysis & Ha & Hdom & Hvalues).
  destruct (iter_clock conn (log_path self w) cmds interval n (log_start self cmds w))
    as [_ Hsent].
  eexists _, _, analysis, n. split; [exact Hrun|]. split; [exact Hsent|].
  by split.
Qed.

Lemma log_then_analyze_witness :
  OBDDataLogger.connection demo_logger = Some demo_conn /\
  causal demo_conn /\
  0 < 1000000 /\
  (Z.to_nat (2000000 / 1000000 + 1) < 10%nat)%nat /\
  NoDup demo_cmds /\
  (exists csv_file w' analysis n,
    OBDDataLogger.log_to_csv 10%nat demo_logger demo_cmds 2000000 1000000 empty_world = (Some csv_file, w') /\
    sent w' = (sent empty_world + n * length demo_cmds)%nat /\
    OBDDataLogger.analyze_log_file csv_file w' = (Some analysis, w') /\
    (forall h, is_Some (analysis !! h) <-> h ∈ demo_cmds) /\
    forall i c, demo_cmds !! i = Some c ->
      analysis !! c =
      Some (finish (stats_of (omap (fun response => py_float (OBDDataLogger.csv_cell response))
                                   (answers demo_conn demo_cmds (sent empty_world) n i c))))).
Proof.
  assert (H1 : OBDDataLogger.connection demo_logger = Some demo_conn) by (reflexivity).
  assert (H2 : causal demo_conn) by (exact demo_conn_causal).
  assert (H3 : 0 < 1000000) by (lia).
  assert (H4 : (Z.to_nat (2000000 / 1000000 + 1) < 10%nat)%nat) by (vm_compute; lia).
  assert (H5 : NoDup demo_cmds) by (compute_done).
  exact (conj H1 (conj H2 (conj H3 (conj H4 (conj H5 (log_then_analyze (py := CPython.io) demo_logger demo_conn demo_cmds 2000000 1000000 10%nat empty_world H1 H2 H3 H4 H5)))))).
Defined.




(** X3. No time to log. With [duration <= 0] a connected logger sends no
    query and does not sleep: it writes a file that holds the header alone,
    logs that the data are logged and returns the path. The analysis of that
    file has, for each command, the entry with min = inf, max = -inf and no
    average. *)
Theorem log_to_csv_no_time {py : PyFloatIO}
    (self : OBDDataLogger.t) (conn : OBD) (cmds : list Cmd)
    (duration interval : Z) (fuel : nat) (w : World) :
  OBDDataLogger.connection self = Some conn ->
  duration <= 0 ->
  fuel <> 0%nat ->
  exists w' analysis,
    OBDDataLogger.log_to_csv fuel self cmds duration interval w
      = (Some (log_path self w), w') /\
    trace w' = (trace w ++ [Log "INFO" ("Data logged to " ++ log_path self w)])%list /\
    now w' = now w /\
    logs w' = <[log_path self w := {| csv_rows := ["Timestamp" :: cmds]; json_doc := None |}]>
                (logs w) /\
    OBDDataLogger.analyze_log_file (log_path self w) w' = (Some analysis, w') /\
    forall h, analysis !! h =
      if decide (h ∈ cmds)
      then Some {| stat_min := infinity; stat_max := neg_infinity; stat_avg := None |}
      else None.
Proof.
  intros Hconn Hd Hfuel. destruct fuel as [|fuel]; [done|].
  rewrite (log_to_csv_run _ self conn) by done.
  cbn [OBDDataLogger.log_loop]. unfold time_time at 1. unfold mbind at 1, M_bind at 1.
  replace (now (log_start self cmds w) - now w <? duration) with false
    by (symmetry; apply Z.ltb_ge; simpl; lia).
  unfold mret, M_ret. cbv beta iota.
  eexists _, _. split; [reflexivity|]. split; [reflexivity|]. split; [reflexivity|].
  split; [reflexivity|]. split.
  - apply (analyze_log_file_csv (log_path self w)
             {| csv_rows := ["Timestamp" :: cmds]; json_doc := None |}
             ("Timestamp" :: cmds) []).
    + apply log_path_csv.
    + simpl. by rewrite lookup_insert_eq.
    + reflexivity.
  - intros h. simpl. rewrite lookup_fmap, init_params_lookup.
    repeat case_decide; try reflexivity; contradiction.
Qed.

Lemma log_to_csv_no_time_witness :
  OBDDataLogger.connection demo_logger = Some demo_conn /\
  0 <= 0 /\
  10%nat <> 0%nat /\
  (exists w' analysis,
    OBDDataLogger.log_to_csv 10%nat demo_logger demo_cmds 0 1000000 empty_world
      = (Some (log_path demo_logger empty_world), w') /\
    trace w' = (trace empty_world ++ [Log "INFO" ("Data logged to " ++ log_path demo_logger empty_world)])%list /\
    now w' = now empty_world /\
    logs w' = <[log_path demo_logger empty_world := {| csv_rows := ["Timestamp" :: demo_cmds]; json_doc := None |}]>
                (logs empty_world) /\
    OBDDataLogger.analyze_log_file (log_path demo_logger empty_world) w' = (Some analysis, w') /\
    forall h, analysis !! h =
      if decide (h ∈ demo_cmds)
      then Some {| stat_min := infinity; stat_max := neg_infinity; stat_avg := None |}
      else None).
Proof.
  assert (H1 : OBDDataLogger.connection demo_logger = Some demo_conn) by (reflexivity).
  assert (H2 : 0 <= 0) by (lia).
  assert (H3 : 10%nat <> 0%nat) by (discriminate).
  exact (conj H1 (conj H2 (conj H3 (log_to_csv_no_time (py := CPython.io) demo_logger demo_conn demo_cmds 0 1000000 10%nat empty_world H1 H2 H3)))).
Defined.

(** X4. A negative interval. With a positive duration the first tick is
    queried and its row written; then [time.sleep] raises, and [log_to_csv]
    logs the error and returns the empty string. The file stays behind, with
    the header and that one row. *)
Theorem log_to_csv_negative_interval {py : PyFloatIO}
    (self : OBDDataLogger.t) (conn : OBD) (cmds : list Cmd)
    (duration interval : Z) (fuel : nat) (w : World) :
  OBDDataLogger.connection self = Some conn ->
  0 < duration ->
  interval < 0 ->
  fuel <> 0%nat ->
  exists w',
    OBDDataLogger.log_to_csv fuel self cmds duration interval w = (Some "", w') /\
    logs w' !! log_path self w =
      Some {| csv_rows := ["Timestamp" :: cmds; csv_row (tick_record conn cmds w)];
              json_doc := None |} /\
    trace w' = (trace w ++ query_events conn cmds (now w) (sent w) ++
                [Log "ERROR" "Error logging data: sleep length must be non-negative"])%list.
Proof.
  intros Hconn Hd Hneg Hfuel. destruct fuel as [|fuel]; [done|].
  rewrite (log_to_csv_run _ self conn) by done.
  cbn [OBDDataLogger.log_loop]. unfold time_time at 1. unfold mbind at 1, M_bind at 1.
  replace (now (log_start self cmds w) - now w <? duration) with true
    by (symmetry; apply Z.ltb_lt; simpl; lia).
  unfold datetime_now, time_time. run. rewrite query_row_run. simpl.
  unfold OBDDataLogger.writerow, write_logs. run.
  replace (interval <? 0) with true by (symmetry; by apply Z.ltb_lt).
  eexists. split; [reflexivity|]. simpl. split.
  - by rewrite lookup_alter_eq, lookup_insert_eq.
  - by rewrite <- app_assoc.
Qed.

Lemma log_to_csv_negative_interval_witness :
  OBDDataLogger.connection demo_logger = Some demo_conn /\
  0 < 2000000 /\
  (-1) < 0 /\
  10%nat <> 0%nat /\
  (exists w',
    OBDDataLogger.log_to_csv 10%nat demo_logger demo_cmds 2000000 (-1) empty_world = (Some "", w') /\
    logs w' !! log_path demo_logger empty_world =
      Some {| csv_rows := ["Timestamp" :: demo_cmds; csv_row (tick_record demo_conn demo_cmds empty_world)];
              json_doc := None |} /\
    trace w' = (trace empty_world ++ query_events demo_conn demo_cmds (now empty_world) (sent empty_world) ++
                [Log "ERROR" "Error logging data: sleep length must be non-negative"])%list).
Proof.
  assert (H1 : OBDDataLogger.connection demo_logger = Some demo_conn) by (reflexivity).
  assert (H2 : 0 < 2000000) by (lia).
  assert (H3 : (-1) < 0) by (lia).
  assert (H4 : 10%nat <> 0%nat) by (discriminate).
  exact (conj H1 (conj H2 (conj H3 (conj H4 (log_to_csv_negative_interval (py := CPython.io) demo_logger demo_conn demo_cmds 2000000 (-1) 10%nat empty_world H1 H2 H3 H4))))).
Defined.

(** X5. [log_to_csv] writes to its own file only: whatever the arguments, the
    log files under any other path, the reports and the graphs are as they
    were. *)
Theorem log_to_csv_frame {py : PyFloatIO}
    (self : OBDDataLogger.t) (cmds : list Cmd)
    (duration interval : Z) (fuel : nat) (w : World) :
  let w' := (OBDDataLogger.log_to_csv fuel self cmds duration interval w).2 in
  (forall path, path <> log_path self w -> logs w' !! path = logs w !! path) /\
  reports w' = reports w /\
  graphs_dir w' = graphs_dir w.
Proof.
  assert (Hloop : forall fuel conn csv_file start_time w r w',
            OBDDataLogger.log_loop fuel conn csv_file cmds start_time
                                   duration interval w = (r, w') ->
            (forall path, path <> csv_file -> logs w' !! path = logs w !! path) /\
            reports w' = reports w /\ graphs_dir w' = graphs_dir w).
  { clear. intros fuel conn csv_file start_time.
    induction fuel as [|fuel IH]; intros w r w'.
    - intros [= <- <-]. done.
    - cbn [OBDDataLogger.log_loop]. unfold time_time at 1. unfold mbind at 1, M_bind at 1.
      destruct (now w - start_time <? duration); [|by intros [= <- <-]].
      unfold datetime_now, time_time. run. rewrite query_row_run. simpl.
      unfold OBDDataLogger.writerow, write_logs. run.
      destruct (interval <? 0).
      + intros [= <- <-]. simpl. split; [|done]. intros path Hne. by rewrite lookup_alter_ne.
      + unfold time_sleep, time_time, emit, advance. run.
        intros Hrun. destruct (IH _ _ _ Hrun) as (Hl & Hr & Hg).
        simpl in Hl, Hr, Hg. split; [|done].
        intros path Hne. rewrite Hl by done. by rewrite lookup_alter_ne. }
  intros w'. subst w'. unfold OBDDataLogger.log_to_csv.
  destruct (OBDDataLogger.connection self) as [conn|]; [|done].
  unfold datetime_now, time_time, OBDDataLogger.open_w, OBDDataLogger.writerow, write_logs. run.
  fold (log_path self w).
  match goal with
  | |- context [OBDDataLogger.log_loop fuel conn (log_path self w) cmds (now w) duration interval ?w1] =>
      destruct (OBDDataLogger.log_loop fuel conn (log_path self w) cmds (now w) duration
                  interval w1) as [r w2] eqn:Hrun;
      destruct (Hloop _ _ _ _ _ _ _ Hrun) as (Hl & Hr & Hg)
  end.
  simpl in Hl, Hr, Hg.
  assert (Hw2 : (forall path, path <> log_path self w -> logs w2 !! path = logs w !! path)).
  { intros path Hne. rewrite Hl by done. by rewrite lookup_alter_ne, lookup_insert_ne. }
  destruct r as [[|]|]; simpl; done.
Qed.

(** ** The entries of a CSV analysis *)

Section CsvEntries.
Context `{PyFloatIO}.
Import OBDDataLogger.

Lemma csv_row_step_is_Some fieldnames headers params row h :
  is_Some (csv_row_step fieldnames headers params row !! h) <-> is_Some (params !! h).
Proof.
  unfold csv_row_step. revert params.
  induction headers as [|h' hs IH]; intros params; simpl; [done|].
  rewrite IH, csv_cell_step_lookup.
  destruct (decide (h' = h)); [|done]. by rewrite fmap_is_Some.
Qed.

Lemma csv_rows_is_Some fieldnames headers (data : list (list string)) params h :
  is_Some (fold_left (csv_row_step fieldnames headers) data params !! h) <->
  is_Some (params !! h).
Proof.
  revert params. induction data as [|row data IH]; intros params; simpl; [done|].
  by rewrite IH, csv_row_step_is_Some.
Qed.

End CsvEntries.

(** X6. The analysis of a CSV text that has a header row never fails, and its
    entries are the names of the header after the first: the rows below the
    header add no entry and remove none. *)
Theorem csv_analysis_entries {py : PyFloatIO}
    (fieldnames : list string) (data : list (list string)) :
  exists analysis,
    OBDDataLogger.analyze_rows (fieldnames :: data) = Some analysis /\
    forall h, is_Some (analysis !! h) <-> h ∈ tail fieldnames.
Proof.
  eexists. split; [reflexivity|]. intros h.
  rewrite lookup_fmap, fmap_is_Some, csv_rows_is_Some, init_params_lookup.
  destruct (decide (h ∈ tail fieldnames)) as [Hin|Hout].
  - split; [done|]. by eexists.
  - split; [by intros []|done].
Qed.

Section CsvWidth.
Context `{PyFloatIO}.
Import OBDDataLogger.

Lemma zip_take_r {A B} (l : list A) (k : list B) :
  zip l (take (length l) k) = zip l k.
Proof.
  revert k. induction l as [|a l IH]; intros k; [done|].
  destruct k as [|b k]; [done|]. simpl. by rewrite IH.
Qed.

Lemma dict_row_take fieldnames row :
  dict_row fieldnames (take (length fieldnames) row) = dict_row fieldnames row.
Proof.
  unfold dict_row. f_equal.
  destruct (decide (length fieldnames <= length row)%nat) as [Hle|Hgt].
  - rewrite length_take, Nat.min_l by done.
    rewrite Nat.sub_diag. replace (length fieldnames - length row)%nat with 0%nat by lia.
    simpl. rewrite !app_nil_r.
    rewrite <- (zip_take_r fieldnames (map Some row)).
    f_equal. by rewrite <- fmap_take.
  - by rewrite take_ge by lia.
Qed.

Lemma csv_row_step_no_headers fieldnames (data : list (list string)) params :
  fold_left (csv_row_step fieldnames []) data params = params.
Proof. induction data as [|row data IH]; [done|]. apply IH. Qed.

End CsvWidth.

(** X7. Cells beyond the width of the header are not read: cutting every row
    down to the length of the header leaves the analysis as it is. *)
Theorem csv_analysis_ignores_extra_cells {py : PyFloatIO}
    (fieldnames : list string) (data : list (list string)) :
  OBDDataLogger.analyze_rows (fieldnames :: map (take (length fieldnames)) data) =
  OBDDataLogger.analyze_rows (fieldnames :: data).
Proof.
  unfold OBDDataLogger.analyze_rows, OBDDataLogger.accumulate_rows. do 2 f_equal.
  destruct fieldnames as [|f0 fs].
  - simpl. by rewrite !csv_row_step_no_headers.
  - generalize (OBDDataLogger.init_params (tail (f0 :: fs))).
    induction data as [|row data IH]; intros params; [done|].
    simpl map. rewrite !filter_cons.
    destruct row as [|c row].
    + change (take (length (f0 :: fs)) []) with (@nil string).
      destruct (decide (@nil string ≠ [])) as [Hne|_]; [done|]. apply IH.
    + change (take (length (f0 :: fs)) (c :: row)) with (c :: take (length fs) row).
      rewrite decide_True by done. rewrite decide_True by done.
      simpl fold_left. rewrite <- IH. f_equal.
      unfold OBDDataLogger.csv_row_step.
      change (c :: take (length fs) row) with (take (length (f0 :: fs)) (c :: row)).
      by rewrite (dict_row_take (f0 :: fs) (c :: row)).
Qed.

(** X8. Empty logs. For a file whose name ends in .csv: when it holds nothing,
    the analysis fails with one error message; when it holds a header alone,
    the analysis succeeds and every name of the header after the first has
    the entry with min = inf, max = -inf and no average. For a file whose
    name ends in .json and that holds the empty list, the analysis succeeds
    and has no entry. *)
Theorem empty_logs {py : PyFloatIO}
    (csv_file json_file : string) (f : LogFile) (fieldnames : list string) (w : World) :
  endswith csv_file ".csv" = true ->
  logs w !! csv_file = Some f ->
  (csv_rows f = [] ->
     OBDDataLogger.analyze_log_file csv_file w =
       (None, (logging_error "Error analyzing log file" w).2)) /\
  (csv_rows f = [fieldnames] ->
     exists analysis,
       OBDDataLogger.analyze_log_file csv_file w = (Some analysis, w) /\
       forall h, analysis !! h =
         if decide (h ∈ tail fieldnames)
         then Some {| stat_min := infinity; stat_max := neg_infinity; stat_avg := None |}
         else None) /\
  (forall fj, endswith json_file ".csv" = false -> endswith json_file ".json" = true ->
     logs w !! json_file = Some fj -> json_doc fj = Some (JArr []) ->
     OBDDataLogger.analyze_log_file json_file w = (Some ∅, w)).
Proof.
  intros Hcsv Hfile. split; [|split].
  - intros Hrows.
    unfold OBDDataLogger.analyze_log_file, OBDDataLogger._analyze_csv, read_logs,
      mbind, M_bind, mret, M_ret. simpl.
    rewrite bool_decide_false by (by rewrite Hfile).
    by rewrite Hcsv, Hfile, Hrows.
  - intros Hrows. eexists. split.
    + by apply (analyze_log_file_csv csv_file f fieldnames []).
    + intros h. simpl. rewrite lookup_fmap, init_params_lookup.
      repeat case_decide; try reflexivity; contradiction.
  - intros fj Hnotcsv Hjson Hfj Hdoc.
    rewrite (analyze_log_file_json json_file fj (JArr []) w) by done.
    simpl. by rewrite fmap_empty.
Qed.

Lemma empty_logs_witness :
  endswith "logs/empty.csv" ".csv" = true /\
  logs blank_world !! "logs/empty.csv" = Some {| csv_rows := []; json_doc := None |} /\
  ((csv_rows {| csv_rows := []; json_doc := None |} = [] ->
     OBDDataLogger.analyze_log_file "logs/empty.csv" blank_world =
       (None, (logging_error "Error analyzing log file" blank_world).2)) /\
  (csv_rows {| csv_rows := []; json_doc := None |} = [["Timestamp"; "RPM"]] ->
     exists analysis,
       OBDDataLogger.analyze_log_file "logs/empty.csv" blank_world = (Some analysis, blank_world) /\
       forall h, analysis !! h =
         if decide (h ∈ tail ["Timestamp"; "RPM"])
         then Some {| stat_min := infinity; stat_max := neg_infinity; stat_avg := None |}
         else None) /\
  (forall fj, endswith "logs/empty.json" ".csv" = false -> endswith "logs/empty.json" ".json" = true ->
     logs blank_world !! "logs/empty.json" = Some fj -> json_doc fj = Some (JArr []) ->
     OBDDataLogger.analyze_log_file "logs/empty.json" blank_world = (Some ∅, blank_world))).
Proof.
  assert (H1 : endswith "logs/empty.csv" ".csv" = true) by (reflexivity).
  assert (H2 : logs blank_world !! "logs/empty.csv" = Some {| csv_rows := []; json_doc := None |}) by (reflexivity).
  exact (conj H1 (conj H2 (empty_logs (py := CPython.io) "logs/empty.csv" "logs/empty.json" {| csv_rows := []; json_doc := None |} ["Timestamp"; "RPM"] blank_world H1 H2))).
Defined.

(** X9. [analyze_log_file] only reads and logs: the clock, the link, the log
    files, the reports and the graphs are as they were. When it returns an
    analysis the world is unchanged; when it fails, exactly one error
    message has been logged. A path under which there is no file fails with
    "Log file not found", and a path that ends neither in .csv nor in .json
    fails whatever the file holds. *)
Theorem analyze_log_file_frame {py : PyFloatIO} (log_file : string) (w : World) :
  let r := (OBDDataLogger.analyze_log_file log_file w).1 in
  let w' := (OBDDataLogger.analyze_log_file log_file w).2 in
  now w' = now w /\ sent w' = sent w /\ logs w' = logs w /\
  reports w' = reports w /\ graphs_dir w' = graphs_dir w /\
  (r <> None -> w' = w) /\
  (r = None -> exists message, trace w' = (trace w ++ [Log "ERROR" message])%list) /\
  (logs w !! log_file = None ->
     r = None /\
     trace w' = (trace w ++ [Log "ERROR" ("Log file not found: " ++ log_file)])%list) /\
  (endswith log_file ".csv" = false -> endswith log_file ".json" = false -> r = None).
Proof.
  intros r w'. subst r w'.
  unfold OBDDataLogger.analyze_log_file, OBDDataLogger._analyze_csv,
    OBDDataLogger._analyze_json, read_logs, logging_error, emit, mbind, M_bind, mret, M_ret.
  simpl.
  assert (Herr : forall message,
    let w' := {| now := now w; sent := sent w; trace := trace w ++ [Log "ERROR" message];
                 logs := logs w; reports := reports w; graphs_dir := graphs_dir w |} in
    now w' = now w /\ sent w' = sent w /\ logs w' = logs w /\
    reports w' = reports w /\ graphs_dir w' = graphs_dir w /\
    (@None (gmap string Stats) <> None -> w' = w) /\
    (@None (gmap string Stats) = None ->
       exists message', trace w' = (trace w ++ [Log "ERROR" message'])%list)).
  { intros message. simpl. repeat split; try done. by exists message. }
  assert (Hok : forall analysis : gmap string Stats,
    now w = now w /\ sent w = sent w /\ logs w = logs w /\
    reports w = reports w /\ graphs_dir w = graphs_dir w /\
    (Some analysis <> None -> w = w) /\
    (Some analysis = None ->
       exists message', trace w = (trace w ++ [Log "ERROR" message'])%list)).
  { intros analysis. repeat split; done. }
  destruct (logs w !! log_file) as [f|] eqn:Hfile.
  - rewrite bool_decide_false by done.
    destruct (endswith log_file ".csv") eqn:Hcsv.
    + rewrite ?Hfile.
      destruct (OBDDataLogger.analyze_rows (csv_rows f)) as [analysis|]; simpl.
      * destruct (Hok analysis) as (H1 & H2 & H3 & H4 & H5 & H6 & H7).
        repeat split; done.
      * destruct (Herr "Error analyzing log file") as (H1 & H2 & H3 & H4 & H5 & H6 & H7).
        repeat split; done.
    + destruct (endswith log_file ".json") eqn:Hjson.
      * rewrite ?Hfile.
        destruct (match json_doc f with
                  | Some data => OBDDataLogger.analyze_doc data
                  | None => None
                  end) as [analysis|]; simpl.
        -- destruct (Hok analysis) as (H1 & H2 & H3 & H4 & H5 & H6 & H7).
           repeat split; done.
        -- destruct (Herr "Error analyzing log file") as (H1 & H2 & H3 & H4 & H5 & H6 & H7).
           repeat split; done.
      * simpl.
        destruct (Herr "Unsupported file format") as (H1 & H2 & H3 & H4 & H5 & H6 & H7).
        repeat split; done.
  - rewrite bool_decide_true by done. simpl.
    destruct (Herr ("Log file not found: " ++ log_file)) as (H1 & H2 & H3 & H4 & H5 & H6 & H7).
    repeat split; done.
Qed.

(** ** The entries of a JSON analysis *)

Section JsonEntries.
Context `{PyFloatIO}.
Import OBDDataLogger.

Lemma json_value_step_is_Some params k v h :
  is_Some (json_value_step params (k, v) !! h) <-> is_Some (params !! h) \/ k = h.
Proof.
  unfold json_value_step.
  set (params' := match params !! k with
                  | Some _ => params
                  | None => <[k:=new_param]> params
                  end).
  assert (E : is_Some (params' !! h) <-> is_Some (params !! h) \/ k = h).
  { unfold params'. destruct (params !! k) eqn:Ek.
    - split; [by left|]. intros [?| <-]; [done|]. by rewrite Ek.
    - rewrite lookup_insert. destruct (decide (k = h)) as [->|Hne].
      + split; [by right|]. by eexists.
      + split; [by left|]. by intros [?|?]. }
  assert (Ha : forall x, is_Some (alter (add_value x) k params' !! h) <->
                         is_Some (params !! h) \/ k = h).
  { intros x. rewrite lookup_alter. destruct (decide (k = h)) as [->|]; [|done].
    by rewrite fmap_is_Some. }
  destruct v as [|b|x|s|l|l]; try done.
  destruct (py_float s); done.
Qed.

Lemma json_items_is_Some items params h :
  is_Some (fold_left json_value_step items params !! h) <->
  is_Some (params !! h) \/ h ∈ map fst items.
Proof.
  revert params. induction items as [|[k v] items IH]; intros params.
  - simpl. split; [by left|]. intros [?|Hin]; [done|]. by apply elem_of_nil in Hin.
  - change (fold_left json_value_step ((k, v) :: items) params)
      with (fold_left json_value_step items (json_value_step params (k, v))).
    rewrite IH, json_value_step_is_Some. simpl. rewrite elem_of_cons.
    split; [intros [[?|?]|?]|intros [?|[?|?]]]; auto.
Qed.

Lemma json_entries_loop_is_Some l doc params params' h :
  mapM entry_items l = Some doc ->
  json_entries_loop l params = Some params' ->
  is_Some (params' !! h) <-> is_Some (params !! h) \/ h ∈ concat (map (map fst) doc).
Proof.
  revert doc params. induction l as [|entry l IH]; intros doc params Hdoc Hloop.
  - injection Hdoc as <-. injection Hloop as <-. simpl.
    split; [by left|]. intros [?|Hin]; [done|]. by apply elem_of_nil in Hin.
  - rewrite mapM_Some in Hdoc. destruct doc as [|items doc]; [by inversion Hdoc|].
    apply Forall2_cons in Hdoc as [Hitems Hdoc]. rewrite <- mapM_Some in Hdoc.
    simpl in Hloop. rewrite Hitems in Hloop.
    rewrite (IH _ _ Hdoc Hloop), json_items_is_Some. simpl. rewrite elem_of_app.
    split; [intros [[?|?]|?]|intros [?|[?|?]]]; auto.
Qed.

End JsonEntries.



Section JsonSuccess.
Context `{PyFloatIO}.
Import OBDDataLogger.



End JsonSuccess.


(** ** Runs of [log_to_json] *)

Lemma dict_setitem_fresh {A} (d : list (string * A)) k v :
  k ∉ map fst d -> dict_setitem d k v = (d ++ [(k, v)])%list.
Proof.
  induction d as [|[k' v'] d IH]; intros Hk; [done|].
  simpl in Hk. apply not_elem_of_cons in Hk as [Hne Hk]. simpl.
  destruct (String.eqb k' k) eqn:E; [apply String.eqb_eq in E; by subst|].
  by rewrite IH.
Qed.

Lemma json_path_json self w : endswith (json_path self w) ".json" = true.
Proof.
  unfold json_path, path_join.
  rewrite <- !append_assoc. apply endswith_app.
Qed.

Lemma endswith_length s suffix :
  endswith s suffix = true -> (String.length suffix <= String.length s)%nat.
Proof.
  induction s as [|c s IH]; cbn [endswith].
  - rewrite orb_false_r. intros ->%String.eqb_eq. done.
  - intros [->%String.eqb_eq|Hs]%orb_true_iff; [done|]. specialize (IH Hs). simpl. lia.
Qed.

(** A name that ends with ".json" does not end with ".csv". *)
Lemma endswith_json_not_csv s : endswith (s ++ ".json") ".csv" = false.
Proof.
  induction s as [|c s IH]; [reflexivity|].
  change (String c s ++ ".json") with (String c (s ++ ".json")).
  cbn [endswith]. rewrite IH, orb_false_r.
  apply String.eqb_neq. intros E. apply (f_equal String.length) in E.
  simpl in E. rewrite length_append in E. simpl in E. lia.
Qed.

Lemma json_path_not_csv self w : endswith (json_path self w) ".csv" = false.
Proof.
  unfold json_path, path_join.
  rewrite <- !append_assoc. apply endswith_json_not_csv.
Qed.

Section JsonTicks.
Context `{PyFloatIO}.
Import OBDDataLogger.

Lemma query_entry_run conn cmds data w :
  query_entry conn cmds data w =
  (fold_left (fun d s => dict_setitem d s.1 (json_cell s.2))
             (responses conn cmds (sent w)) data,
   {| now := now w + tick_work conn cmds (sent w);
      sent := sent w + length cmds;
      trace := trace w ++ query_events conn cmds (now w) (sent w);
      logs := logs w; reports := reports w; graphs_dir := graphs_dir w |}).
Proof.
  revert data w. induction cmds as [|cmd rest IH]; intros data w; simpl.
  - run. rewrite !app_nil_r, Z.add_0_r, Nat.add_0_r. by destruct w.
  - run. rewrite IH. simpl. f_equal.
    f_equal; [lia|lia|by rewrite <- app_assoc].
Qed.

Lemma entry_data_distinct conn cmds first :
  NoDup cmds ->
  entry_data conn cmds first =
  map (fun s => (s.1, json_cell s.2)) (responses conn cmds first).
Proof.
  intros Hnd. unfold entry_data.
  assert (Hgen : forall l (d : list (string * json)),
            NoDup (map fst d ++ map fst l) ->
            fold_left (fun d s => dict_setitem d s.1 (json_cell s.2)) l d =
            (d ++ map (fun s : string * option Value => (s.1, json_cell s.2)) l)%list).
  { induction l as [|[k v] l IHl]; intros d Hd; simpl.
    - by rewrite app_nil_r.
    - rewrite dict_setitem_fresh.
      + rewrite IHl; [by rewrite <- app_assoc|].
        rewrite map_app. simpl. by rewrite <- app_assoc.
      + simpl in Hd. apply NoDup_app in Hd as (_ & Hd & _).
        intros Hin. apply (Hd k Hin). by left. }
  rewrite Hgen; [done|]. simpl. by rewrite responses_names.
Qed.

Lemma json_loop_S fuel conn cmds start_time duration interval data w :
  0 <= interval ->
  json_loop (S fuel) conn cmds start_time duration interval data w =
  if now w - start_time <? duration
  then json_loop fuel conn cmds start_time duration interval
                 (data ++ [json_entry conn cmds w]) (after_poll conn cmds interval w)
  else (Some (true, data), w).
Proof.
  intros Hpos. cbn [json_loop]. unfold time_time at 1. unfold mbind at 1, M_bind at 1.
  destruct (now w - start_time <? duration); [|done].
  unfold datetime_now, time_time. run. rewrite query_entry_run. simpl.
  destruct (interval <? 0) eqn:E; [lia|].
  unfold time_sleep, time_time, emit, advance. run.
  unfold after_poll, json_entry, entry_data. do 2 f_equal.
  by rewrite <- app_assoc.
Qed.

Lemma poll_clock conn cmds interval n w :
  now (Nat.iter n (after_poll conn cmds interval) w) =
    now w + Z.of_nat n * interval + work_of conn cmds (sent w) n /\
  sent (Nat.iter n (after_poll conn cmds interval) w) = (sent w + n * length cmds)%nat.
Proof.
  revert w. induction n as [|n IH]; intros w.
  - simpl. split; lia.
  - rewrite Nat.iter_succ_r. destruct (IH (after_poll conn cmds interval w)) as [-> ->].
    simpl. split; lia.
Qed.

Lemma poll_frame conn cmds interval n w :
  logs (Nat.iter n (after_poll conn cmds interval) w) = logs w /\
  reports (Nat.iter n (after_poll conn cmds interval) w) = reports w /\
  graphs_dir (Nat.iter n (after_poll conn cmds interval) w) = graphs_dir w.
Proof.
  revert w. induction n as [|n IH]; intros w; [done|].
  rewrite Nat.iter_succ_r. by destruct (IH (after_poll conn cmds interval w)) as (-> & -> & ->).
Qed.

Lemma json_loop_ticks fuel conn cmds start_time duration interval data w data' w' :
  0 <= interval ->
  json_loop fuel conn cmds start_time duration interval data w = (Some (true, data'), w') ->
  exists n,
    w' = Nat.iter n (after_poll conn cmds interval) w /\
    data' = (data ++ map (fun k => json_entry conn cmds
                                     (Nat.iter k (after_poll conn cmds interval) w))
                         (seq 0 n))%list /\
    duration <= now w' - start_time /\
    forall k, (k < n)%nat ->
      now (Nat.iter k (after_poll conn cmds interval) w) - start_time < duration.
Proof.
  intros Hpos. revert data w. induction fuel as [|fuel IH]; intros data w Hrun; [done|].
  rewrite json_loop_S in Hrun by done.
  destruct (now w - start_time <? duration) eqn:E.
  - destruct (IH _ _ Hrun) as (n & -> & -> & Hend & Hticks).
    exists (S n). rewrite Nat.iter_succ_r. split; [done|]. split; [|split; [done|]].
    + rewrite <- app_assoc. f_equal. simpl. f_equal.
      rewrite <- fmap_S_seq, <- list_fmap_compose.
      apply list_fmap_ext. intros _ k _. unfold compose. by rewrite Nat.iter_succ_r.
    + intros [|k] Hk; [simpl; lia|]. rewrite Nat.iter_succ_r. apply Hticks. lia.
  - injection Hrun as <- <-. exists 0%nat. simpl. rewrite app_nil_r.
    split; [done|]. split; [done|]. split; [lia|]. intros k Hk. lia.
Qed.

Lemma json_loop_terminates fuel conn cmds start_time duration interval data w :
  causal conn -> 0 < interval ->
  duration - (now w - start_time) <= Z.of_nat fuel * interval ->
  exists data' w', json_loop (S fuel) conn cmds start_time duration interval data w
                   = (Some (true, data'), w').
Proof.
  intros Hc Hpos. revert data w. induction fuel as [|fuel IH]; intros data w Hfuel.
  - rewrite json_loop_S by lia.
    destruct (now w - start_time <? duration) eqn:E; [lia|]. by eexists _, _.
  - rewrite json_loop_S by lia.
    destruct (now w - start_time <? duration) eqn:E; [|by eexists _, _].
    apply IH. simpl. pose proof (tick_work_nonneg conn cmds (sent w) Hc). lia.
Qed.

End JsonTicks.

Section JsonRun.
Context `{PyFloatIO} `{PyJsonText}.
Import OBDDataLogger.

Lemma log_to_json_run fuel self conn cmds duration interval w :
  connection self = Some conn ->
  log_to_json fuel self cmds duration interval w =
  let (r, w') := json_loop fuel conn cmds (now w) duration interval [] w in
  match r with
  | None => (None, w')
  | Some (true, data) =>
      (Some (json_path self w),
       (logging_info ("Data logged to " ++ json_path self w)
          (set_logs (<[json_path self w :=
                         {| csv_rows := json_text_rows (JArr data);
                            json_doc := Some (JArr data) |}]> (logs w')) w')).2)
  | Some (false, _) =>
      (Some "", (logging_error "Error logging data: sleep length must be non-negative" w').2)
  end.
Proof.
  intros Hconn. unfold log_to_json. rewrite Hconn.
  unfold datetime_now, time_time. run. fold (json_path self w).
  destruct (json_loop fuel conn cmds (now w) duration interval [] w)
    as [[[[|] data]|] w'] eqn:Hloop; done.
Qed.

(** A run of [log_to_json] with a positive interval and enough fuel. *)
Lemma log_to_json_ticks fuel self conn cmds duration interval w :
  connection self = Some conn -> causal conn -> 0 < interval ->
  (Z.to_nat (duration / interval + 1) < fuel)%nat ->
  exists n,
    let w1 := Nat.iter n (after_poll conn cmds interval) w in
    let data := JArr (map (fun k => json_entry conn cmds
                                      (Nat.iter k (after_poll conn cmds interval) w))
                          (seq 0 n)) in
    log_to_json fuel self cmds duration interval w =
      (Some (json_path self w),
       (logging_info ("Data logged to " ++ json_path self w)
          (set_logs (<[json_path self w :=
                         {| csv_rows := json_text_rows data; json_doc := Some data |}]>
                       (logs w1)) w1)).2) /\
    duration <= now w1 - now w /\
    forall k, (k < n)%nat ->
      now (Nat.iter k (after_poll conn cmds interval) w) - now w < duration.
Proof.
  intros Hconn Hc Hpos Hfuel. destruct fuel as [|fuel]; [lia|].
  rewrite (log_to_json_run _ self conn) by done.
  destruct (json_loop_terminates fuel conn cmds (now w) duration interval [] w Hc Hpos)
    as (data & w1 & Hloop).
  { pose proof (fuel_covers duration interval fuel Hpos Hfuel). lia. }
  rewrite Hloop.
  destruct (json_loop_ticks _ _ _ _ _ _ _ _ _ _ (Z.lt_le_incl _ _ Hpos) Hloop)
    as (n & -> & -> & Hend & Hticks).
  exists n. simpl. by repeat split.
Qed.

End JsonRun.

(** ** A JSON log and its analysis *)

Section JsonAnalysis.
Context `{PyFloatIO}.
Import OBDDataLogger.

(** The analysis of a document whose entries all have their items. *)
Lemma analyze_doc_lookup data doc :
  doc_items data = Some doc ->
  exists analysis,
    analyze_doc data = Some analysis /\
    forall h, analysis !! h =
      if decide (h ∈ concat (map (map fst) doc))
      then Some (finish (stats_of (omap json_number (json_column h doc))))
      else None.
Proof.
  intros Hdoc.
  destruct (accumulate_doc_values data doc Hdoc) as (params & Hp & Hvalues).
  unfold analyze_doc. rewrite Hp. eexists. split; [reflexivity|].
  intros h. rewrite lookup_fmap.
  assert (Hdom : is_Some (params !! h) <-> h ∈ concat (map (map fst) doc)).
  { unfold doc_items, accumulate_doc in *.
    destruct (entries data) as [l|]; [|done].
    rewrite (json_entries_loop_is_Some l doc ∅ params h Hdoc Hp), lookup_empty.
    split; [|by right]. intros [[? ?]|?]; done. }
  destruct (decide (h ∈ concat (map (map fst) doc))) as [Hin|Hout].
  - apply Hdom in Hin as [p Hh]. rewrite Hh. simpl. do 2 f_equal.
    rewrite <- (Hvalues h p Hh).
    by apply (accumulate_doc_consistent data params Hp h p).
  - destruct (params !! h) as [p|] eqn:Hh; [|done].
    exfalso. apply Hout, Hdom. by eexists.
Qed.

Lemma entry_items_json_entry conn cmds w :
  entry_items (json_entry conn cmds w) = Some (entry_data conn cmds (sent w)).
Proof.
  unfold entry_items, json_entry, py_dict. simpl. unfold dict_set. simpl.
  by rewrite lookup_insert_eq.
Qed.

Lemma filter_key_fresh {B} (l : list (string * B)) c :
  c ∉ map fst l -> filter (fun item : string * B => item.1 = c) l = [].
Proof.
  induction l as [|[k v] l IH]; intros Hc; [done|].
  simpl in Hc. apply not_elem_of_cons in Hc as [Hne Hc].
  rewrite filter_cons. simpl. rewrite decide_False by done. by apply IH.
Qed.

Lemma filter_key_distinct {B} (l : list (string * B)) i c v :
  NoDup (map fst l) -> l !! i = Some (c, v) ->
  filter (fun item : string * B => item.1 = c) l = [(c, v)].
Proof.
  revert i. induction l as [|[k v'] l IH]; intros i Hnd Hi; [done|].
  simpl in Hnd. apply NoDup_cons in Hnd as [Hfresh Hnd].
  rewrite filter_cons. simpl. destruct i as [|i]; simpl in Hi.
  - injection Hi as -> ->. rewrite decide_True by done. f_equal.
    by apply filter_key_fresh.
  - rewrite decide_False; [by eapply IH|].
    intros ->. apply Hfresh. apply list_elem_of_fmap.
    exists (c, v). split; [done|]. by eapply list_elem_of_lookup_2.
Qed.

Lemma json_values_tick conn cmds first i c :
  NoDup cmds -> cmds !! i = Some c ->
  json_values c (entry_data conn cmds first) = [json_cell (respond conn (first + i) c)].
Proof.
  intros Hnd Hi. rewrite entry_data_distinct by done. unfold json_values.
  rewrite (filter_key_distinct _ i c (json_cell (respond conn (first + i) c))); [done| |].
  - rewrite <- list_fmap_compose.
    replace (map (fst ∘ (fun s : string * option Value => (s.1, json_cell s.2)))
                 (responses conn cmds first))
      with (map fst (responses conn cmds first)); [by rewrite responses_names|].
    by apply map_ext.
  - pose proof (responses_lookup conn cmds first i c Hi) as E.
    unfold Cmd in *. rewrite list_lookup_fmap, E. done.
Qed.

Lemma json_number_cell response : json_number (json_cell response) = read_back response.
Proof. by destruct response. Qed.

Lemma json_column_ticks conn cmds interval n w i c :
  NoDup cmds -> cmds !! i = Some c ->
  omap json_number
       (json_column c (map (fun k => entry_data conn cmds
                              (sent (Nat.iter k (after_poll conn cmds interval) w)))
                           (seq 0 n))) =
  omap read_back (answers conn cmds (sent w) n i c).
Proof.
  intros Hnd Hi. unfold json_column, answers.
  induction (seq 0 n) as [|k l IH]; [done|].
  cbn [map concat]. rewrite omap_app, IH.
  rewrite (json_values_tick conn cmds _ i c Hnd Hi).
  rewrite (proj2 (poll_clock conn cmds interval k w)).
  change (omap ?f (?x :: ?l)) with (match f x with Some b => b :: omap f l | None => omap f l end).
  change (omap ?f [?x]) with (match f x with Some b => [b] | None => [] end).
  rewrite json_number_cell. by destruct (read_back _).
Qed.

Lemma doc_items_ticks conn cmds interval n w :
  doc_items (JArr (map (fun k => json_entry conn cmds
                                   (Nat.iter k (after_poll conn cmds interval) w))
                       (seq 0 n))) =
  Some (map (fun k => entry_data conn cmds
                        (sent (Nat.iter k (after_poll conn cmds interval) w)))
            (seq 0 n)).
Proof.
  unfold doc_items. simpl. apply mapM_Some.
  induction (seq 0 n) as [|k l IH]; [constructor|].
  simpl. constructor; [apply entry_items_json_entry|done].
Qed.

Lemma keys_of_ticks conn cmds interval n w h :
  NoDup cmds -> (0 < n)%nat ->
  h ∈ concat (map (map fst)
                  (map (fun k => entry_data conn cmds
                                   (sent (Nat.iter k (after_poll conn cmds interval) w)))
                       (seq 0 n))) <-> h ∈ cmds.
Proof.
  intros Hnd Hn.
  assert (Hkeys : forall first, map fst (entry_data conn cmds first) = cmds).
  { intros first. rewrite entry_data_distinct by done.
    rewrite <- list_fmap_compose.
    replace (map (fst ∘ (fun s : string * option Value => (s.1, json_cell s.2)))
                 (responses conn cmds first))
      with (map fst (responses conn cmds first)); [by rewrite responses_names|].
    by apply map_ext. }
  rewrite <- list_fmap_compose. destruct n as [|n]; [lia|].
  rewrite <- cons_seq. simpl. rewrite Hkeys, elem_of_app. split; [|by left].
  intros [?|Hin]; [done|].
  induction (seq 1 n) as [|k l IH]; [by apply elem_of_nil in Hin|].
  simpl in Hin. rewrite Hkeys in Hin. apply elem_of_app in Hin as [?|?]; auto.
Qed.

End JsonAnalysis.

(** X12. Logging to JSON and then analysing. Under the hypotheses of X1,
    [log_to_json] returns the path of a file that holds a list with one entry
    per tick; the [k]-th entry carries the time at which its tick begins and,
    for each command, the text of the response or null; the analysis of the
    file succeeds and leaves the world as it is; it has no entry when no tick
    was taken, and otherwise one entry per command and no other, with the
    statistics of the responses to that command read back by [float] from
    their texts. *)
Theorem log_to_json_then_analyze {py : PyFloatIO} {jt : PyJsonText}
    (self : OBDDataLogger.t) (conn : OBD) (cmds : list Cmd)
    (duration interval : Z) (fuel : nat) (w : World) :
  OBDDataLogger.connection self = Some conn ->
  causal conn ->
  0 < interval ->
  (Z.to_nat (duration / interval + 1) < fuel)%nat ->
  NoDup cmds ->
  exists json_file w' entries analysis,
    OBDDataLogger.log_to_json fuel self cmds duration interval w = (Some json_file, w') /\
    json_doc <$> logs w' !! json_file = Some (Some (JArr entries)) /\
    sent w' = (sent w + length entries * length cmds)%nat /\
    (forall k entry, entries !! k = Some entry ->
       entry =
       JObj [("timestamp",
              JStr (isoformat (datetime_of (now w + Z.of_nat k * interval +
                                            work_of conn cmds (sent w) k))));
             ("data",
              JObj (map (fun s => (s.1, OBDDataLogger.json_cell s.2))
                        (responses conn cmds (sent w + k * length cmds))))]) /\
    OBDDataLogger.analyze_log_file json_file w' = (Some analysis, w') /\
    (entries = [] -> analysis = ∅) /\
    (entries <> [] -> forall h, is_Some (analysis !! h) <-> h ∈ cmds) /\
    (entries <> [] -> forall i c, cmds !! i = Some c ->
       analysis !! c =
       Some (finish (stats_of (omap read_back
                                    (answers conn cmds (sent w) (length entries) i c))))).
Proof.
  intros Hconn Hc Hpos Hfuel Hnd.
  destruct (log_to_json_ticks fuel self conn cmds duration interval w Hconn Hc Hpos Hfuel)
    as (n & Hrun & _ & _). cbv zeta in Hrun.
  set (entries := map (fun k => json_entry conn cmds
                                  (Nat.iter k (after_poll conn cmds interval) w))
                      (seq 0 n)) in *.
  assert (Hlen : length entries = n).
  { unfold entries. by rewrite length_map, length_seq. }
  destruct (analyze_doc_lookup (JArr entries) _ (doc_items_ticks conn cmds interval n w))
    as (analysis & Ha & Hlookup).
  match type of Hrun with
  | _ = (_, ?w2) => set (w' := w2) in *
  end.
  exists (json_path self w), w', entries, analysis.
  split; [exact Hrun|]. split; [|split; [|split; [|split; [|split; [|split]]]]].
  - simpl. by rewrite lookup_insert_eq.
  - simpl. rewrite Hlen. apply (poll_clock conn cmds interval n w).
  - intros k entry Hk. unfold entries in Hk.
    rewrite list_lookup_fmap in Hk.
    destruct (seq 0 n !! k) as [k'|] eqn:Hseq; [|done].
    apply lookup_seq in Hseq as [-> _]. injection Hk as <-.
    unfold json_entry. simpl.
    destruct (poll_clock conn cmds interval k w) as [-> ->].
    by rewrite entry_data_distinct.
  - rewrite (analyze_log_file_json (json_path self w)
               {| csv_rows := json_text_rows (JArr entries);
                  json_doc := Some (JArr entries) |} (JArr entries) w').
    + by rewrite Ha.
    + apply json_path_not_csv.
    + apply json_path_json.
    + simpl. by rewrite lookup_insert_eq.
    + done.
  - intros Hnil. apply map_eq. intros h. rewrite Hlookup, lookup_empty.
    assert (Hn : n = 0%nat) by (rewrite <- Hlen, Hnil; done).
    case_decide as Hin; [exfalso|done].
    rewrite Hn in Hin. simpl in Hin. by apply elem_of_nil in Hin.
  - intros Hne h. rewrite Hlookup.
    assert (Hn : (0 < n)%nat) by (destruct n; [by destruct Hne|lia]).
    pose proof (keys_of_ticks conn cmds interval n w h Hnd Hn) as Hkeys.
    case_decide as Hin.
    + split; [by intros _; apply Hkeys|by eexists].
    + split; [by intros []|]. intros Hh. by apply Hkeys in Hh.
  - intros Hne i c Hi. rewrite Hlookup.
    assert (Hn : (0 < n)%nat) by (destruct n; [by destruct Hne|lia]).
    rewrite decide_True.
    + rewrite Hlen. by rewrite (json_column_ticks conn cmds interval n w i c Hnd Hi).
    + apply (keys_of_ticks conn cmds interval n w c Hnd Hn).
      by eapply list_elem_of_lookup_2.
Qed.

Lemma log_to_json_then_analyze_witness :
  OBDDataLogger.connection demo_logger = Some demo_conn /\
  causal demo_conn /\
  0 < 1000000 /\
  (Z.to_nat (2000000 / 1000000 + 1) < 10%nat)%nat /\
  NoDup demo_cmds /\
  (exists json_file w' entries analysis,
    OBDDataLogger.log_to_json 10%nat demo_logger demo_cmds 2000000 1000000 empty_world = (Some json_file, w') /\
    json_doc <$> logs w' !! json_file = Some (Some (JArr entries)) /\
    sent w' = (sent empty_world + length entries * length demo_cmds)%nat /\
    (forall k entry, entries !! k = Some entry ->
       entry =
       JObj [("timestamp",
              JStr (isoformat (datetime_of (now empty_world + Z.of_nat k * 1000000 +
                                            work_of demo_conn demo_cmds (sent empty_world) k))));
             ("data",
              JObj (map (fun s => (s.1, OBDDataLogger.json_cell s.2))
                        (responses demo_conn demo_cmds (sent empty_world + k * length demo_cmds))))]) /\
    OBDDataLogger.analyze_log_file json_file w' = (Some analysis, w') /\
    (entries = [] -> analysis = ∅) /\
    (entries <> [] -> forall h, is_Some (analysis !! h) <-> h ∈ demo_cmds) /\
    (entries <> [] -> forall i c, demo_cmds !! i = Some c ->
       analysis !! c =
       Some (finish (stats_of (omap read_back
                                    (answers demo_conn demo_cmds (sent empty_world) (length entries) i c)))))).
Proof.
  assert (H1 : OBDDataLogger.connection demo_logger = Some demo_conn) by (reflexivity).
  assert (H2 : causal demo_conn) by (exact demo_conn_causal).
  assert (H3 : 0 < 1000000) by (lia).
  assert (H4 : (Z.to_nat (2000000 / 1000000 + 1) < 10%nat)%nat) by (vm_compute; lia).
  assert (H5 : NoDup demo_cmds) by (compute_done).
  exact (conj H1 (conj H2 (conj H3 (conj H4 (conj H5 (log_to_json_then_analyze (py := CPython.io) (jt := CPythonJson.text) demo_logger demo_conn demo_cmds 2000000 1000000 10%nat empty_world H1 H2 H3 H4 H5)))))).
Defined.

(** X13. The edges of [log_to_json] on a connected logger. With [duration <= 0]
    it writes the empty list, whose analysis succeeds and has no entry. With
    a positive duration and a negative interval it queries one tick, then
    [time.sleep] raises: the error is logged, the empty string is returned
    and no file is written, so that the entry taken is lost. *)
Theorem log_to_json_edges {py : PyFloatIO} {jt : PyJsonText}
    (self : OBDDataLogger.t) (conn : OBD) (cmds : list Cmd)
    (duration interval : Z) (fuel : nat) (w : World) :
  OBDDataLogger.connection self = Some conn ->
  fuel <> 0%nat ->
  (duration <= 0 ->
     exists w',
       OBDDataLogger.log_to_json fuel self cmds duration interval w
         = (Some (json_path self w), w') /\
       logs w' = <[json_path self w := {| csv_rows := json_text_rows (JArr []);
                                          json_doc := Some (JArr []) |}]> (logs w) /\
       trace w' = (trace w ++ [Log "INFO" ("Data logged to " ++ json_path self w)])%list /\
       OBDDataLogger.analyze_log_file (json_path self w) w' = (Some ∅, w')) /\
  (0 < duration -> interval < 0 ->
     exists w',
       OBDDataLogger.log_to_json fuel self cmds duration interval w = (Some "", w') /\
       logs w' = logs w /\
       trace w' = (trace w ++ query_events conn cmds (now w) (sent w) ++
                   [Log "ERROR" "Error logging data: sleep length must be non-negative"])%list).
Proof.
  intros Hconn Hfuel. destruct fuel as [|fuel]; [done|]. split.
  - intros Hd. rewrite (log_to_json_run _ self conn) by done.
    cbn [OBDDataLogger.json_loop]. unfold time_time at 1. unfold mbind at 1, M_bind at 1.
    replace (now w - now w <? duration) with false by (symmetry; apply Z.ltb_ge; lia).
    unfold mret, M_ret. cbv beta iota.
    eexists. split; [reflexivity|]. split; [reflexivity|]. split; [reflexivity|].
    rewrite (analyze_log_file_json (json_path self w)
               {| csv_rows := json_text_rows (JArr []); json_doc := Some (JArr []) |}
               (JArr [])).
    + simpl. by rewrite fmap_empty.
    + apply json_path_not_csv.
    + apply json_path_json.
    + simpl. by rewrite lookup_insert_eq.
    + done.
  - intros Hd Hneg. rewrite (log_to_json_run _ self conn) by done.
    cbn [OBDDataLogger.json_loop]. unfold time_time at 1. unfold mbind at 1, M_bind at 1.
    replace (now w - now w <? duration) with true by (symmetry; apply Z.ltb_lt; lia).
    unfold datetime_now, time_time. run. rewrite query_entry_run. simpl.
    replace (interval <? 0) with true by (symmetry; by apply Z.ltb_lt).
    eexists. split; [reflexivity|]. simpl. split; [done|]. by rewrite <- app_assoc.
Qed.

Lemma log_to_json_edges_witness :
  OBDDataLogger.connection demo_logger = Some demo_conn /\
  10%nat <> 0%nat /\
  ((0 <= 0 ->
     exists w',
       OBDDataLogger.log_to_json 10%nat demo_logger demo_cmds 0 1000000 empty_world
         = (Some (json_path demo_logger empty_world), w') /\
       logs w' = <[json_path demo_logger empty_world := {| csv_rows := json_text_rows (JArr []);
                                          json_doc := Some (JArr []) |}]> (logs empty_world) /\
       trace w' = (trace empty_world ++ [Log "INFO" ("Data logged to " ++ json_path demo_logger empty_world)])%list /\
       OBDDataLogger.analyze_log_file (json_path demo_logger empty_world) w' = (Some ∅, w')) /\
  (0 < 0 -> 1000000 < 0 ->
     exists w',
       OBDDataLogger.log_to_json 10%nat demo_logger demo_cmds 0 1000000 empty_world = (Some "", w') /\
       logs w' = logs empty_world /\
       trace w' = (trace empty_world ++ query_events demo_conn demo_cmds (now empty_world) (sent empty_world) ++
                   [Log "ERROR" "Error logging data: sleep length must be non-negative"])%list)).
Proof.
  assert (H1 : OBDDataLogger.connection demo_logger = Some demo_conn) by (reflexivity).
  assert (H2 : 10%nat <> 0%nat) by (discriminate).
  exact (conj H1 (conj H2 (log_to_json_edges (py := CPython.io) (jt := CPythonJson.text) demo_logger demo_conn demo_cmds 0 1000000 10%nat empty_world H1 H2))).
Defined.

(** X14. The two formats agree. From the same world and with the same
    arguments, when the duration is positive and [float] does not read
    "NULL" as a number, [log_to_csv] and [log_to_json] end at the same time
    after the same number of queries, and the analyses of their two files
    are equal. *)
Theorem csv_and_json_agree {py : PyFloatIO} {jt : PyJsonText}
    (self : OBDDataLogger.t) (conn : OBD) (cmds : list Cmd)
    (duration interval : Z) (fuel : nat) (w : World) :
  OBDDataLogger.connection self = Some conn ->
  causal conn ->
  0 < interval ->
  (Z.to_nat (duration / interval + 1) < fuel)%nat ->
  NoDup cmds ->
  0 < duration ->
  py_float "NULL" = None ->
  exists csv_file wc json_file wj analysis,
    OBDDataLogger.log_to_csv fuel self cmds duration interval w = (Some csv_file, wc) /\
    OBDDataLogger.log_to_json fuel self cmds duration interval w = (Some json_file, wj) /\
    now wc = now wj /\ sent wc = sent wj /\
    OBDDataLogger.analyze_log_file csv_file wc = (Some analysis, wc) /\
    OBDDataLogger.analyze_log_file json_file wj = (Some analysis, wj).
Proof.
  intros Hconn Hc Hpos Hfuel Hnd Hd Hnull.
  (* the CSV run *)
  destruct (log_to_csv_ticks fuel self conn cmds duration interval w Hconn Hc Hpos Hfuel)
    as (n & Hrun & Hend & Hticks). cbv zeta in Hrun, Hend.
  destruct (iter_file conn (log_path self w) cmds interval n (log_start self cmds w)
              ["Timestamp" :: cmds] None) as (records & Hlogs & Hlen & Hwf & Hsamples).
  { unfold log_start, set_logs. simpl. by rewrite lookup_insert_eq. }
  simpl in Hsamples.
  pose proof (fun k => iter_clock conn (log_path self w) cmds interval k
                         (log_start self cmds w)) as Hclock. simpl in Hclock.
  (* the JSON run *)
  destruct (log_to_json_ticks fuel self conn cmds duration interval w Hconn Hc Hpos Hfuel)
    as (m & Hrunj & Hendj & Hticksj). cbv zeta in Hrunj, Hendj.
  pose proof (fun k => poll_clock conn cmds interval k w) as Hpoll.
  (* both loops run the same number of ticks *)
  assert (Hnm : n = m).
  { destruct (Nat.lt_trichotomy n m) as [Hlt|[?|Hlt]]; [|done|].
    - specialize (Hticksj n Hlt). rewrite (proj1 (Hpoll n)) in Hticksj.
      rewrite (proj1 (Hclock n)) in Hend. lia.
    - specialize (Hticks m Hlt). rewrite (proj1 (Hclock m)) in Hticks.
      rewrite (proj1 (Hpoll m)) in Hendj. lia. }
  subst m.
  assert (Hn : (0 < n)%nat).
  { destruct n; [|lia]. simpl in Hend. lia. }
  match type of Hrun with _ = (_, ?w2) => set (wc := w2) in * end.
  match type of Hrunj with _ = (_, ?w2) => set (wj := w2) in * end.
  set (entries := map (fun k => json_entry conn cmds
                                  (Nat.iter k (after_poll conn cmds interval) w))
                      (seq 0 n)) in *.
  (* the two analyses *)
  pose proof (analyze_log_file_csv (log_path self w) _ ("Timestamp" :: cmds)
                (map csv_row records) wc (log_path_csv self w) Hlogs eq_refl) as Ha.
  unfold OBDDataLogger.analyze_rows in Ha.
  destruct (OBDDataLogger.accumulate_rows (("Timestamp" :: cmds) :: map csv_row records))
    as [params|] eqn:Hacc; [|done].
  destruct (analyze_doc_lookup (JArr entries) _ (doc_items_ticks conn cmds interval n w))
    as (analysis & Hdoc & Hlookup).
  assert (Haj : OBDDataLogger.analyze_log_file (json_path self w) wj = (Some analysis, wj)).
  { rewrite (analyze_log_file_json (json_path self w)
               {| csv_rows := json_text_rows (JArr entries);
                  json_doc := Some (JArr entries) |} (JArr entries) wj).
    - by rewrite Hdoc.
    - apply json_path_not_csv.
    - apply json_path_json.
    - simpl. by rewrite lookup_insert_eq.
    - done. }
  assert (Heq : finish <$> params = analysis).
  { apply map_eq. intros h. rewrite Hlookup, lookup_fmap.
    pose proof (keys_of_ticks conn cmds interval n w h Hnd Hn) as Hkeys.
    case_decide as Hin.
    - apply Hkeys in Hin. pose proof Hin as Hin'.
      apply list_elem_of_lookup in Hin' as [i Hi].
      destruct (accumulate_rows_lookup ("Timestamp" :: cmds) (map csv_row records) h Hnd Hin)
        as (params' & Hacc' & Hp).
      rewrite Hacc in Hacc'. injection Hacc' as <-. rewrite Hp. simpl. do 3 f_equal.
      rewrite (observed_ticks conn cmds (sent w) records i h Hnd Hi Hwf Hsamples), Hlen.
      rewrite (json_column_ticks conn cmds interval n w i h Hnd Hi).
      generalize (answers conn cmds (sent w) n i h). intros l.
      induction l as [|r l IH]; [done|].
      change (omap ?f (?x :: ?l))
        with (match f x with Some b => b :: omap f l | None => omap f l end).
      rewrite IH. destruct r as [v|]; simpl; [done|]. by rewrite Hnull.
    - rewrite (accumulate_rows_dom ("Timestamp" :: cmds) (map csv_row records) params h Hacc);
        [done|]. simpl. intros Hh. by apply Hin, Hkeys. }
  exists (log_path self w), wc, (json_path self w), wj, analysis.
  split; [exact Hrun|]. split; [exact Hrunj|].
  split; [simpl; rewrite (proj1 (Hclock n)), (proj1 (Hpoll n)); done|].
  split; [simpl; rewrite (proj2 (Hclock n)), (proj2 (Hpoll n)); done|].
  split; [by rewrite <- Heq|exact Haj].
Qed.

Lemma csv_and_json_agree_witness :
  OBDDataLogger.connection demo_logger = Some demo_conn /\
  causal demo_conn /\
  0 < 1000000 /\
  (Z.to_nat (2000000 / 1000000 + 1) < 10%nat)%nat /\
  NoDup demo_cmds /\
  0 < 2000000 /\
  py_float "NULL" = None /\
  (exists csv_file wc json_file wj analysis,
    OBDDataLogger.log_to_csv 10%nat demo_logger demo_cmds 2000000 1000000 empty_world = (Some csv_file, wc) /\
    OBDDataLogger.log_to_json 10%nat demo_logger demo_cmds 2000000 1000000 empty_world = (Some json_file, wj) /\
    now wc = now wj /\ sent wc = sent wj /\
    OBDDataLogger.analyze_log_file csv_file wc = (Some analysis, wc) /\
    OBDDataLogger.analyze_log_file json_file wj = (Some analysis, wj)).
Proof.
  assert (H1 : OBDDataLogger.connection demo_logger = Some demo_conn) by (reflexivity).
  assert (H2 : causal demo_conn) by (exact demo_conn_causal).
  assert (H3 : 0 < 1000000) by (lia).
  assert (H4 : (Z.to_nat (2000000 / 1000000 + 1) < 10%nat)%nat) by (vm_compute; lia).
  assert (H5 : NoDup demo_cmds) by (compute_done).
  assert (H6 : 0 < 2000000) by (lia).
  assert (H7 : py_float "NULL" = None) by (reflexivity).
  exact (conj H1 (conj H2 (conj H3 (conj H4 (conj H5 (conj H6 (conj H7 (csv_and_json_agree (py := CPython.io) (jt := CPythonJson.text) demo_logger demo_conn demo_cmds 2000000 1000000 10%nat empty_world H1 H2 H3 H4 H5 H6 H7)))))))).
Defined.

(** ** The lists of [monitor_live_data] *)

Section ToolTicks.
Import OBDDiagnosticTool.

Lemma live_asked_cons self key command rest :
  live_asked self ((key, command) :: rest) =
  if bool_decide (command ∈ supported_commands self)
  then (key, command) :: live_asked self rest else live_asked self rest.
Proof.
  unfold live_asked. rewrite filter_cons. simpl.
  destruct (decide (command ∈ supported_commands self)) as [Hin|Hout].
  - by rewrite bool_decide_true.
  - by rewrite bool_decide_false.
Qed.

(** A tick of [monitor_live_data]: the world after its queries, and the
    lists after its appends. *)
Lemma live_tick_lookup self conn cmds data w :
  (live_tick self conn cmds data w).2 =
    {| now := now w + tick_work conn (map snd (live_asked self cmds)) (sent w);
       sent := sent w + length (live_asked self cmds);
       trace := trace w ++ query_events conn (map snd (live_asked self cmds)) (now w) (sent w);
       logs := logs w; reports := reports w; graphs_dir := graphs_dir w |} /\
  forall key,
    (live_tick self conn cmds data w).1 !! key =
    (fun l => l ++ tick_values conn (live_asked self cmds) (sent w) key)%list <$> data !! key.
Proof.
  revert data w. induction cmds as [|[k command] rest IH]; intros data w.
  - simpl. split.
    + rewrite Z.add_0_r, Nat.add_0_r, app_nil_r. by destruct w.
    + intros key. destruct (data !! key); simpl; [by rewrite app_nil_r|done].
  - cbn [live_tick]. rewrite live_asked_cons.
    destruct (bool_decide (command ∈ supported_commands self)); [|apply IH].
    unfold mbind, M_bind, query. cbn [map length tick_work query_events tick_values].
    destruct (respond conn (sent w) command) as [value|] eqn:Hr;
      match goal with
      | |- context [live_tick self conn rest ?d ?w1] =>
          destruct (IH d w1) as [Hw Hd]
      end; rewrite Hw; cbn [now sent trace logs reports graphs_dir snd fst];
      (split; [f_equal; [lia|lia|by rewrite <- app_assoc]|]);
      intros key; rewrite Hd; cbn [now sent trace logs reports graphs_dir snd fst].
    + rewrite lookup_alter. destruct (decide (k = key)) as [->|Hne].
      * destruct (data !! key); simpl; [by rewrite <- app_assoc|done].
      * done.
    + by destruct (decide (k = key)).
Qed.

Lemma live_loop_step fuel self conn start_time duration data w :
  live_loop (S fuel) self conn start_time duration data w =
  if now w - start_time <? duration then
    live_loop fuel self conn start_time duration
              (live_tick self conn live_commands data w).1
              (after_poll conn (map snd (live_asked self live_commands)) 500000 w)
  else (Some data, w).
Proof.
  rewrite live_loop_S. destruct (now w - start_time <? duration); [|done].
  destruct (live_tick_lookup self conn live_commands data w) as [Hw _].
  destruct (live_tick self conn live_commands data w) as [data' w1].
  simpl in *. rewrite Hw. f_equal. unfold asleep, after_poll. simpl.
  rewrite length_map. f_equal. by rewrite <- app_assoc.
Qed.

Lemma live_loop_lists fuel self conn start_time duration data w data' w' :
  live_loop fuel self conn start_time duration data w = (Some data', w') ->
  exists n,
    w' = Nat.iter n (after_poll conn (map snd (live_asked self live_commands)) 500000) w /\
    duration <= now w' - start_time /\
    (forall k, (k < n)%nat ->
       now (Nat.iter k (after_poll conn (map snd (live_asked self live_commands)) 500000) w)
       - start_time < duration) /\
    forall key,
      data' !! key =
      (fun l => l ++ concat (map (fun k => tick_values conn (live_asked self live_commands)
                                   (sent w + k * length (live_asked self live_commands)) key)
                                 (seq 0 n)))%list <$> data !! key.
Proof.
  revert data w. induction fuel as [|fuel IH]; intros data w Hrun; [done|].
  rewrite live_loop_step in Hrun.
  destruct (now w - start_time <? duration) eqn:E.
  - destruct (IH _ _ Hrun) as (n & -> & Hend & Hticks & Hdata).
    exists (S n). rewrite Nat.iter_succ_r. split; [done|]. split; [done|]. split.
    + intros [|k] Hk; [simpl; lia|]. rewrite Nat.iter_succ_r. apply Hticks. lia.
    + intros key. rewrite Hdata.
      rewrite (proj2 (live_tick_lookup self conn live_commands data w) key).
      destruct (data !! key) as [l|]; simpl; [|done]. f_equal.
      rewrite <- app_assoc. f_equal. rewrite Nat.add_0_r. f_equal.
      rewrite <- fmap_S_seq. rewrite <- list_fmap_compose. f_equal.
      apply list_fmap_ext. intros _ k _. unfold compose. simpl. rewrite length_map.
      f_equal. lia.
  - injection Hrun as <- <-. exists 0%nat. simpl. split; [done|]. split; [lia|].
    split; [intros k Hk; lia|]. intros key.
    destruct (data !! key); simpl; [by rewrite app_nil_r|done].
Qed.

Lemma live_loop_terminates fuel self conn start_time duration data w :
  causal conn ->
  duration - (now w - start_time) <= Z.of_nat fuel * 500000 ->
  exists data' w', live_loop (S fuel) self conn start_time duration data w = (Some data', w').
Proof.
  intros Hc. revert data w. induction fuel as [|fuel IH]; intros data w Hfuel.
  - rewrite live_loop_step.
    destruct (now w - start_time <? duration) eqn:E; [lia|]. by eexists _, _.
  - rewrite live_loop_step.
    destruct (now w - start_time <? duration) eqn:E; [|by eexists _, _].
    apply IH. simpl.
    pose proof (tick_work_nonneg conn (map snd (live_asked self live_commands)) (sent w) Hc).
    lia.
Qed.

Lemma tick_values_fresh conn qs first key :
  key ∉ map fst qs -> tick_values conn qs first key = [].
Proof.
  revert first. induction qs as [|[k c] qs IH]; intros first Hk; [done|].
  simpl in Hk. apply not_elem_of_cons in Hk as [Hne Hk]. simpl.
  rewrite decide_False by done. by apply IH.
Qed.

Lemma tick_values_nth conn qs first j key command :
  NoDup (map fst qs) -> qs !! j = Some (key, command) ->
  tick_values conn qs first key = option_list (respond conn (first + j) command).
Proof.
  revert first j. induction qs as [|[k c] qs IH]; intros first j Hnd Hj; [done|].
  simpl in Hnd. apply NoDup_cons in Hnd as [Hfresh Hnd]. simpl.
  destruct j as [|j]; simpl in Hj.
  - injection Hj as -> ->. rewrite decide_True by done.
    rewrite tick_values_fresh by done. by rewrite app_nil_r, Nat.add_0_r.
  - rewrite decide_False.
    + simpl. rewrite (IH (S first) j) by done. do 2 f_equal. lia.
    + intros ->. apply Hfresh. apply list_elem_of_fmap.
      exists (key, command). split; [done|]. by eapply list_elem_of_lookup_2.
Qed.

Lemma live_asked_keys self cmds :
  NoDup (map fst cmds) -> NoDup (map fst (live_asked self cmds)).
Proof.
  induction cmds as [|[k c] cmds IH]; intros Hnd; [constructor|].
  simpl in Hnd. apply NoDup_cons in Hnd as [Hfresh Hnd].
  rewrite live_asked_cons. destruct (bool_decide _); [|by apply IH].
  simpl. apply NoDup_cons. split; [|by apply IH].
  intros Hin. apply Hfresh. unfold live_asked in Hin.
  apply list_elem_of_fmap in Hin as ([k' c'] & -> & Hin).
  apply list_elem_of_filter in Hin as [_ Hin].
  apply list_elem_of_fmap. by exists (k', c').
Qed.

End ToolTicks.

Lemma live_data_lookup key :
  OBDDiagnosticTool.live_data !! key =
  if decide (key ∈ map fst OBDDiagnosticTool.live_commands) then Some [] else None.
Proof.
  destruct (decide (key ∈ map fst OBDDiagnosticTool.live_commands)) as [Hin|Hout].
  - simpl in Hin.
    repeat (apply elem_of_cons in Hin as [->|Hin]; [reflexivity|]).
    by apply elem_of_nil in Hin.
  - simpl in Hout. rewrite !not_elem_of_cons in Hout.
    destruct Hout as (H1 & H2 & H3 & H4 & _).
    unfold OBDDiagnosticTool.live_data, py_dict, dict_set. simpl.
    by rewrite !lookup_insert_ne, lookup_empty.
Qed.

Lemma concat_option_list {A} (l : list (option A)) :
  concat (map option_list l) = omap id l.
Proof.
  induction l as [|x l IH]; [done|].
  change (omap id (x :: l)) with (match id x with Some b => b :: omap id l | None => omap id l end).
  simpl. rewrite IH. by destruct x.
Qed.

(** X15. The lists of [monitor_live_data]. On a connected tool the result has
    the four keys and no other; the list of a key whose command is not
    supported is empty; the list of a key whose command is supported holds,
    in the order of the ticks, the values of its responses that are not
    null. Every tick queries the supported commands only and then sleeps half
    a second; the run lasts at least [duration], and every tick starts before
    [duration] has gone by. *)
Theorem monitor_live_data_lists
    (tool : OBDDiagnosticTool.t) (conn : OBD) (duration : Z) (fuel : nat) (w : World) :
  OBDDiagnosticTool.connection tool = Some conn ->
  causal conn ->
  (Z.to_nat (duration / 500000 + 1) < fuel)%nat ->
  let qs := live_asked tool OBDDiagnosticTool.live_commands in
  exists data w' n,
    OBDDiagnosticTool.monitor_live_data fuel tool duration w = (Some data, w') /\
    (forall key, is_Some (data !! key) <-> key ∈ map fst OBDDiagnosticTool.live_commands) /\
    (forall key command, (key, command) ∈ OBDDiagnosticTool.live_commands ->
       command ∉ OBDDiagnosticTool.supported_commands tool -> data !! key = Some []) /\
    (forall j key command, qs !! j = Some (key, command) ->
       data !! key = Some (present (answers conn (map snd qs) (sent w) n j command))) /\
    sent w' = (sent w + n * length qs)%nat /\
    now w' - now w = Z.of_nat n * 500000 + work_of conn (map snd qs) (sent w) n /\
    duration <= now w' - now w /\
    (forall k, (k < n)%nat ->
       Z.of_nat k * 500000 + work_of conn (map snd qs) (sent w) k < duration).
Proof.
  intros Hconn Hc Hfuel qs. destruct fuel as [|fuel]; [lia|].
  unfold OBDDiagnosticTool.monitor_live_data. rewrite Hconn.
  unfold time_time at 1. unfold mbind, M_bind.
  destruct (live_loop_terminates fuel tool conn (now w) duration
              OBDDiagnosticTool.live_data w Hc) as (data & w' & Hrun).
  { pose proof (fuel_covers duration 500000 fuel ltac:(lia) Hfuel). lia. }
  rewrite Hrun.
  destruct (live_loop_lists _ _ _ _ _ _ _ _ _ Hrun) as (n & -> & Hend & Hticks & Hdata).
  fold qs in Hend, Hticks, Hdata |- *.
  pose proof (fun k => poll_clock conn (map snd qs) 500000 k w) as Hclock.
  assert (Hkeys : NoDup (map fst OBDDiagnosticTool.live_commands)) by compute_done.
  assert (Hqs : NoDup (map fst qs)) by (by apply live_asked_keys).
  exists data, (Nat.iter n (after_poll conn (map snd qs) 500000) w), n.
  split; [done|]. split; [|split; [|split; [|split; [|split; [|split]]]]].
  - intros key. rewrite Hdata, fmap_is_Some, live_data_lookup.
    case_decide; [split; [done|by eexists]|split; [by intros []|done]].
  - intros key command Hin Hunsupported. rewrite Hdata, live_data_lookup.
    rewrite decide_True by (apply list_elem_of_fmap; by exists (key, command)).
    simpl. f_equal.
    assert (Hfresh : key ∉ map fst qs).
    { intros Hk. apply list_elem_of_fmap in Hk as ([k' c'] & -> & Hk).
      apply list_elem_of_filter in Hk as [Hsup Hk]. simpl in *.
      assert (c' = command); [|by subst].
      apply list_elem_of_lookup in Hin as [i Hi]. apply list_elem_of_lookup in Hk as [i' Hi'].
      assert (i = i').
      { pose proof (list_lookup_fmap fst OBDDiagnosticTool.live_commands i) as E.
        pose proof (list_lookup_fmap fst OBDDiagnosticTool.live_commands i') as E'.
        rewrite Hi in E. rewrite Hi' in E'.
        exact (NoDup_lookup _ _ _ k' Hkeys E E'). }
      subst i'. rewrite Hi in Hi'. by injection Hi' as ->. }
    assert (Hnil : forall l : list nat,
              concat (map (fun k => tick_values conn qs (sent w + k * length qs) key) l) = []).
    { induction l as [|k l IH]; [done|]. simpl. by rewrite tick_values_fresh. }
    by rewrite Hnil.
  - intros j key command Hj. rewrite Hdata, live_data_lookup.
    rewrite decide_True.
    + simpl. f_equal. unfold present, answers. rewrite <- concat_option_list, map_map.
      f_equal. apply map_ext. intros k. rewrite length_map.
      apply (tick_values_nth conn qs _ j key command Hqs Hj).
    + apply list_elem_of_lookup_2 in Hj. apply list_elem_of_filter in Hj as [_ Hj].
      apply list_elem_of_fmap. by exists (key, command).
  - rewrite (proj2 (Hclock n)). by rewrite length_map.
  - rewrite (proj1 (Hclock n)). lia.
  - lia.
  - intros k Hk. specialize (Hticks k Hk). rewrite (proj1 (Hclock k)) in Hticks. lia.
Qed.

Lemma monitor_live_data_lists_witness :
  OBDDiagnosticTool.connection demo_tool = Some demo_conn /\
  causal demo_conn /\
  (Z.to_nat (1000000 / 500000 + 1) < 10%nat)%nat /\
  (let qs := live_asked demo_tool OBDDiagnosticTool.live_commands in
  exists data w' n,
    OBDDiagnosticTool.monitor_live_data 10%nat demo_tool 1000000 empty_world = (Some data, w') /\
    (forall key, is_Some (data !! key) <-> key ∈ map fst OBDDiagnosticTool.live_commands) /\
    (forall key command, (key, command) ∈ OBDDiagnosticTool.live_commands ->
       command ∉ OBDDiagnosticTool.supported_commands demo_tool -> data !! key = Some []) /\
    (forall j key command, qs !! j = Some (key, command) ->
       data !! key = Some (present (answers demo_conn (map snd qs) (sent empty_world) n j command))) /\
    sent w' = (sent empty_world + n * length qs)%nat /\
    now w' - now empty_world = Z.of_nat n * 500000 + work_of demo_conn (map snd qs) (sent empty_world) n /\
    1000000 <= now w' - now empty_world /\
    (forall k, (k < n)%nat ->
       Z.of_nat k * 500000 + work_of demo_conn (map snd qs) (sent empty_world) k < 1000000)).
Proof.
  assert (H1 : OBDDiagnosticTool.connection demo_tool = Some demo_conn) by (reflexivity).
  assert (H2 : causal demo_conn) by (exact demo_conn_causal).
  assert (H3 : (Z.to_nat (1000000 / 500000 + 1) < 10%nat)%nat) by (vm_compute; lia).
  exact (conj H1 (conj H2 (conj H3 (monitor_live_data_lists  demo_tool demo_conn 1000000 10%nat empty_world H1 H2 H3)))).
Defined.

(** ** Readings, key by key *)


Lemma query_events_app conn a b t n :
  query_events conn (a ++ b) t n =
  (query_events conn a t n ++
   query_events conn b (t + tick_work conn a n) (n + length a))%list.
Proof.
  revert t n. induction a as [|c a IH]; intros t n; simpl.
  - by rewrite Z.add_0_r, Nat.add_0_r.
  - rewrite IH. replace (S n + length a)%nat with (n + S (length a))%nat by lia. by rewrite Z.add_assoc.
Qed.

Section QueryAll.
Context `{PyFloatIO}.
Import DiagnosticReportGenerator.

(** The loop that queries every command: the world after it, and the dict
    that it returns. *)
Lemma query_all_lookup conn cmds info w :
  NoDup (map snd cmds) ->
  (query_all conn cmds info w).2 =
    {| now := now w + tick_work conn (map fst cmds) (sent w);
       sent := sent w + length cmds;
       trace := trace w ++ query_events conn (map fst cmds) (now w) (sent w);
       logs := logs w; reports := reports w; graphs_dir := graphs_dir w |} /\
  (forall key, key ∉ map snd cmds -> (query_all conn cmds info w).1 !! key = info !! key) /\
  (forall i command key, cmds !! i = Some (command, key) ->
     (query_all conn cmds info w).1 !! key =
     match respond conn (sent w + i) command with
     | Some value => Some (py_str value)
     | None => info !! key
     end).
Proof.
  revert info w. induction cmds as [|[command key] rest IH]; intros info w Hnd.
  - simpl. split; [|split].
    + rewrite Z.add_0_r, Nat.add_0_r, app_nil_r. by destruct w.
    + done.
    + intros i c k Hi. done.
  - simpl in Hnd. apply NoDup_cons in Hnd as [Hfresh Hnd].
    cbn [query_all]. unfold mbind, M_bind, query.
    cbn [map length tick_work query_events fst snd].
    assert (Hstep : forall info',
      info' !! key = match respond conn (sent w) command with
                     | Some value => Some (py_str value)
                     | None => info !! key
                     end ->
      (forall k, k <> key -> info' !! k = info !! k) ->
      let r := query_all conn rest info'
                 {| now := now w + latency conn (sent w) command; sent := S (sent w);
                    trace := trace w ++ [Query (now w) command]; logs := logs w;
                    reports := reports w; graphs_dir := graphs_dir w |} in
      r.2 = {| now := now w + (latency conn (sent w) command +
                               tick_work conn (map fst rest) (S (sent w)));
               sent := sent w + S (length rest);
               trace := trace w ++ Query (now w) command ::
                        query_events conn (map fst rest)
                          (now w + latency conn (sent w) command) (S (sent w));
               logs := logs w; reports := reports w; graphs_dir := graphs_dir w |} /\
      (forall k, k ∉ key :: map snd rest -> r.1 !! k = info !! k) /\
      (forall i c k, ((command, key) :: rest) !! i = Some (c, k) ->
         r.1 !! k = match respond conn (sent w + i) c with
                    | Some value => Some (py_str value)
                    | None => info !! k
                    end)).
    { intros info' Hkey Hother r. subst r.
      match goal with
      | |- context [query_all conn rest info' ?w1] =>
          destruct (IH info' w1 Hnd) as (Hw & Hout & Hin)
      end.
      rewrite Hw. cbn [now sent trace logs reports graphs_dir]. split; [|split].
      - f_equal; [lia|lia|by rewrite <- app_assoc].
      - intros k Hk. apply not_elem_of_cons in Hk as [Hne Hk].
        rewrite Hout by done. by apply Hother.
      - intros [|i] c k Hi; simpl in Hi.
        + injection Hi as -> ->. rewrite Hout by done. by rewrite Nat.add_0_r.
        + rewrite (Hin i c k Hi). cbn [sent].
          replace (S (sent w) + i)%nat with (sent w + S i)%nat by lia.
          destruct (respond conn (sent w + S i) c); [done|].
          apply Hother. intros ->. apply Hfresh. apply list_elem_of_fmap.
          exists (c, key). split; [done|]. by eapply list_elem_of_lookup_2. }
    destruct (respond conn (sent w) command) as [value|] eqn:Hr.
    + apply Hstep; [by rewrite lookup_insert_eq|].
      intros k Hne. by rewrite lookup_insert_ne.
    + by apply Hstep.
Qed.

(** The guarded loop of the tool is the loop of the report generator on the
    supported commands. *)
Lemma info_loop_query_all self conn cmds info w :
  OBDDiagnosticTool.info_loop self conn cmds info w =
  query_all conn (info_asked self cmds) info w.
Proof.
  revert info w. induction cmds as [|[command key] rest IH]; intros info w; [done|].
  cbn [OBDDiagnosticTool.info_loop]. unfold info_asked. rewrite filter_cons. simpl.
  fold (info_asked self rest).
  destruct (decide (command ∈ OBDDiagnosticTool.supported_commands self)) as [Hin|Hout].
  - rewrite bool_decide_true by done. cbn [query_all]. unfold mbind, M_bind.
    destruct (query conn command w) as [[value|] w1]; apply IH.
  - rewrite bool_decide_false by done. apply IH.
Qed.

Lemma info_asked_keys self cmds :
  NoDup (map snd cmds) -> NoDup (map snd (info_asked self cmds)).
Proof.
  induction cmds as [|[c k] cmds IH]; intros Hnd; [constructor|].
  simpl in Hnd. apply NoDup_cons in Hnd as [Hfresh Hnd].
  unfold info_asked. rewrite filter_cons. fold (info_asked self cmds).
  destruct (decide _); [|by apply IH].
  simpl. apply NoDup_cons. split; [|by apply IH].
  intros Hin. apply Hfresh. unfold info_asked in Hin.
  apply list_elem_of_fmap in Hin as ([c' k'] & -> & Hin).
  apply list_elem_of_filter in Hin as [_ Hin].
  apply list_elem_of_fmap. by exists (c', k').
Qed.

End QueryAll.

(** X16. [get_vehicle_info] of the tool queries those of VIN, ELM_VERSION and
    ELM_VOLTAGE that are supported, in that order, and nothing else. The key
    of the [i]-th command queried holds the text of its response and is
    missing when that response is null; every other key is missing. *)
Theorem tool_vehicle_info {py : PyFloatIO}
    (tool : OBDDiagnosticTool.t) (conn : OBD) (w : World) :
  OBDDiagnosticTool.connection tool = Some conn ->
  let qs := info_asked tool OBDDiagnosticTool.info_commands in
  let info := (OBDDiagnosticTool.get_vehicle_info tool w).1 in
  let w' := (OBDDiagnosticTool.get_vehicle_info tool w).2 in
  trace w' = (trace w ++ query_events conn (map fst qs) (now w) (sent w))%list /\
  sent w' = (sent w + length qs)%nat /\
  (forall i command key, qs !! i = Some (command, key) ->
     info !! key = py_str <$> respond conn (sent w + i) command) /\
  (forall key, key ∉ map snd qs -> info !! key = None).
Proof.
  intros Hconn qs info w'. subst info w'.
  unfold OBDDiagnosticTool.get_vehicle_info. rewrite Hconn.
  rewrite info_loop_query_all. fold qs.
  assert (Hnd : NoDup (map snd qs)).
  { apply info_asked_keys. compute_done. }
  destruct (query_all_lookup conn qs ∅ w Hnd) as (Hw & Hout & Hin).
  rewrite Hw. simpl. split; [done|]. split; [done|]. split.
  - intros i command key Hi. rewrite (Hin i command key Hi).
    by destruct (respond conn (sent w + i) command).
  - intros key Hkey. by rewrite Hout.
Qed.

Lemma tool_vehicle_info_witness :
  OBDDiagnosticTool.connection demo_tool = Some demo_conn /\
  (let qs := info_asked demo_tool OBDDiagnosticTool.info_commands in
  let info := (OBDDiagnosticTool.get_vehicle_info demo_tool empty_world).1 in
  let w' := (OBDDiagnosticTool.get_vehicle_info demo_tool empty_world).2 in
  trace w' = (trace empty_world ++ query_events demo_conn (map fst qs) (now empty_world) (sent empty_world))%list /\
  sent w' = (sent empty_world + length qs)%nat /\
  (forall i command key, qs !! i = Some (command, key) ->
     info !! key = py_str <$> respond demo_conn (sent empty_world + i) command) /\
  (forall key, key ∉ map snd qs -> info !! key = None)).
Proof.
  assert (H1 : OBDDiagnosticTool.connection demo_tool = Some demo_conn) by (reflexivity).
  exact (conj H1 (tool_vehicle_info (py := CPython.io) demo_tool demo_conn empty_world H1)).
Defined.

(** X17. The readings of the report generator. [collect_sensor_data] queries
    its ten sensors in order and [get_vehicle_info] its five commands,
    whether the adapter supports them or not. Each name holds the text of the
    response to its command and is missing when that response is null; no
    other name is there. *)
Theorem report_readings {py : PyFloatIO}
    (self : DiagnosticReportGenerator.t) (conn : OBD) (w : World) :
  DiagnosticReportGenerator.connection self = Some conn ->
  (let data := (DiagnosticReportGenerator.collect_sensor_data self w).1 in
   let w' := (DiagnosticReportGenerator.collect_sensor_data self w).2 in
   queries (trace w') =
     (queries (trace w) ++ map fst DiagnosticReportGenerator.sensors)%list /\
   sent w' = (sent w + 10)%nat /\
   (forall i command name, DiagnosticReportGenerator.sensors !! i = Some (command, name) ->
      data !! name = py_str <$> respond conn (sent w + i) command) /\
   (forall name, name ∉ map snd DiagnosticReportGenerator.sensors -> data !! name = None)) /\
  (let info := (DiagnosticReportGenerator.get_vehicle_info self w).1 in
   let w' := (DiagnosticReportGenerator.get_vehicle_info self w).2 in
   queries (trace w') =
     (queries (trace w) ++ map fst DiagnosticReportGenerator.info_commands)%list /\
   sent w' = (sent w + 5)%nat /\
   (forall i command key,
      DiagnosticReportGenerator.info_commands !! i = Some (command, key) ->
      info !! key = py_str <$> respond conn (sent w + i) command) /\
   (forall key, key ∉ map snd DiagnosticReportGenerator.info_commands -> info !! key = None)).
Proof.
  intros Hconn.
  unfold DiagnosticReportGenerator.collect_sensor_data,
    DiagnosticReportGenerator.get_vehicle_info. rewrite Hconn.
  assert (Hgen : forall cmds, NoDup (map snd cmds) ->
    let data := (DiagnosticReportGenerator.query_all conn cmds ∅ w).1 in
    let w' := (DiagnosticReportGenerator.query_all conn cmds ∅ w).2 in
    queries (trace w') = (queries (trace w) ++ map fst cmds)%list /\
    sent w' = (sent w + length cmds)%nat /\
    (forall i command name, cmds !! i = Some (command, name) ->
       data !! name = py_str <$> respond conn (sent w + i) command) /\
    (forall name, name ∉ map snd cmds -> data !! name = None)).
  { intros cmds Hnd data w'. subst data w'.
    destruct (query_all_lookup conn cmds ∅ w Hnd) as (Hw & Hout & Hin).
    rewrite Hw. simpl. split; [by rewrite queries_app, query_events_queries|].
    split; [done|]. split.
    - intros i command key Hi. rewrite (Hin i command key Hi).
      by destruct (respond conn (sent w + i) command).
    - intros key Hkey. by rewrite Hout. }
  split.
  - apply (Hgen DiagnosticReportGenerator.sensors). compute_done.
  - apply (Hgen DiagnosticReportGenerator.info_commands). compute_done.
Qed.

Lemma report_readings_witness :
  DiagnosticReportGenerator.connection demo_generator = Some demo_conn /\
  ((let data := (DiagnosticReportGenerator.collect_sensor_data demo_generator empty_world).1 in
   let w' := (DiagnosticReportGenerator.collect_sensor_data demo_generator empty_world).2 in
   queries (trace w') =
     (queries (trace empty_world) ++ map fst DiagnosticReportGenerator.sensors)%list /\
   sent w' = (sent empty_world + 10)%nat /\
   (forall i command name, DiagnosticReportGenerator.sensors !! i = Some (command, name) ->
      data !! name = py_str <$> respond demo_conn (sent empty_world + i) command) /\
   (forall name, name ∉ map snd DiagnosticReportGenerator.sensors -> data !! name = None)) /\
  (let info := (DiagnosticReportGenerator.get_vehicle_info demo_generator empty_world).1 in
   let w' := (DiagnosticReportGenerator.get_vehicle_info demo_generator empty_world).2 in
   queries (trace w') =
     (queries (trace empty_world) ++ map fst DiagnosticReportGenerator.info_commands)%list /\
   sent w' = (sent empty_world + 5)%nat /\
   (forall i command key,
      DiagnosticReportGenerator.info_commands !! i = Some (command, key) ->
      info !! key = py_str <$> respond demo_conn (sent empty_world + i) command) /\
   (forall key, key ∉ map snd DiagnosticReportGenerator.info_commands -> info !! key = None))).
Proof.
  assert (H1 : DiagnosticReportGenerator.connection demo_generator = Some demo_conn) by (reflexivity).
  exact (conj H1 (report_readings (py := CPython.io) demo_generator demo_conn empty_world H1)).
Defined.

(** ** The report of a connected generator *)

(** Two clock readings in the same second are printed alike. *)
Lemma same_second t1 t2 :
  t1 / 1000000 = t2 / 1000000 ->
  strftime_file (datetime_of t1) = strftime_file (datetime_of t2) /\
  strftime_human (datetime_of t1) = strftime_human (datetime_of t2).
Proof.
  intros E. unfold strftime_file, strftime_human, datetime_of. rewrite E.
  by destruct (civil_from_days (t2 / 1000000 / 86400)) as [[y m] d].
Qed.

(** X18. File names have a resolution of one second. Two reports generated
    within the same second, with no other report written in between, get the
    same path, and the second one replaces the first; likewise two runs of
    the logger started within the same second write to the same CSV path and
    to the same JSON path. *)
Theorem same_second_same_file {py : PyFloatIO}
    (generator : DiagnosticReportGenerator.t) (logger : OBDDataLogger.t)
    (first second : ReportData) (w1 w2 : World) :
  now w1 / 1000000 = now w2 / 1000000 ->
  reports w2 = reports (DiagnosticReportGenerator.generate_html_report generator first w1).2 ->
  let r1 := DiagnosticReportGenerator.generate_html_report generator first w1 in
  let r2 := DiagnosticReportGenerator.generate_html_report generator second w2 in
  r2.1 = r1.1 /\
  reports r2.2 =
    <[r1.1 := DiagnosticReportGenerator.render (strftime_human (datetime_of (now w1))) second]>
      (reports w1) /\
  log_path logger w2 = log_path logger w1 /\
  json_path logger w2 = json_path logger w1.
Proof.
  intros Hsec Hreports r1 r2. subst r1 r2.
  destruct (same_second (now w1) (now w2) Hsec) as [Hfile Hhuman].
  rewrite !generate_html_report_run in *. cbv zeta in *. simpl in *.
  rewrite Hreports, <- Hfile, <- Hhuman.
  split; [done|]. split; [by rewrite insert_insert_eq|].
  unfold log_path, json_path. by rewrite Hfile.
Qed.

Lemma same_second_same_file_witness :
  now empty_world / 1000000 = now soon_after / 1000000 /\
  reports soon_after = reports (DiagnosticReportGenerator.generate_html_report demo_generator demo_data empty_world).2 /\
  (let r1 := DiagnosticReportGenerator.generate_html_report demo_generator demo_data empty_world in
  let r2 := DiagnosticReportGenerator.generate_html_report demo_generator bare_data soon_after in
  r2.1 = r1.1 /\
  reports r2.2 =
    <[r1.1 := DiagnosticReportGenerator.render (strftime_human (datetime_of (now empty_world))) bare_data]>
      (reports empty_world) /\
  log_path demo_logger soon_after = log_path demo_logger empty_world /\
  json_path demo_logger soon_after = json_path demo_logger empty_world).
Proof.
  assert (H1 : now empty_world / 1000000 = now soon_after / 1000000) by (reflexivity).
  assert (H2 : reports soon_after = reports (DiagnosticReportGenerator.generate_html_report demo_generator demo_data empty_world).2) by (reflexivity).
  exact (conj H1 (conj H2 (same_second_same_file (py := CPython.io) demo_generator demo_logger demo_data bare_data empty_world soon_after H1 H2))).
Defined.

Section ReportContents.
Context `{PyFloatIO}.
Import DiagnosticReportGenerator.



End ReportContents.



(** ** The bounds are attained *)

Lemma is_nan_true x : is_nan x = true <-> Prim2SF x = S754_nan.
Proof.
  destruct (is_nan x) eqn:E.
  - split; [intros _|done]. destruct (Prim2SF x) eqn:Ex; try done;
      exfalso; assert (Hn : is_nan x = false) by (apply is_nan_false; by rewrite Ex);
      congruence.
  - apply is_nan_false in E. split; [done|]. intros Ex. by rewrite Ex in E.
Qed.

Lemma ltb_nan_l (x y : float) : is_nan x = true -> (x <? y)%float = false.
Proof. rewrite is_nan_true, FloatAxioms.ltb_spec. by intros ->. Qed.

Lemma ltb_nan_r (x y : float) : is_nan y = true -> (x <? y)%float = false.
Proof.
  rewrite is_nan_true, FloatAxioms.ltb_spec. intros ->.
  unfold SFltb, SFcompare. by destruct (Prim2SF x).
Qed.

(** Only +inf is not below +inf, and only -inf is not above -inf. *)
Lemma not_below_infinity (x : float) :
  is_nan x = false -> (x <? infinity)%float = false -> x = infinity.
Proof.
  rewrite is_nan_false, FloatAxioms.ltb_spec. intros Hnan Hlt.
  apply FloatAxioms.Prim2SF_inj.
  change (Prim2SF infinity) with (S754_infinity false) in *.
  destruct (Prim2SF x) as [[]|[]| |[] m e]; try done.
Qed.

Lemma not_above_neg_infinity (x : float) :
  is_nan x = false -> (neg_infinity <? x)%float = false -> x = neg_infinity.
Proof.
  rewrite is_nan_false, FloatAxioms.ltb_spec. intros Hnan Hlt.
  apply FloatAxioms.Prim2SF_inj.
  change (Prim2SF neg_infinity) with (S754_infinity true) in *.
  destruct (Prim2SF x) as [[]|[]| |[] m e]; try done.
Qed.

Lemma stats_of_all_nan values :
  (forall v, v ∈ values -> is_nan v = true) ->
  param_min (stats_of values) = infinity /\ param_max (stats_of values) = neg_infinity.
Proof.
  induction values as [|x values IH] using rev_ind; intros Hall; [done|].
  destruct IH as [Hmin Hmax]; [intros v Hv; apply Hall, elem_of_app; by left|].
  assert (Hx : is_nan x = true) by (apply Hall, elem_of_app; right; by left).
  rewrite stats_of_snoc. simpl. unfold py_min, py_max.
  by rewrite (ltb_nan_l x _ Hx), (ltb_nan_r _ x Hx).
Qed.

Lemma all_nan_or_not (values : list float) :
  (forall v, v ∈ values -> is_nan v = true) \/ (exists v, v ∈ values /\ is_nan v = false).
Proof.
  induction values as [|x values [IH|(v & Hv & Hn)]].
  - left. intros v Hv. by apply elem_of_nil in Hv.
  - destruct (is_nan x) eqn:E.
    + left. intros v [->|Hv]%elem_of_cons; [done|by apply IH].
    + right. exists x. split; [by left|done].
  - right. exists v. split; [by right|done].
Qed.

Lemma stats_of_attained values :
  (exists v, v ∈ values /\ is_nan v = false) ->
  param_min (stats_of values) ∈ values /\ param_max (stats_of values) ∈ values.
Proof.
  induction values as [|x values IH] using rev_ind.
  - intros (v & Hv & _). by apply elem_of_nil in Hv.
  - intros Hex. rewrite stats_of_snoc. simpl. unfold py_min, py_max.
    destruct (all_nan_or_not values) as [Hall|Hprev].
    + destruct (stats_of_all_nan values Hall) as [-> ->].
      assert (Hx : is_nan x = false).
      { destruct Hex as (v & [Hv|Hv]%elem_of_app & Hn).
        - rewrite (Hall v Hv) in Hn. done.
        - apply list_elem_of_singleton in Hv. by subst. }
      split.
      * destruct (x <? infinity)%float eqn:E; apply elem_of_app; right.
        -- by left.
        -- rewrite <- (not_below_infinity x Hx E). by left.
      * destruct (neg_infinity <? x)%float eqn:E; apply elem_of_app; right.
        -- by left.
        -- rewrite <- (not_above_neg_infinity x Hx E). by left.
    + destruct (IH Hprev) as [Hmin Hmax]. split.
      * destruct (x <? _)%float; apply elem_of_app; [right; by left|by left].
      * destruct (_ <? x)%float; apply elem_of_app; [right; by left|by left].
Qed.

(** X20. The bounds of an entry are observed values. The min and the max of an
    entry of an analysis, of a CSV log or of a JSON log, are never NaN; they
    are inf and -inf when every value of the entry is NaN or there is none;
    and when some value is not NaN, each of them is one of the values of the
    entry. *)
Theorem bounds_are_attained {py : PyFloatIO}
    (rows : list (list string)) (document : json)
    (params : gmap string Param) (h : string) (p : Param) :
  OBDDataLogger.accumulate_rows rows = Some params \/
  OBDDataLogger.accumulate_doc document = Some params ->
  params !! h = Some p ->
  is_nan (stat_min (finish p)) = false /\
  is_nan (stat_max (finish p)) = false /\
  ((forall v, v ∈ param_values p -> is_nan v = true) ->
     stat_min (finish p) = infinity /\ stat_max (finish p) = neg_infinity) /\
  ((exists v, v ∈ param_values p /\ is_nan v = false) ->
     stat_min (finish p) ∈ param_values p /\ stat_max (finish p) ∈ param_values p).
Proof.
  intros Hacc Hh.
  assert (Hp : consistent p).
  { destruct Hacc as [Hacc|Hacc].
    - by apply (accumulate_rows_consistent rows params Hacc h p).
    - by apply (accumulate_doc_consistent document params Hacc h p). }
  unfold finish. simpl. rewrite Hp, stats_of_values.
  split; [apply stats_of_min_le|]. split; [apply stats_of_max_ge|].
  split; [apply stats_of_all_nan|apply stats_of_attained].
Qed.

Lemma bounds_are_attained_witness :
  let rows := ["Timestamp"; "RPM"; "FUEL_TYPE"] :: mixed_rows in
  exists params p,
    OBDDataLogger.accumulate_rows rows = Some params /\
    params !! "RPM" = Some p /\
    param_values p = [800; 820]%float /\
    stat_min (finish p) ∈ param_values p /\
    stat_max (finish p) ∈ param_values p.
Proof.
  intros rows.
  destruct (OBDDataLogger.accumulate_rows rows) as [params|] eqn:Hacc;
    [|vm_compute in Hacc; discriminate].
  destruct (params !! "RPM") as [p|] eqn:Hh;
    [|injection Hacc as <-; vm_compute in Hh; discriminate].
  destruct (bounds_are_attained (py := CPython.io) rows JNull params "RPM" p
              (or_introl Hacc) Hh) as (_ & _ & _ & Hsome).
  assert (Hvalues : param_values p = [800; 820]%float).
  { injection Hacc as <-. vm_compute in Hh. injection Hh as <-. reflexivity. }
  exists params, p. split; [reflexivity|]. split; [exact Hh|]. split; [exact Hvalues|].
  apply Hsome. exists 800%float. split; [rewrite Hvalues; left | reflexivity].
Defined.

(** ** The script of the logger *)

Lemma closes_app tr1 tr2 : closes (tr1 ++ tr2) = (closes tr1 + closes tr2)%nat.
Proof. unfold closes. by rewrite omap_app, length_app. Qed.

Lemma query_events_closes conn cmds t n : closes (query_events conn cmds t n) = 0%nat.
Proof. revert t n. induction cmds as [|c cs IH]; intros t n; [done|]. apply IH. Qed.

Section MainRun.
Context `{PyFloatIO}.

Lemma iter_closes conn csv_file cmds interval n w :
  closes (trace (Nat.iter n (after_tick conn csv_file cmds interval) w)) = closes (trace w).
Proof.
  revert w. induction n as [|n IH]; intros w; [done|].
  rewrite Nat.iter_succ_r, IH. simpl.
  rewrite !closes_app, query_events_closes. unfold closes at 2. simpl. lia.
Qed.

End MainRun.

(** X21. The script of the logger, run with a connection object whose latencies
    are not negative. When the adapter is not connected, nothing is done.
    When it is, the script logs RPM, SPEED, THROTTLE_POS and ENGINE_LOAD for
    between 1 and 20 ticks, prints an analysis that has these four entries
    and no other, each with the statistics of the responses of the run,
    closes the connection once, and ends with the message that the
    connection is closed. *)
Theorem main_logs_analyses_closes {py : PyFloatIO} (conn : OBD) (fuel : nat) (w : World) :
  causal conn ->
  (21 < fuel)%nat ->
  let cmds := [commands.RPM; commands.SPEED; commands.THROTTLE_POS; commands.ENGINE_LOAD] in
  (is_connected conn = false ->
     data_logger.main fuel conn w = (Some data_logger.Failed, w)) /\
  (is_connected conn = true ->
     exists analysis w' n,
       data_logger.main fuel conn w =
         (Some (data_logger.Closed (Some analysis)), w') /\
       1 <= Z.of_nat n <= 20 /\
       sent w' = (sent w + n * 4)%nat /\
       (forall h, is_Some (analysis !! h) <-> h ∈ cmds) /\
       (forall i c, cmds !! i = Some c ->
          analysis !! c =
          Some (finish (stats_of
                  (omap (fun response => py_float (OBDDataLogger.csv_cell response))
                        (answers conn cmds (sent w) n i c))))) /\
       closes (trace w') = S (closes (trace w)) /\
       last (trace w') = Some (Log "INFO" "OBD connection closed")).
Proof.
  intros Hc Hfuel cmds. split.
  - intros Hoff. unfold data_logger.main. simpl. by rewrite Hoff.
  - intros Hon. unfold data_logger.main. simpl. rewrite Hon.
    set (logger := {| OBDDataLogger.log_dir := "logs";
                      OBDDataLogger.connection := Some conn;
                      OBDDataLogger.logging := false |}).
    fold cmds. unfold mbind, M_bind.
    destruct (log_to_csv_ticks fuel logger conn cmds 10000000 500000 w eq_refl Hc
                ltac:(lia) Hfuel) as (n & Hrun & Hend & Hticks).
    cbv zeta in Hrun, Hend. rewrite Hrun.
    rewrite log_path_nonempty.
    destruct (analysis_of_ticks logger conn cmds 500000 n w
                ("Data logged to " ++ log_path logger w) ltac:(compute_done))
      as (analysis & Ha & Hdom & Hvalues).
    cbv zeta in Ha. rewrite Ha.
    pose proof (fun k => iter_clock conn (log_path logger w) cmds 500000 k
                           (log_start logger cmds w)) as Hclock. simpl in Hclock.
    assert (Hcount : 1 <= Z.of_nat n <= 20).
    { destruct (ticks_bounds conn cmds (sent w) 10000000 500000 n Hc ltac:(lia)) as [_ Hn].
      - rewrite (proj1 (Hclock n)) in Hend. lia.
      - intros k Hk. specialize (Hticks k Hk). rewrite (proj1 (Hclock k)) in Hticks. lia.
      - specialize (Hn ltac:(lia)).
        change ((10000000 - 1) / 500000 + 1) with 20 in Hn. exact Hn. }
    exists analysis. eexists. exists n. split; [reflexivity|].
    split; [exact Hcount|]. split; [|split; [exact Hdom|split; [exact Hvalues|split]]].
    + simpl. by rewrite (proj2 (Hclock n)).
    + simpl. rewrite !closes_app, iter_closes. unfold closes. simpl. lia.
    + simpl. by rewrite last_snoc.
Qed.

Lemma main_logs_analyses_closes_witness :
  causal demo_conn /\
  (21 < 22%nat)%nat /\
  (let cmds := [commands.RPM; commands.SPEED; commands.THROTTLE_POS; commands.ENGINE_LOAD] in
  (is_connected demo_conn = false ->
     data_logger.main 22%nat demo_conn empty_world = (Some data_logger.Failed, empty_world)) /\
  (is_connected demo_conn = true ->
     exists analysis w' n,
       data_logger.main 22%nat demo_conn empty_world =
         (Some (data_logger.Closed (Some analysis)), w') /\
       1 <= Z.of_nat n <= 20 /\
       sent w' = (sent empty_world + n * 4)%nat /\
       (forall h, is_Some (analysis !! h) <-> h ∈ cmds) /\
       (forall i c, cmds !! i = Some c ->
          analysis !! c =
          Some (finish (stats_of
                  (omap (fun response => py_float (OBDDataLogger.csv_cell response))
                        (answers demo_conn cmds (sent empty_world) n i c))))) /\
       closes (trace w') = S (closes (trace empty_world)) /\
       last (trace w') = Some (Log "INFO" "OBD connection closed"))).
Proof.
  assert (H1 : causal demo_conn) by (exact demo_conn_causal).
  assert (H2 : (21 < 22%nat)%nat) by (lia).
  exact (conj H1 (conj H2 (main_logs_analyses_closes (py := CPython.io) demo_conn 22%nat empty_world H1 H2))).
Defined.

(** ** The script of the example *)

Lemma lower_ascii_y c :
  basic_usage.lower_ascii c = "y"%char <-> c = "y"%char \/ c = "Y"%char.
Proof.
  destruct c as [[] [] [] [] [] [] [] []]; vm_compute;
    (split; [intros E; try discriminate E; auto|intros [E|E]; try discriminate E; auto]).
Qed.

Lemma lower_y answer : basic_usage.lower answer = "y" <-> answer = "y" \/ answer = "Y".
Proof.
  destruct answer as [|c [|c' s]]; simpl.
  - split; [done|by intros [?|?]].
  - split.
    + intros [= E]. apply lower_ascii_y in E as [->| ->]; auto.
    + intros [[= ->]|[= ->]]; reflexivity.
  - split; [done|by intros [?|?]].
Qed.

Section Demo.
Import OBDDiagnosticTool.

(** The monitoring loop only queries the commands of its table. *)
Lemma live_loop_queries fuel self conn start_time duration data w :
  exists evs,
    trace (live_loop fuel self conn start_time duration data w).2 = (trace w ++ evs)%list /\
    Forall (fun c => c ∈ map snd live_commands) (queries evs) /\
    closes evs = 0%nat.
Proof.
  revert data w. induction fuel as [|fuel IH]; intros data w.
  - exists []. simpl. rewrite app_nil_r. by repeat split.
  - rewrite live_loop_step. destruct (now w - start_time <? duration).
    + match goal with
      | |- context [live_loop fuel self conn start_time duration ?d ?w1] =>
          destruct (IH d w1) as (evs & Htrace & Hq & Hc)
      end.
      rewrite Htrace. simpl.
      exists ((query_events conn (map snd (live_asked self live_commands)) (now w) (sent w) ++
               [Sleep (now w + tick_work conn (map snd (live_asked self live_commands)) (sent w))
                      500000]) ++ evs)%list.
      split; [by rewrite <- !app_assoc|]. split.
      * rewrite !queries_app, query_events_queries. apply Forall_app. split; [|done].
        apply Forall_app. split; [|constructor].
        apply Forall_forall. intros c Hin.
        apply list_elem_of_fmap in Hin as ([k c'] & -> & Hin).
        apply list_elem_of_filter in Hin as [_ Hin].
        exact (list_elem_of_fmap_2 snd _ _ Hin).
      * unfold closes in *. rewrite !omap_app, !length_app, Hc.
        pose proof (query_events_closes conn
                      (map snd (live_asked self live_commands)) (now w) (sent w)) as E.
        unfold closes in E. rewrite E. done.
    + exists []. simpl. rewrite app_nil_r. by repeat split.
Qed.

End Demo.

Lemma monitor_trace fuel tool conn duration w :
  OBDDiagnosticTool.connection tool = Some conn ->
  exists evs,
    trace (OBDDiagnosticTool.monitor_live_data fuel tool duration w).2 = (trace w ++ evs)%list /\
    Forall (fun c => c ∈ map snd OBDDiagnosticTool.live_commands) (queries evs) /\
    closes evs = 0%nat.
Proof.
  intros Hconn. unfold OBDDiagnosticTool.monitor_live_data. rewrite Hconn.
  unfold time_time at 1. unfold mbind, M_bind. apply live_loop_queries.
Qed.

Lemma clear_not_live :
  ~ Forall (fun c => c ∈ map snd OBDDiagnosticTool.live_commands) [commands.CLEAR_DTC].
Proof.
  intros Hall. apply Forall_cons in Hall as [Hin _]. simpl in Hin.
  repeat (apply elem_of_cons in Hin as [Hin|Hin]; [discriminate|]).
  by apply elem_of_nil in Hin.
Qed.

Lemma not_in_forall {A} (P : A -> Prop) (x : A) l : Forall P l -> ~ P x -> x ∉ l.
Proof. intros Hall Hx Hin. rewrite Forall_forall in Hall. by apply Hx, Hall. Qed.

Lemma clear_not_in_live evs :
  Forall (fun c => c ∈ map snd OBDDiagnosticTool.live_commands) (queries evs) ->
  commands.CLEAR_DTC ∉ queries evs.
Proof.
  intros Hall. apply (not_in_forall _ _ _ Hall). simpl. intros Hin.
  repeat (apply elem_of_cons in Hin as [Hin|Hin]; [discriminate|]).
  by apply elem_of_nil in Hin.
Qed.

Lemma clear_not_in_info (tool : OBDDiagnosticTool.t) :
  commands.CLEAR_DTC ∉ map fst (info_asked tool OBDDiagnosticTool.info_commands).
Proof.
  intros Hin. apply list_elem_of_fmap in Hin as ([c k] & Hc & Hin).
  apply list_elem_of_filter in Hin as [_ Hin]. simpl in Hc. subst c.
  unfold OBDDiagnosticTool.info_commands in Hin.
  repeat (apply elem_of_cons in Hin as [Hin|Hin]; [discriminate|]).
  by apply elem_of_nil in Hin.
Qed.

Section DemoRun.
Context `{PyFloatIO}.

(** The end of the script, from the monitoring on. *)
Lemma demo_tail fuel tool conn w res w' :
  OBDDiagnosticTool.connection tool = Some conn ->
  (live ← OBDDiagnosticTool.monitor_live_data fuel tool 5000000;
   match live with
   | None => mret None
   | Some live_data =>
       if forallb summable (map snd (map_to_list live_data)) then
         OBDDiagnosticTool.close tool;; mret (Some basic_usage.Complete)
       else mret (Some basic_usage.TypeError)
   end) w = (res, w') ->
  exists evs,
    trace w' = (trace w ++ evs)%list /\
    (commands.CLEAR_DTC ∉ queries evs) /\
    closes evs = match res with Some basic_usage.Complete => 1%nat | _ => 0%nat end.
Proof.
  intros Hconn Hrun. unfold mbind, M_bind in Hrun.
  destruct (monitor_trace fuel tool conn 5000000 w Hconn) as (evs & Htrace & Hq & Hc).
  destruct (OBDDiagnosticTool.monitor_live_data fuel tool 5000000 w) as [[live_data|] w1].
  - simpl in Htrace.
    destruct (forallb summable (map snd (map_to_list live_data))).
    + unfold OBDDiagnosticTool.close in Hrun. rewrite Hconn in Hrun.
      unfold connection_close, time_time, emit, mbind, M_bind, mret, M_ret in Hrun.
      simpl in Hrun. injection Hrun as <- <-. simpl.
      exists (evs ++ [Close (now w1)])%list. rewrite Htrace, <- app_assoc.
      split; [done|]. split.
      * rewrite queries_app. simpl. rewrite app_nil_r. by apply clear_not_in_live.
      * rewrite closes_app, Hc. reflexivity.
    + unfold mret, M_ret in Hrun. injection Hrun as <- <-.
      exists evs. split; [done|]. split; [|done]. by apply clear_not_in_live.
  - unfold mret, M_ret in Hrun. injection Hrun as <- <-. simpl in *.
    exists evs. split; [done|]. split; [|done]. by apply clear_not_in_live.
Qed.

(** A run of the script, whatever its result. *)
Lemma demo_run fuel port answer w res w' :
  basic_usage.demonstrate_basic_usage fuel port answer w = (res, w') ->
  exists evs,
    trace w' = (trace w ++ evs)%list /\
    (commands.CLEAR_DTC ∈ queries evs <->
     (answer = "y" \/ answer = "Y") /\
     exists conn codes,
       port = Some conn /\ is_connected conn = true /\
       respond conn
         (sent w + length (filter (fun ck : Cmd * string =>
                                     ck.1 ∈ obd.supported_commands conn)
                                  OBDDiagnosticTool.info_commands))
         commands.GET_DTC = Some codes /\
       truthy codes = true /\ iterable codes = true) /\
    closes evs = match res with Some basic_usage.Complete => 1%nat | _ => 0%nat end.
Proof.
  unfold basic_usage.demonstrate_basic_usage. intros Hrun.
  assert (Hfailed :
    (port = None \/ exists conn, port = Some conn /\ is_connected conn = false) ->
    exists evs : list Event,
      trace w = (trace w ++ evs)%list /\
      (commands.CLEAR_DTC ∈ queries evs <->
       (answer = "y" \/ answer = "Y") /\
       exists conn codes,
         port = Some conn /\ is_connected conn = true /\
         respond conn
           (sent w + length (filter (fun ck : Cmd * string =>
                                       ck.1 ∈ obd.supported_commands conn)
                                    OBDDiagnosticTool.info_commands))
           commands.GET_DTC = Some codes /\
         truthy codes = true /\ iterable codes = true) /\
      closes evs = 0%nat).
  { intros Hport. exists []. rewrite app_nil_r. split; [done|]. split; [|done].
    split; [by intros Hin; apply elem_of_nil in Hin|].
    intros (_ & conn & codes & -> & Hon & _).
    destruct Hport as [?|(conn' & [= <-] & Hoff)]; congruence. }
  destruct port as [conn|]; simpl in Hrun;
    [|injection Hrun as <- <-; apply Hfailed; by left].
  destruct (is_connected conn) eqn:Hon; simpl in Hrun;
    [|injection Hrun as <- <-; apply Hfailed; right; by exists conn].
  clear Hfailed.
  set (tool := {| OBDDiagnosticTool.connection := Some conn;
                  OBDDiagnosticTool.supported_commands := obd.supported_commands conn |})
    in *.
  (* the vehicle information *)
  unfold mbind at 1, M_bind at 1 in Hrun.
  unfold OBDDiagnosticTool.get_vehicle_info at 1 in Hrun.
  cbn [OBDDiagnosticTool.connection tool] in Hrun.
  rewrite info_loop_query_all in Hrun.
  set (qs := info_asked tool OBDDiagnosticTool.info_commands) in *.
  destruct (query_all_lookup conn qs ∅ w) as (Hw1 & _ & _).
  { apply info_asked_keys. compute_done. }
  destruct (DiagnosticReportGenerator.query_all conn qs ∅ w) as [info w1].
  cbn [fst snd] in Hw1.
  assert (Hsent1 : sent w1 = (sent w + length qs)%nat) by (by rewrite Hw1).
  assert (Htrace1 : trace w1 = (trace w ++ query_events conn (map fst qs) (now w) (sent w))%list)
    by (by rewrite Hw1).
  assert (Hq1 : commands.CLEAR_DTC ∉ queries (query_events conn (map fst qs) (now w) (sent w))).
  { rewrite query_events_queries. apply clear_not_in_info. }
  clear Hw1.
  (* the fault codes *)
  unfold mbind at 1, M_bind at 1 in Hrun.
  unfold OBDDiagnosticTool.get_fault_codes at 1 in Hrun.
  cbn [OBDDiagnosticTool.connection tool] in Hrun.
  unfold mbind at 1, M_bind at 1, query at 1 in Hrun. rewrite Hsent1 in Hrun.
  set (w2 := {| now := now w1 + latency conn (sent w + length qs) commands.GET_DTC;
                sent := S (sent w + length qs);
                trace := trace w1 ++ [Query (now w1) commands.GET_DTC];
                logs := logs w1; reports := reports w1; graphs_dir := graphs_dir w1 |})
    in *.
  (* what follows the listing, with or without the clearing *)
  assert (Hkeep : forall w3 extra,
    trace w3 = (trace w2 ++ extra)%list ->
    queries extra = [] \/ queries extra = [commands.CLEAR_DTC] ->
    closes extra = 0%nat ->
    (live ← OBDDiagnosticTool.monitor_live_data fuel tool 5000000;
     match live with
     | None => mret None
     | Some live_data =>
         if forallb summable (map snd (map_to_list live_data)) then
           OBDDiagnosticTool.close tool;; mret (Some basic_usage.Complete)
         else mret (Some basic_usage.TypeError)
     end) w3 = (res, w') ->
    exists evs,
      trace w' = (trace w ++ evs)%list /\
      (commands.CLEAR_DTC ∈ queries evs <-> queries extra = [commands.CLEAR_DTC]) /\
      closes evs = match res with Some basic_usage.Complete => 1%nat | _ => 0%nat end).
  { intros w3 extra Htrace3 Hextra Hcl Htail.
    destruct (demo_tail fuel tool conn w3 res w' eq_refl Htail) as (evs & Htrace & Hq & Hc).
    exists (query_events conn (map fst qs) (now w) (sent w) ++
            [Query (now w1) commands.GET_DTC] ++ extra ++ evs)%list.
    split; [|split].
    - rewrite Htrace, Htrace3. unfold w2. simpl. rewrite Htrace1.
      by rewrite <- !app_assoc.
    - rewrite !queries_app. simpl. rewrite elem_of_app, elem_of_cons, elem_of_app.
      split.
      + intros [?|[?|[Hin|?]]]; try done.
        destruct Hextra as [E|E]; [|done]. rewrite E in Hin. by apply elem_of_nil in Hin.
      + intros E. right. right. left. rewrite E. by left.
    - rewrite !closes_app, query_events_closes, Hcl, Hc. reflexivity. }
  assert (Hcrash : (res, w') = (Some basic_usage.TypeError, w2) ->
    exists evs,
      trace w' = (trace w ++ evs)%list /\
      (commands.CLEAR_DTC ∉ queries evs) /\
      closes evs = match res with Some basic_usage.Complete => 1%nat | _ => 0%nat end).
  { intros [= -> ->].
    exists (query_events conn (map fst qs) (now w) (sent w) ++
            [Query (now w1) commands.GET_DTC])%list.
    split; [by unfold w2; simpl; rewrite Htrace1, <- app_assoc|]. split.
    - rewrite queries_app. simpl. rewrite elem_of_app, elem_of_cons.
      intros [?|[?|Hnil]]; try done. by apply elem_of_nil in Hnil.
    - rewrite closes_app, query_events_closes. reflexivity. }
  assert (Hunique : forall conn' codes',
    Some conn = Some conn' ->
    respond conn'
      (sent w + length (filter (fun ck : Cmd * string =>
                                  ck.1 ∈ obd.supported_commands conn')
                               OBDDiagnosticTool.info_commands))
      commands.GET_DTC = Some codes' ->
    respond conn (sent w + length qs) commands.GET_DTC = Some codes').
  { intros conn' codes' [= <-] Hr. exact Hr. }
  destruct (respond conn (sent w + length qs) commands.GET_DTC) as [codes|] eqn:Hcodes.
  - (* a response *)
    unfold mret at 1, M_ret at 1 in Hrun. unfold mbind at 1, M_bind at 1 in Hrun.
    destruct (truthy codes) eqn:Htruthy.
    + destruct (iterable codes) eqn:Hiter.
      * destruct (String.eqb (basic_usage.lower answer) "y") eqn:Hy.
        -- apply String.eqb_eq, lower_y in Hy.
           unfold mbind at 1, M_bind at 1 in Hrun.
           unfold OBDDiagnosticTool.clear_fault_codes at 1 in Hrun.
           cbn [OBDDiagnosticTool.connection tool] in Hrun.
           unfold mbind at 1, M_bind at 1, query at 1, mret at 1 2, M_ret at 1 2 in Hrun.
           cbv beta iota in Hrun.
           match type of Hrun with
           | _ ?w3 = _ =>
               destruct (Hkeep w3 [Query (now w2) commands.CLEAR_DTC] eq_refl
                           (or_intror eq_refl) eq_refl Hrun) as (evs & Htrace & Hq & Hc)
           end.
           exists evs. split; [exact Htrace|]. split; [|exact Hc].
           rewrite Hq. split; [|done]. intros _. split; [done|].
           exists conn, codes. by repeat split.
        -- apply String.eqb_neq in Hy. unfold mret at 1, M_ret at 1 in Hrun.
           cbv beta iota in Hrun.
           destruct (Hkeep w2 [] (eq_sym (app_nil_r _)) (or_introl eq_refl) eq_refl Hrun)
             as (evs & Htrace & Hq & Hc).
           exists evs. split; [exact Htrace|]. split; [|exact Hc].
           rewrite Hq. split; [done|]. intros [Hyes _]. by apply lower_y in Hyes.
      * unfold mret, M_ret in Hrun. cbv beta iota in Hrun.
        destruct (Hcrash (eq_sym Hrun)) as (evs & Htrace & Hq & Hc).
        exists evs. split; [exact Htrace|]. split; [|exact Hc].
        split; [done|].
        intros (_ & conn' & codes' & Hport & _ & Hr & _ & Hi).
        apply (Hunique conn' codes' Hport) in Hr. injection Hr as <-. congruence.
    + unfold mret at 1, M_ret at 1 in Hrun. cbv beta iota in Hrun.
      destruct (Hkeep w2 [] (eq_sym (app_nil_r _)) (or_introl eq_refl) eq_refl Hrun)
        as (evs & Htrace & Hq & Hc).
      exists evs. split; [exact Htrace|]. split; [|exact Hc].
      rewrite Hq. split; [done|].
      intros (_ & conn' & codes' & Hport & _ & Hr & Ht & _).
      apply (Hunique conn' codes' Hport) in Hr. injection Hr as <-. congruence.
  - (* no response: the empty list *)
    unfold mret at 1, M_ret at 1 in Hrun. unfold mbind at 1, M_bind at 1 in Hrun.
    cbn [truthy] in Hrun. unfold mret at 1, M_ret at 1 in Hrun.
    cbv beta iota in Hrun.
    destruct (Hkeep w2 [] (eq_sym (app_nil_r _)) (or_introl eq_refl) eq_refl Hrun)
      as (evs & Htrace & Hq & Hc).
    exists evs. split; [exact Htrace|]. split; [|exact Hc].
    rewrite Hq. split; [done|].
    intros (_ & conn' & codes' & Hport & _ & Hr & _).
    apply (Hunique conn' codes' Hport) in Hr. done.
Qed.

End DemoRun.

(** X22. The example script clears the trouble codes on consent only. CLEAR_DTC
    is sent exactly when the adapter is connected, the response to GET_DTC is
    a value that is not empty and over which the script can iterate, and the
    user answers y or Y. The connection is closed once when the script runs
    to its end, and not at all otherwise. *)
Theorem clear_needs_consent {py : PyFloatIO}
    (fuel : nat) (port : option OBD) (answer : string) (w : World) :
  let r := basic_usage.demonstrate_basic_usage fuel port answer w in
  exists evs,
    trace r.2 = (trace w ++ evs)%list /\
    (commands.CLEAR_DTC ∈ queries evs <->
     (answer = "y" \/ answer = "Y") /\
     exists conn codes,
       port = Some conn /\ is_connected conn = true /\
       respond conn
         (sent w + length (filter (fun ck : Cmd * string =>
                                     ck.1 ∈ obd.supported_commands conn)
                                  OBDDiagnosticTool.info_commands))
         commands.GET_DTC = Some codes /\
       truthy codes = true /\ iterable codes = true) /\
    closes evs = match r.1 with Some basic_usage.Complete => 1%nat | _ => 0%nat end.
Proof.
  intros r. apply (demo_run fuel port answer w r.1 r.2). subst r.
  by destruct (basic_usage.demonstrate_basic_usage fuel port answer w).
Qed.

(** ** Assignments to a dict *)

Section DictSetitem.
Context {A : Type}.
Implicit Types (d : list (string * A)).

Lemma dict_setitem_keys d k v :
  forall k', k' ∈ map fst (dict_setitem d k v) <-> k' ∈ map fst d \/ k' = k.
Proof.
  induction d as [|[k0 v0] d IH]; intros k'; simpl.
  - rewrite elem_of_cons. split; [intros [?|Hin]; [by right|by apply elem_of_nil in Hin]|].
    intros [Hin|?]; [by apply elem_of_nil in Hin|by left].
  - destruct (String.eqb k0 k) eqn:E.
    + apply String.eqb_eq in E. subst k0. simpl. rewrite !elem_of_cons. tauto.
    + simpl. rewrite !elem_of_cons, IH. tauto.
Qed.

Lemma dict_setitem_NoDup d k v :
  NoDup (map fst d) -> NoDup (map fst (dict_setitem d k v)).
Proof.
  induction d as [|[k0 v0] d IH]; intros Hnd; simpl.
  - apply NoDup_singleton.
  - simpl in Hnd. apply NoDup_cons in Hnd as [Hfresh Hnd].
    destruct (String.eqb k0 k) eqn:E.
    + apply String.eqb_eq in E. subst k0. simpl. by apply NoDup_cons.
    + apply String.eqb_neq in E. simpl. apply NoDup_cons. split; [|by apply IH].
      rewrite dict_setitem_keys. intros [?|?]; [done|by subst].
Qed.

Lemma dict_setitem_same d k v : (k, v) ∈ dict_setitem d k v.
Proof.
  induction d as [|[k0 v0] d IH]; simpl; [by left|].
  destruct (String.eqb k0 k); [by left|by right].
Qed.

Lemma dict_setitem_other d k v k' v' :
  k' <> k -> (k', v') ∈ dict_setitem d k v <-> (k', v') ∈ d.
Proof.
  intros Hne. induction d as [|[k0 v0] d IH]; simpl.
  - rewrite elem_of_cons. split; [intros [[= ? ?]|Hin]; [done|by apply elem_of_nil in Hin]|].
    intros Hin. by apply elem_of_nil in Hin.
  - destruct (String.eqb k0 k) eqn:E.
    + apply String.eqb_eq in E. subst k0. rewrite !elem_of_cons.
      split; intros [[= ? ?]|?]; try done; by right.
    + rewrite !elem_of_cons, IH. tauto.
Qed.

End DictSetitem.

Section KeepsLast.
Context `{PyFloatIO}.
Import OBDDataLogger.

Lemma entry_data_last (rs : list (string * option Value)) :
  let data := fold_left (fun d s => dict_setitem d s.1 (json_cell s.2)) rs [] in
  NoDup (map fst data) /\
  (forall c, c ∈ map fst data <-> c ∈ map fst rs) /\
  (forall i c r, rs !! i = Some (c, r) ->
     (forall j r', (i < j)%nat -> rs !! j <> Some (c, r')) ->
     (c, json_cell r) ∈ data).
Proof.
  induction rs as [|[c0 r0] rs IH] using rev_ind; intros data; subst data.
  - simpl. split; [constructor|]. split; [done|]. intros i c r Hi. done.
  - rewrite fold_left_app. simpl. destruct IH as (Hnd & Hkeys & Hlast).
    split; [by apply dict_setitem_NoDup|]. split.
    + intros c. rewrite dict_setitem_keys, Hkeys, map_app, elem_of_app. simpl.
      rewrite list_elem_of_singleton. tauto.
    + intros i c r Hi Hlater.
      destruct (decide (i = length rs)) as [->|Hne].
      * rewrite lookup_app_r, Nat.sub_diag in Hi by done. injection Hi as -> ->.
        apply dict_setitem_same.
      * assert (Hlt : (i < length rs)%nat).
        { apply lookup_lt_Some in Hi. rewrite length_app in Hi. simpl in Hi. lia. }
        rewrite lookup_app_l in Hi by done.
        assert (Hc : c <> c0).
        { intros ->. apply (Hlater (length rs) r0 Hlt).
          by rewrite lookup_app_r, Nat.sub_diag by done. }
        apply dict_setitem_other; [done|].
        apply (Hlast i c r Hi). intros j r' Hj Hrs.
        apply (Hlater j r' Hj). rewrite lookup_app_l; [done|].
        by apply lookup_lt_Some in Hrs.
Qed.

End KeepsLast.

(** X23. The entry of a tick of [log_to_json] is a dict. Every command of the
    list is queried, in order, also one that occurs twice; the entry has each
    command once as a key, and holds under it the response to the last query
    of that command in the tick. *)
Theorem json_entry_keeps_last {py : PyFloatIO}
    (conn : OBD) (cmds : list Cmd) (w : World) :
  let data := (OBDDataLogger.query_entry conn cmds [] w).1 in
  let w' := (OBDDataLogger.query_entry conn cmds [] w).2 in
  queries (trace w') = (queries (trace w) ++ cmds)%list /\
  NoDup (map fst data) /\
  (forall c, c ∈ map fst data <-> c ∈ cmds) /\
  (forall i c, cmds !! i = Some c ->
     (forall j, (i < j)%nat -> cmds !! j <> Some c) ->
     (c, OBDDataLogger.json_cell (respond conn (sent w + i) c)) ∈ data).
Proof.
  intros data w'. subst data w'. rewrite query_entry_run. simpl.
  destruct (entry_data_last (responses conn cmds (sent w))) as (Hnd & Hkeys & Hlast).
  split; [by rewrite queries_app, query_events_queries|]. split; [exact Hnd|]. split.
  - intros c. by rewrite Hkeys, responses_names.
  - intros i c Hi Hlater.
    apply (Hlast i c (respond conn (sent w + i) c)).
    + by apply responses_lookup.
    + intros j r' Hj Hrs. apply (Hlater j Hj).
      pose proof (f_equal (fmap fst) Hrs) as E. simpl in E.
      rewrite <- list_lookup_fmap in E.
      change (fst <$> responses conn cmds (sent w)) with
        (map fst (responses conn cmds (sent w))) in E.
      by rewrite responses_names in E.
Qed.

(** X24. Logging after a failed connection. When [connect] returns False
    because the adapter is not connected, the logger still holds the
    connection object, and [log_to_csv] does not refuse: it sends its queries
    at every tick and returns a file that has at least one row and holds
    "NULL" for every command in every row. *)
Theorem logging_after_failed_connect {py : PyFloatIO}
    (conn : OBD) (log_dir : string) (cmds : list Cmd)
    (duration interval : Z) (fuel : nat) (w : World) :
  is_connected conn = false ->
  (forall n c, respond conn n c = None) ->
  causal conn ->
  0 < interval ->
  0 < duration ->
  (Z.to_nat (duration / interval + 1) < fuel)%nat ->
  let connected := (OBDDataLogger.connect (Some conn) (OBDDataLogger.__init__ log_dir)).1 in
  let logger := (OBDDataLogger.connect (Some conn) (OBDDataLogger.__init__ log_dir)).2 in
  connected = false /\
  exists csv_file w' rows,
    OBDDataLogger.log_to_csv fuel logger cmds duration interval w = (Some csv_file, w') /\
    logs w' !! csv_file =
      Some {| csv_rows := ("Timestamp" :: cmds) :: rows; json_doc := None |} /\
    rows <> [] /\
    (length (queries (trace w')) =
       length (queries (trace w)) + length rows * length cmds)%nat /\
    forall row, row ∈ rows -> tail row = replicate (length cmds) "NULL".
Proof.
  intros Hoff Hnull Hc Hpos Hd Hfuel connected logger. subst connected logger.
  simpl. split; [exact Hoff|].
  set (logger := {| OBDDataLogger.log_dir := log_dir;
                    OBDDataLogger.connection := Some conn;
                    OBDDataLogger.logging := false |}).
  destruct (log_to_csv_ticks fuel logger conn cmds duration interval w eq_refl Hc Hpos Hfuel)
    as (n & Hrun & Hend & Hticks). cbv zeta in Hrun, Hend.
  destruct (iter_file conn (log_path logger w) cmds interval n (log_start logger cmds w)
              ["Timestamp" :: cmds] None) as (records & Hlogs & Hlen & Hwf & Hsamples).
  { unfold log_start, set_logs. simpl. by rewrite lookup_insert_eq. }
  destruct (iter_trace conn (log_path logger w) cmds interval n (log_start logger cmds w))
    as (evs & Htrace & Hq & _).
  eexists _, _, (map csv_row records). split; [exact Hrun|]. simpl.
  split; [exact Hlogs|]. split; [|split].
  - destruct n as [|n]; [simpl in Hend; lia|].
    destruct records; [done|]. done.
  - rewrite queries_log, Htrace, queries_app, Hq, length_app. simpl.
    rewrite length_map, Hlen. f_equal.
    clear. induction n as [|n IH]; [done|]. simpl. rewrite length_app, IH. done.
  - intros row Hrow. apply list_elem_of_fmap in Hrow as (r & -> & Hr).
    apply list_elem_of_lookup in Hr as [k Hk].
    unfold csv_row. simpl. rewrite (Hsamples k r Hk).
    generalize (sent (log_start logger cmds w) + k * length cmds)%nat. intros first.
    clear -Hnull. revert first. induction cmds as [|c cs IH]; intros first; [done|].
    simpl. rewrite Hnull, IH. done.
Qed.

Lemma silent_conn_causal : causal silent_conn.
Proof. intros n c. simpl. lia. Defined.

Lemma logging_after_failed_connect_witness :
  is_connected silent_conn = false /\
  (forall n c, respond silent_conn n c = None) /\
  causal silent_conn /\
  0 < 1000000 /\
  0 < 2000000 /\
  (Z.to_nat (2000000 / 1000000 + 1) < 10%nat)%nat /\
  (let connected := (OBDDataLogger.connect (Some silent_conn) (OBDDataLogger.__init__ "logs")).1 in
  let logger := (OBDDataLogger.connect (Some silent_conn) (OBDDataLogger.__init__ "logs")).2 in
  connected = false /\
  exists csv_file w' rows,
    OBDDataLogger.log_to_csv 10%nat logger demo_cmds 2000000 1000000 empty_world = (Some csv_file, w') /\
    logs w' !! csv_file =
      Some {| csv_rows := ("Timestamp" :: demo_cmds) :: rows; json_doc := None |} /\
    rows <> [] /\
    (length (queries (trace w')) =
       length (queries (trace empty_world)) + length rows * length demo_cmds)%nat /\
    forall row, row ∈ rows -> tail row = replicate (length demo_cmds) "NULL").
Proof.
  assert (H1 : is_connected silent_conn = false) by (reflexivity).
  assert (H2 : (forall n c, respond silent_conn n c = None)) by (intros; reflexivity).
  assert (H3 : causal silent_conn) by (exact silent_conn_causal).
  assert (H4 : 0 < 1000000) by (lia).
  assert (H5 : 0 < 2000000) by (lia).
  assert (H6 : (Z.to_nat (2000000 / 1000000 + 1) < 10%nat)%nat) by (vm_compute; lia).
  exact (conj H1 (conj H2 (conj H3 (conj H4 (conj H5 (conj H6 (logging_after_failed_connect (py := CPython.io) silent_conn "logs" demo_cmds 2000000 1000000 10%nat empty_world H1 H2 H3 H4 H5 H6))))))).
Defined.

(** ** The script of the diagnostic tool *)

Section ReaderScript.
Import OBDDiagnosticTool.

(** The monitoring loop queries commands of its table that are supported. *)
Lemma live_loop_asked fuel self conn start_time duration data w :
  exists evs,
    trace (live_loop fuel self conn start_time duration data w).2 = (trace w ++ evs)%list /\
    Forall (fun c => c ∈ map snd (live_asked self live_commands)) (queries evs) /\
    closes evs = 0%nat.
Proof.
  revert data w. induction fuel as [|fuel IH]; intros data w.
  - exists []. simpl. rewrite app_nil_r. by repeat split.
  - rewrite live_loop_step. destruct (now w - start_time <? duration).
    + match goal with
      | |- context [live_loop fuel self conn start_time duration ?d ?w1] =>
          destruct (IH d w1) as (evs & Htrace & Hq & Hc)
      end.
      rewrite Htrace. simpl.
      exists ((query_events conn (map snd (live_asked self live_commands)) (now w) (sent w) ++
               [Sleep (now w + tick_work conn (map snd (live_asked self live_commands)) (sent w))
                      500000]) ++ evs)%list.
      split; [by rewrite <- !app_assoc|]. split.
      * rewrite !queries_app, query_events_queries. apply Forall_app. split; [|done].
        apply Forall_app. split; [|constructor].
        by apply Forall_forall.
      * rewrite !closes_app, query_events_closes, Hc. reflexivity.
    + exists []. simpl. rewrite app_nil_r. by repeat split.
Qed.

End ReaderScript.

Section ReaderRun.
Context `{PyFloatIO}.

(** The end of the script, from the monitoring on. *)
Lemma reader_tail fuel tool conn w res w' :
  OBDDiagnosticTool.connection tool = Some conn ->
  (live ← OBDDiagnosticTool.monitor_live_data fuel tool 10000000;
   match live with
   | None => mret None
   | Some live_data =>
       if forallb summable (map snd (map_to_list live_data)) then
         OBDDiagnosticTool.close tool;; mret (Some obd_reader.Complete)
       else mret (Some obd_reader.TypeError)
   end) w = (res, w') ->
  exists evs,
    trace w' = (trace w ++ evs)%list /\
    Forall (fun c => c ∈ map snd (live_asked tool OBDDiagnosticTool.live_commands))
           (queries evs) /\
    closes evs = match res with Some obd_reader.Complete => 1%nat | _ => 0%nat end.
Proof.
  intros Hconn Hrun. unfold mbind, M_bind in Hrun.
  assert (Hloop : exists evs,
    trace (OBDDiagnosticTool.monitor_live_data fuel tool 10000000 w).2 = (trace w ++ evs)%list /\
    Forall (fun c => c ∈ map snd (live_asked tool OBDDiagnosticTool.live_commands))
           (queries evs) /\
    closes evs = 0%nat).
  { unfold OBDDiagnosticTool.monitor_live_data. rewrite Hconn.
    unfold time_time at 1. unfold mbind, M_bind. apply live_loop_asked. }
  destruct Hloop as (evs & Htrace & Hq & Hc).
  destruct (OBDDiagnosticTool.monitor_live_data fuel tool 10000000 w) as [[live_data|] w1].
  - simpl in Htrace.
    destruct (forallb summable (map snd (map_to_list live_data))).
    + unfold OBDDiagnosticTool.close in Hrun. rewrite Hconn in Hrun.
      unfold connection_close, time_time, emit, mbind, M_bind, mret, M_ret in Hrun.
      simpl in Hrun. injection Hrun as <- <-. simpl.
      exists (evs ++ [Close (now w1)])%list. rewrite Htrace, <- app_assoc.
      split; [done|]. split.
      * rewrite queries_app. simpl. by rewrite app_nil_r.
      * rewrite closes_app, Hc. reflexivity.
    + unfold mret, M_ret in Hrun. injection Hrun as <- <-.
      exists evs. by repeat split.
  - unfold mret, M_ret in Hrun. injection Hrun as <- <-. simpl in *.
    exists evs. by repeat split.
Qed.

(** A run of the script of a connected adapter, whatever its result. *)
Lemma reader_run fuel conn w res w' :
  is_connected conn = true ->
  obd_reader.main fuel (Some conn) w = (res, w') ->
  let tool := (OBDDiagnosticTool.connect (Some conn) OBDDiagnosticTool.__init__).2 in
  exists live_queries,
    trace w' =
      (trace w ++
       query_events conn (map fst (info_asked tool OBDDiagnosticTool.info_commands))
                    (now w) (sent w) ++
       [Query (now w + tick_work conn
                         (map fst (info_asked tool OBDDiagnosticTool.info_commands)) (sent w))
              commands.GET_DTC] ++ live_queries)%list /\
    Forall (fun c => c ∈ map snd (live_asked tool OBDDiagnosticTool.live_commands))
           (queries live_queries) /\
    closes live_queries = match res with Some obd_reader.Complete => 1%nat | _ => 0%nat end.
Proof.
  intros Hon Hrun. unfold obd_reader.main in Hrun. simpl in Hrun. rewrite Hon in Hrun.
  simpl. rewrite Hon. simpl.
  set (tool := {| OBDDiagnosticTool.connection := Some conn;
                  OBDDiagnosticTool.supported_commands := obd.supported_commands conn |})
    in *.
  unfold mbind at 1, M_bind at 1 in Hrun.
  unfold OBDDiagnosticTool.get_vehicle_info at 1 in Hrun.
  cbn [OBDDiagnosticTool.connection tool] in Hrun.
  rewrite info_loop_query_all in Hrun.
  set (qs := info_asked tool OBDDiagnosticTool.info_commands) in *.
  destruct (query_all_lookup conn qs ∅ w) as (Hw1 & _ & _).
  { apply info_asked_keys. compute_done. }
  destruct (DiagnosticReportGenerator.query_all conn qs ∅ w) as [info w1].
  cbn [fst snd] in Hw1.
  assert (Hnow1 : now w1 = now w + tick_work conn (map fst qs) (sent w)) by (by rewrite Hw1).
  assert (Htrace1 : trace w1 = (trace w ++ query_events conn (map fst qs) (now w) (sent w))%list)
    by (by rewrite Hw1).
  clear Hw1.
  unfold mbind at 1, M_bind at 1 in Hrun.
  unfold OBDDiagnosticTool.get_fault_codes at 1 in Hrun.
  cbn [OBDDiagnosticTool.connection tool] in Hrun.
  unfold mbind at 1, M_bind at 1, query at 1 in Hrun.
  set (w2 := {| now := now w1 + latency conn (sent w1) commands.GET_DTC;
                sent := S (sent w1);
                trace := trace w1 ++ [Query (now w1) commands.GET_DTC];
                logs := logs w1; reports := reports w1; graphs_dir := graphs_dir w1 |})
    in *.
  assert (Htrace2 : trace w2 =
    (trace w ++ query_events conn (map fst qs) (now w) (sent w) ++
     [Query (now w + tick_work conn (map fst qs) (sent w)) commands.GET_DTC])%list).
  { unfold w2. simpl. by rewrite Htrace1, Hnow1, <- app_assoc. }
  assert (Hgo : forall codes,
    (if negb (truthy codes) || iterable codes then
       live ← OBDDiagnosticTool.monitor_live_data fuel tool 10000000;
       match live with
       | None => mret None
       | Some live_data =>
           if forallb summable (map snd (map_to_list live_data)) then
             OBDDiagnosticTool.close tool;; mret (Some obd_reader.Complete)
           else mret (Some obd_reader.TypeError)
       end
     else mret (Some obd_reader.TypeError)) w2 = (res, w') ->
    exists live_queries,
      trace w' =
        (trace w ++ query_events conn (map fst qs) (now w) (sent w) ++
         [Query (now w + tick_work conn (map fst qs) (sent w)) commands.GET_DTC] ++
         live_queries)%list /\
      Forall (fun c => c ∈ map snd (live_asked tool OBDDiagnosticTool.live_commands))
             (queries live_queries) /\
      closes live_queries = match res with Some obd_reader.Complete => 1%nat | _ => 0%nat end).
  { intros codes Hcodes. destruct (negb (truthy codes) || iterable codes).
    - destruct (reader_tail fuel tool conn w2 res w' eq_refl Hcodes)
        as (evs & Htrace & Hq & Hc).
      exists evs. split; [|by split]. rewrite Htrace, Htrace2. by rewrite <- !app_assoc.
    - unfold mret, M_ret in Hcodes. injection Hcodes as <- <-.
      exists []. split; [|by split]. rewrite Htrace2. by rewrite !app_nil_r. }
  destruct (respond conn (sent w1) commands.GET_DTC) as [codes|].
  - unfold mret at 1, M_ret at 1 in Hrun. exact (Hgo codes Hrun).
  - unfold mret at 1, M_ret at 1 in Hrun. exact (Hgo (Codes []) Hrun).
Qed.

End ReaderRun.

(** X25. The script of the diagnostic tool only reads. It never sends
    CLEAR_DTC. When the connection fails it sends nothing at all; when it
    succeeds it queries the supported ones of VIN, ELM_VERSION and
    ELM_VOLTAGE, then GET_DTC once, whether it is supported or not, and after
    that only commands of the monitoring table that are supported. The
    connection is closed once when the script runs to its end, and not at
    all otherwise. *)
Theorem reader_script_only_reads {py : PyFloatIO}
    (fuel : nat) (port : option OBD) (w : World) :
  let r := obd_reader.main fuel port w in
  let tool := (OBDDiagnosticTool.connect port OBDDiagnosticTool.__init__).2 in
  exists evs,
    trace r.2 = (trace w ++ evs)%list /\
    (commands.CLEAR_DTC ∉ queries evs) /\
    ((OBDDiagnosticTool.connect port OBDDiagnosticTool.__init__).1 = false ->
       evs = [] /\ r.1 = Some obd_reader.Failed) /\
    ((OBDDiagnosticTool.connect port OBDDiagnosticTool.__init__).1 = true ->
       exists live_queries,
         queries evs =
           (map fst (info_asked tool OBDDiagnosticTool.info_commands) ++
            [commands.GET_DTC] ++ live_queries)%list /\
         Forall (fun c =>
                   c ∈ map snd OBDDiagnosticTool.live_commands /\
                   c ∈ OBDDiagnosticTool.supported_commands tool) live_queries) /\
    closes evs = match r.1 with Some obd_reader.Complete => 1%nat | _ => 0%nat end.
Proof.
  intros r tool.
  destruct port as [conn|]; [destruct (is_connected conn) eqn:Hon|].
  - destruct (obd_reader.main fuel (Some conn) w) as [res w'] eqn:Hrun.
    destruct (reader_run fuel conn w res w' Hon Hrun) as (lq & Htrace & Hq & Hc).
    cbv zeta in Htrace, Hq. fold tool in Htrace, Hq. subst r. simpl.
    assert (Hlive : Forall (fun c =>
                      c ∈ map snd OBDDiagnosticTool.live_commands /\
                      c ∈ OBDDiagnosticTool.supported_commands tool) (queries lq)).
    { eapply Forall_impl; [exact Hq|]. intros c Hin. simpl in Hin.
      apply list_elem_of_fmap in Hin as ([k c'] & -> & Hin).
      apply list_elem_of_filter in Hin as [Hs Hin]. split; [|exact Hs].
      exact (list_elem_of_fmap_2 snd _ _ Hin). }
    eexists. split; [exact Htrace|]. rewrite !queries_app, query_events_queries.
    rewrite !closes_app, query_events_closes. split; [|split; [|split]].
    + rewrite !elem_of_app. intros [Hin|[Hin|Hin]].
      * by apply (clear_not_in_info tool).
      * simpl in Hin. apply elem_of_cons in Hin as [?|Hin]; [done|by apply elem_of_nil in Hin].
      * rewrite Forall_forall in Hlive. destruct (Hlive _ Hin) as [Hl _].
        simpl in Hl. repeat (apply elem_of_cons in Hl as [Hl|Hl]; [discriminate|]).
        by apply elem_of_nil in Hl.
    + rewrite Hon. discriminate.
    + intros _. exists (queries lq). split; [done|exact Hlive].
    + simpl. exact Hc.
  - subst r. unfold obd_reader.main. simpl. rewrite Hon. simpl.
    exists []. rewrite app_nil_r. split; [done|]. split; [by intros Hin; apply elem_of_nil in Hin|].
    split; [done|]. split; [discriminate|done].
  - subst r. unfold obd_reader.main. simpl.
    exists []. rewrite app_nil_r. split; [done|]. split; [by intros Hin; apply elem_of_nil in Hin|].
    split; [done|]. split; [discriminate|done].
Qed.
